(** * Order lifecycle and escrow coordination of the P2P trading bot

    A shallow embedding of the command handlers that [initialize] registers
    on the bot ([takesell], [release], [dispute], [cancel], [cancelorder],
    [settleorder], [cooperativecancel], [ban]) and of [earningsMessage] of
    the community module.

    A handler is an [async] function whose body is one [try]/[catch]; every
    [await]ed call can reject.  The embedding is an exception/state monad
    over a world made of the persisted documents and of the chronological
    log of the calls the handlers made.  Whether an awaited call rejects is
    decided by an oracle of the environment, which sees the log so far. *)

From Stdlib Require Import ZArith QArith Qround.
From stdpp Require Import base option list strings gmap.
From Equations Require Import Equations.

Local Open Scope Z_scope.

(** ** Documents *)

Abbreviation ObjectId := string (only parsing).

(** The two parties of a trade; the source selects the flags of an order
    with the keys [`${initiator}_dispute`] and
    [`${initiator}_cooperativecancel`]. *)
Module Role.
Inductive t := buyer | seller.
End Role.

Module Order.
Record t := mk {
  _id : ObjectId;
  status : string;
  amount : Q;
  fee : Q;
  creator_id : option ObjectId;
  buyer_id : option ObjectId;
  seller_id : option ObjectId;
  buyer_invoice : option string;
  hash : option string;
  secret : option string;
  taken_at : option Z;
  canceled_by : option ObjectId;
  buyer_cooperativecancel : bool;
  seller_cooperativecancel : bool;
  buyer_dispute : bool;
  seller_dispute : bool;
  tg_channel_message1 : option Z;
  tg_channel_message2 : option Z;
  tg_chat_id : option Z;
  tg_group_message2 : option Z;
}.

(** Assignments [order.f = v]. *)
Definition set_status (v : string) (o : t) : t :=
  let 'mk i _ a f c b s bi h se ta cb bc sc bd sd m1 m2 ch g2 := o in
  mk i v a f c b s bi h se ta cb bc sc bd sd m1 m2 ch g2.
Definition set_buyer_id (v : option ObjectId) (o : t) : t :=
  let 'mk i st a f c _ s bi h se ta cb bc sc bd sd m1 m2 ch g2 := o in
  mk i st a f c v s bi h se ta cb bc sc bd sd m1 m2 ch g2.
Definition set_buyer_invoice (v : option string) (o : t) : t :=
  let 'mk i st a f c b s _ h se ta cb bc sc bd sd m1 m2 ch g2 := o in
  mk i st a f c b s v h se ta cb bc sc bd sd m1 m2 ch g2.
Definition set_hash (v : option string) (o : t) : t :=
  let 'mk i st a f c b s bi _ se ta cb bc sc bd sd m1 m2 ch g2 := o in
  mk i st a f c b s bi v se ta cb bc sc bd sd m1 m2 ch g2.
Definition set_secret (v : option string) (o : t) : t :=
  let 'mk i st a f c b s bi h _ ta cb bc sc bd sd m1 m2 ch g2 := o in
  mk i st a f c b s bi h v ta cb bc sc bd sd m1 m2 ch g2.
Definition set_taken_at (v : option Z) (o : t) : t :=
  let 'mk i st a f c b s bi h se _ cb bc sc bd sd m1 m2 ch g2 := o in
  mk i st a f c b s bi h se v cb bc sc bd sd m1 m2 ch g2.
Definition set_canceled_by (v : option ObjectId) (o : t) : t :=
  let 'mk i st a f c b s bi h se ta _ bc sc bd sd m1 m2 ch g2 := o in
  mk i st a f c b s bi h se ta v bc sc bd sd m1 m2 ch g2.
Definition set_buyer_cooperativecancel (v : bool) (o : t) : t :=
  let 'mk i st a f c b s bi h se ta cb _ sc bd sd m1 m2 ch g2 := o in
  mk i st a f c b s bi h se ta cb v sc bd sd m1 m2 ch g2.
Definition set_seller_cooperativecancel (v : bool) (o : t) : t :=
  let 'mk i st a f c b s bi h se ta cb bc _ bd sd m1 m2 ch g2 := o in
  mk i st a f c b s bi h se ta cb bc v bd sd m1 m2 ch g2.
Definition set_buyer_dispute (v : bool) (o : t) : t :=
  let 'mk i st a f c b s bi h se ta cb bc sc _ sd m1 m2 ch g2 := o in
  mk i st a f c b s bi h se ta cb bc sc v sd m1 m2 ch g2.
Definition set_seller_dispute (v : bool) (o : t) : t :=
  let 'mk i st a f c b s bi h se ta cb bc sc bd _ m1 m2 ch g2 := o in
  mk i st a f c b s bi h se ta cb bc sc bd v m1 m2 ch g2.

(** [order[`${role}_cooperativecancel`]] and its assignment. *)
Definition cooperativecancel (r : Role.t) (o : t) : bool :=
  match r with
  | Role.buyer => buyer_cooperativecancel o
  | Role.seller => seller_cooperativecancel o
  end.
Definition set_cooperativecancel (r : Role.t) (v : bool) (o : t) : t :=
  match r with
  | Role.buyer => set_buyer_cooperativecancel v o
  | Role.seller => set_seller_cooperativecancel v o
  end.

(** [order[`${role}_dispute`]] and its assignment. *)
Definition dispute (r : Role.t) (o : t) : bool :=
  match r with
  | Role.buyer => buyer_dispute o
  | Role.seller => seller_dispute o
  end.
Definition set_dispute (r : Role.t) (v : bool) (o : t) : t :=
  match r with
  | Role.buyer => set_buyer_dispute v o
  | Role.seller => set_seller_dispute v o
  end.
End Order.

Module User.
Record t := mk {
  _id : ObjectId;
  username : string;
  disputes : Z;
  banned : bool;
}.
Definition set_disputes (v : Z) (u : t) : t :=
  mk (_id u) (username u) v (banned u).
Definition set_banned (v : bool) (u : t) : t :=
  mk (_id u) (username u) (disputes u) v.
End User.

Module Community.
Record t := mk {
  _id : ObjectId;
  earnings : Z;
  orders_to_redeem : Z;
}.
End Community.

Module PendingPayment.
Record t := mk {
  community_id : ObjectId;
  attempts : Z;
  paid : bool;
}.
End PendingPayment.

(** A Telegraf update context, as far as a handler and its validators
    read it: the text and the sender of the message, the name of the bot,
    and the first group of the matched callback data. *)
Record Ctx := {
  message_text : string;
  message_from : string;
  botInfo_username : string;
  match_1 : string;            (* ctx.match[1] *)
}.

(** The object [createHoldInvoice] resolves to. *)
Record HoldInvoice := {
  hi_request : string;
  hi_hash : string;
  hi_secret : string;
}.

(** ** JavaScript values *)

(** [!!v] for a value that is a string or [undefined]: the empty string is
    falsy as well. *)
Definition truthy (v : option string) : bool :=
  match v with
  | Some s => negb (String.eqb s "")
  | None => false
  end.

(** [id == v], an identifier against a field that may be [undefined]. *)
Definition loose_eq (id : ObjectId) (v : option ObjectId) : bool :=
  match v with
  | Some i => String.eqb id i
  | None => false
  end.

(** [n < 0] for a number that may be [undefined] ([undefined < 0] is
    [false]). *)
Definition negative (v : option Z) : bool :=
  match v with
  | Some n => n <? 0
  | None => false
  end.

(** ** Calls to the outside *)

(** The texts the handlers send.  Their wording (Spanish templates in the
    source, i18n keys in the community module) is presentation; a text is
    identified by its template and by the values interpolated in it. *)
Module Text.
Inductive t :=
| only_untaken_orders                 (* /cancel on a taken order *)
| you_canceled (id : ObjectId)        (* "Has cancelado la orden Id: ..." *)
| admin_canceled_seller (id : ObjectId)
| admin_canceled_buyer (id : ObjectId)
| you_completed (id : ObjectId)       (* "Has completado la orden Id: ..." *)
| admin_completed_seller (id : ObjectId)
| admin_completed_buyer (id : ObjectId)
| order_completed (id : ObjectId)     (* "Orden ... COMPLETADA" *)
| only_active_orders                  (* /cooperativecancel, not ACTIVE *)
| already_requested                   (* "Ya has realizado esta operacion, ..." *)
| counterparty_agreed (id : ObjectId)
| cancel_initiated (id : ObjectId)
| counterparty_wants_cancel (id : ObjectId)
| cooperativecancel_command (id : ObjectId)   (* "/cooperativecancel ..." *)
| invoice_already_being_paid
| current_earnings (ordersToRedeem earnings : Z)
| withdraw_earnings.
End Text.

Record InlineButton := {
  text : Text.t;
  callback_data : string;
}.

(** A chat is named by [process.env.CHANNEL] or by the number stored in
    [order.tg_chat_id]. *)
Inductive Chat :=
| channel (name : string)
| chat (id : option Z).

(** One constructor per awaited function, with the arguments the handler
    passes ([bot] is left out: there is one bot). *)
Module Call.
Inductive t :=
(* ./validations and ./ordersActions *)
| validateUser (ctx : Ctx) (start : bool)
| validateAdmin (ctx : Ctx)
| validateParams (ctx : Ctx) (user : User.t) (paramNumber : nat)
    (errOutputString : string)
| validateObjectId (user : User.t) (id : string)
| validateTakeSell (ctx : Ctx) (user : User.t)
| validateTakeSellOrder (user : User.t) (lnInvoice : string)
    (order : option Order.t)
| validateReleaseOrder (user : User.t) (orderId : string)
| validateDisputeOrder (user : User.t) (orderId : string)
| getOrder (user : User.t) (orderId : string)
(* ../models *)
| Order_findOne (id : string)
| User_findOne (id : option ObjectId)
| User_findOne_username (username : string)
| Community_findById (id : string)
| PendingPayment_findOne (community_id : string) (attempts_lt : Z)
| Order_save (order : Order.t)
| User_save (user : User.t)
(* ../ln *)
| createHoldInvoice (amount : Z) (description : string)
| subscribeInvoice (hash : string)
| settleHoldInvoice (secret : option string)
| cancelHoldInvoice (hash : option string)
(* ./messages *)
| customMessage (user : option User.t) (message : Text.t)
| beginDisputeMessage (buyer seller : User.t) (order : Order.t)
    (initiator : Role.t)
| invoicePaymentRequestMessage (seller : option User.t) (request : string)
| takeSellWaitingSellerToPayMessage (user : User.t) (order : Order.t)
| invalidDataMessage (user : User.t)
| notFoundUserMessage (adminUser : User.t)
| userBannedMessage (adminUser : User.t)
(* telegraf *)
| telegram_deleteMessage (chatId : Chat) (messageId : option Z)
| telegram_editMessageText (chatId : Chat) (messageId : option Z)
    (text : Text.t)
| ctx_reply (text : Text.t) (extra : option (list (list InlineButton))).
End Call.

Inductive Error :=
| Rejected (c : Call.t)            (* the awaited call rejected *)
| TypeError (reading : string)     (* property read on null *)
| ReferenceError (name : string).  (* read of an unbound identifier *)

Inductive Event :=
| Called (c : Call.t)
| Printed (e : Error)     (* console.log(error) *)
| Logged (e : Error).     (* logger.error(error) *)

(** ** The persisted documents and the world *)

Record DB := {
  orders : gmap string Order.t;
  users : gmap string User.t;
  communities : gmap string Community.t;
  pendingpayments : list PendingPayment.t;
}.

Record World := {
  db : DB;
  trace : list Event;     (* oldest first *)
}.

Definition store_order (o : Order.t) (d : DB) : DB :=
  {| orders := <[Order._id o := o]> (orders d);
     users := users d;
     communities := communities d;
     pendingpayments := pendingpayments d |}.

Definition store_user (u : User.t) (d : DB) : DB :=
  {| orders := orders d;
     users := <[User._id u := u]> (users d);
     communities := communities d;
     pendingpayments := pendingpayments d |}.

(** [{ _id: id }] on the users, for an identifier that may be [undefined]
    (no user is found then). *)
Definition find_user (d : DB) (id : option ObjectId) : option User.t :=
  match id with
  | Some i => users d !! i
  | None => None
  end.

(** ** The environment

    [process.env] (a variable stands for the number its string denotes),
    the clock, the outcome of every awaited call, and the results of the
    functions of this repository that the handlers import from modules
    other than the two embedded here ([./validations], [./ordersActions],
    [../ln]).  Those functions are parameters: a result is any function of
    the documents and of the arguments.  A validator reports to the user
    and returns; it is taken to write no document and to make no escrow
    call, so its call is one entry of the log. *)
Record Env := {
  CHANNEL : string;
  MAX_DISPUTES : Z;
  PAYMENT_ATTEMPTS : Z;
  clock : list Event -> Z;
  throws : list Event -> Call.t -> bool;
  validateUser_result : DB -> Ctx -> bool -> option User.t;
  validateAdmin_result : DB -> Ctx -> option User.t;
  validateParams_result : Ctx -> User.t -> nat -> string -> list string;
  validateObjectId_result : User.t -> string -> bool;
  validateTakeSell_result :
    DB -> Ctx -> User.t -> option (option string * string);
  validateTakeSellOrder_result :
    DB -> User.t -> string -> option Order.t -> bool;
  validateReleaseOrder_result : DB -> User.t -> string -> option Order.t;
  validateDisputeOrder_result : DB -> User.t -> string -> option Order.t;
  getOrder_result : DB -> User.t -> string -> option Order.t;
  createHoldInvoice_result : Z -> string -> HoldInvoice;
}.

(** ** The handler monad *)

Inductive Res (A : Type) :=
| Normal (a : A)       (* the statement completed *)
| Returned             (* a [return] left the handler *)
| Thrown (e : Error).  (* an exception is propagating *)
Arguments Normal {A} a.
Arguments Returned {A}.
Arguments Thrown {A} e.

Definition M (A : Type) : Type := World -> Res A * World.

Definition ret {A} (a : A) : M A := fun w => (Normal a, w).

Definition bind {A B} (m : M A) (k : A -> M B) : M B :=
  fun w =>
    match m w with
    | (Normal a, w') => k a w'
    | (Returned, w') => (Returned, w')
    | (Thrown e, w') => (Thrown e, w')
    end.

Notation "x <- m ;; k" := (bind m (fun x => k))
  (at level 100, m at next level, right associativity).
Notation "m ;; k" := (bind m (fun _ => k))
  (at level 100, right associativity).

Definition return_ {A} : M A := fun w => (Returned, w).

Definition throw {A} (e : Error) : M A := fun w => (Thrown e, w).

(** [try { body } catch (error) { handler }]; a [return] inside [body]
    leaves the function, not only the block. *)
Definition try_catch (body : M unit) (handler : Error -> M unit) : M unit :=
  fun w =>
    match body w with
    | (Thrown e, w') => handler e w'
    | r => r
    end.

Definition log (ev : Event) (w : World) : World :=
  {| db := db w; trace := trace w ++ [ev] |}.

Definition console_log (e : Error) : M unit :=
  fun w => (Normal tt, log (Printed e) w).

Definition logger_error (e : Error) : M unit :=
  fun w => (Normal tt, log (Logged e) w).

(** [if (!v) return;] followed by uses of [v]. *)
Definition or_return {A} (v : option A) : M A :=
  match v with
  | Some a => ret a
  | None => return_
  end.

(** The same for a string: the empty string is falsy too. *)
Definition or_return_falsy (v : option string) : M string :=
  match v with
  | Some s => if String.eqb s "" then return_ else ret s
  | None => return_
  end.

(** [v.field] where [v] may be [null]. *)
Definition read {A} (what : string) (v : option A) : M A :=
  match v with
  | Some a => ret a
  | None => throw (TypeError what)
  end.

Definition when (b : bool) (m : M unit) : M unit :=
  if b then m else ret tt.

(** Truthiness of the result of a query: a document, or [null]. *)
Definition found {A} (v : option A) : bool :=
  match v with
  | Some _ => true
  | None => false
  end.

(** ** The awaited functions *)

Section Handlers.
Variable env : Env.

(** [await f(...)]: the call is logged, and rejects when the oracle says
    so. *)
Definition await (c : Call.t) : M unit :=
  fun w =>
    if throws env (trace w) c
    then (Thrown (Rejected c), log (Called c) w)
    else (Normal tt, log (Called c) w).

(** An awaited call that resolves to a value computed from the
    documents. *)
Definition await_value {A} (c : Call.t) (result : DB -> A) : M A :=
  await c ;; fun w => (Normal (result (db w)), w).

Definition write (f : DB -> DB) : M unit :=
  fun w => (Normal tt, {| db := f (db w); trace := trace w |}).

(** *** ./validations, ./ordersActions: results taken from [env]. *)

Definition validateUser (ctx : Ctx) (start : bool) : M (option User.t) :=
  await_value (Call.validateUser ctx start)
    (fun d => validateUser_result env d ctx start).

Definition validateAdmin (ctx : Ctx) : M (option User.t) :=
  await_value (Call.validateAdmin ctx)
    (fun d => validateAdmin_result env d ctx).

Definition validateParams (ctx : Ctx) (user : User.t) (paramNumber : nat)
    (errOutputString : string) : M (list string) :=
  await_value (Call.validateParams ctx user paramNumber errOutputString)
    (fun _ => validateParams_result env ctx user paramNumber errOutputString).

Definition validateObjectId (user : User.t) (id : string) : M bool :=
  await_value (Call.validateObjectId user id)
    (fun _ => validateObjectId_result env user id).

Definition validateTakeSell (ctx : Ctx) (user : User.t)
    : M (option (option string * string)) :=
  await_value (Call.validateTakeSell ctx user)
    (fun d => validateTakeSell_result env d ctx user).

Definition validateTakeSellOrder (user : User.t) (lnInvoice : string)
    (order : option Order.t) : M bool :=
  await_value (Call.validateTakeSellOrder user lnInvoice order)
    (fun d => validateTakeSellOrder_result env d user lnInvoice order).

Definition validateReleaseOrder (user : User.t) (orderId : string)
    : M (option Order.t) :=
  await_value (Call.validateReleaseOrder user orderId)
    (fun d => validateReleaseOrder_result env d user orderId).

Definition validateDisputeOrder (user : User.t) (orderId : string)
    : M (option Order.t) :=
  await_value (Call.validateDisputeOrder user orderId)
    (fun d => validateDisputeOrder_result env d user orderId).

Definition getOrder (user : User.t) (orderId : string) : M (option Order.t) :=
  await_value (Call.getOrder user orderId)
    (fun d => getOrder_result env d user orderId).

(** *** ../models: queries and [save] on the persisted documents. *)

(** [Order.findOne({ _id })] *)
Definition Order_findOne (id : string) : M (option Order.t) :=
  await_value (Call.Order_findOne id) (fun d => orders d !! id).

(** [User.findOne({ _id })] *)
Definition User_findOne (id : option ObjectId) : M (option User.t) :=
  await_value (Call.User_findOne id) (fun d => find_user d id).

(** [User.findOne({ username })] *)
Definition User_findOne_username (username : string) : M (option User.t) :=
  await_value (Call.User_findOne_username username)
    (fun d =>
       List.find (fun u => String.eqb (User.username u) username)
         (map snd (map_to_list (users d)))).

(** [Community.findById(id)] *)
Definition Community_findById (id : string) : M (option Community.t) :=
  await_value (Call.Community_findById id) (fun d => communities d !! id).

(** [PendingPayment.findOne({ community_id, attempts: { $lt }, paid: false })] *)
Definition PendingPayment_findOne (community_id : string) (attempts_lt : Z)
    : M (option PendingPayment.t) :=
  await_value (Call.PendingPayment_findOne community_id attempts_lt)
    (fun d =>
       List.find
         (fun p =>
            String.eqb (PendingPayment.community_id p) community_id
            && (PendingPayment.attempts p <? attempts_lt)
            && negb (PendingPayment.paid p))
         (pendingpayments d)).

(** [order.save()]: nothing is written when the call rejects. *)
Definition Order_save (order : Order.t) : M unit :=
  await (Call.Order_save order) ;; write (store_order order).

(** [user.save()] *)
Definition User_save (user : User.t) : M unit :=
  await (Call.User_save user) ;; write (store_user user).

(** *** ../ln *)

(** [const { request, hash, secret } = await createHoldInvoice(...)]: a
    call that resolves to no object makes the destructuring throw, so
    either way the statement throws or binds the three fields. *)
Definition createHoldInvoice (amount : Z) (description : string)
    : M HoldInvoice :=
  await_value (Call.createHoldInvoice amount description)
    (fun _ => createHoldInvoice_result env amount description).

Definition subscribeInvoice (hash : string) : M unit :=
  await (Call.subscribeInvoice hash).

Definition settleHoldInvoice (secret : option string) : M unit :=
  await (Call.settleHoldInvoice secret).

Definition cancelHoldInvoice (hash : option string) : M unit :=
  await (Call.cancelHoldInvoice hash).

(** *** ./messages and telegraf *)

Definition customMessage (user : option User.t) (message : Text.t) : M unit :=
  await (Call.customMessage user message).

Definition beginDisputeMessage (buyer seller : User.t) (order : Order.t)
    (initiator : Role.t) : M unit :=
  await (Call.beginDisputeMessage buyer seller order initiator).

Definition invoicePaymentRequestMessage (seller : option User.t)
    (request : string) : M unit :=
  await (Call.invoicePaymentRequestMessage seller request).

Definition takeSellWaitingSellerToPayMessage (user : User.t)
    (order : Order.t) : M unit :=
  await (Call.takeSellWaitingSellerToPayMessage user order).

Definition invalidDataMessage (user : User.t) : M unit :=
  await (Call.invalidDataMessage user).

Definition notFoundUserMessage (adminUser : User.t) : M unit :=
  await (Call.notFoundUserMessage adminUser).

Definition userBannedMessage (adminUser : User.t) : M unit :=
  await (Call.userBannedMessage adminUser).

Definition telegram_deleteMessage (chatId : Chat) (messageId : option Z)
    : M unit :=
  await (Call.telegram_deleteMessage chatId messageId).

Definition telegram_editMessageText (chatId : Chat) (messageId : option Z)
    (text : Text.t) : M unit :=
  await (Call.telegram_editMessageText chatId messageId text).

Definition ctx_reply (text : Text.t)
    (extra : option (list (list InlineButton))) : M unit :=
  await (Call.ctx_reply text extra).

(** [Date.now()] *)
Definition Date_now : M Z :=
  fun w => (Normal (clock env (trace w)), w).

(** ** The handlers *)

(** [exports.earningsMessage] *)
Definition earningsMessage (ctx : Ctx) : M unit :=
  try_catch (
    let communityId := match_1 ctx in
    isScheduled <- PendingPayment_findOne communityId (PAYMENT_ATTEMPTS env) ;;
    when (found isScheduled)
      (ctx_reply Text.invoice_already_being_paid None ;; return_) ;;
    community <- Community_findById communityId ;;
    community <- read "earnings" community ;;
    let button :=
      if Community.earnings community >? 0
      then Some [[ {| text := Text.withdraw_earnings;
                      callback_data :=
                        "withdrawEarnings_" +:+ Community._id community |} ]]
      else None in
    ctx_reply
      (Text.current_earnings (Community.orders_to_redeem community)
         (Community.earnings community))
      button
  ) (fun error => logger_error error).

(** [bot.command('takesell', ...)].  The numbers of an order are the
    rationals they denote, and [Math.floor(order.amount + order.fee)] is
    taken of their exact sum; the handler adds them in binary64, so its
    amount is one more when the addition rounds up to an integer.  No
    statement below depends on the value of the amount. *)
Definition takesell (ctx : Ctx) : M unit :=
  try_catch (
    user <- validateUser ctx false ;;
    user <- or_return user ;;
    takeSellParams <- validateTakeSell ctx user ;;
    takeSellParams <- or_return takeSellParams ;;
    let '(orderId, lnInvoice) := takeSellParams in
    orderId <- or_return_falsy orderId ;;
    try_catch (
      order <- Order_findOne orderId ;;
      ok <- validateTakeSellOrder user lnInvoice order ;;
      when (negb ok) return_ ;;
      order <- read "status" order ;;
      let order := Order.set_status "WAITING_PAYMENT" order in
      let order := Order.set_buyer_id (Some (User._id user)) order in
      let order := Order.set_buyer_invoice (Some lnInvoice) order in
      seller <- User_findOne (Order.creator_id order) ;;
      let description := "Venta por @" +:+ botInfo_username ctx in
      let amount := Qfloor (Order.amount order + Order.fee order) in
      invoice <- createHoldInvoice amount description ;;
      let order := Order.set_hash (Some (hi_hash invoice)) order in
      let order := Order.set_secret (Some (hi_secret invoice)) order in
      now <- Date_now ;;
      let order := Order.set_taken_at (Some now) order in
      Order_save order ;;
      subscribeInvoice (hi_hash invoice) ;;
      invoicePaymentRequestMessage seller (hi_request invoice) ;;
      takeSellWaitingSellerToPayMessage user order
    ) (fun e =>
      console_log e ;;
      invalidDataMessage user)
  ) (fun error => console_log error).

(** [bot.command('release', ...)] *)
Definition release (ctx : Ctx) : M unit :=
  try_catch (
    user <- validateUser ctx false ;;
    user <- or_return user ;;
    params <- validateParams ctx user 2 "<order_id>" ;;
    orderId <- or_return_falsy (head params) ;;
    ok <- validateObjectId user orderId ;;
    when (negb ok) return_ ;;
    order <- validateReleaseOrder user orderId ;;
    order <- or_return order ;;
    settleHoldInvoice (Order.secret order)
  ) (fun error => console_log error).

(** [bot.command('dispute', ...)] *)
Definition dispute (ctx : Ctx) : M unit :=
  try_catch (
    user <- validateUser ctx false ;;
    user <- or_return user ;;
    params <- validateParams ctx user 2 "<order_id>" ;;
    orderId <- or_return_falsy (head params) ;;
    ok <- validateObjectId user orderId ;;
    when (negb ok) return_ ;;
    order <- validateDisputeOrder user orderId ;;
    order <- or_return order ;;
    buyer <- User_findOne (Order.buyer_id order) ;;
    seller <- User_findOne (Order.seller_id order) ;;
    let initiator :=
      if loose_eq (User._id user) (Order.buyer_id order)
      then Role.buyer else Role.seller in
    let order := Order.set_dispute initiator true order in
    let order := Order.set_status "DISPUTE" order in
    Order_save order ;;
    buyer <- read "disputes" buyer ;;
    let buyerDisputes := User.disputes buyer + 1 in
    seller <- read "disputes" seller ;;
    let sellerDisputes := User.disputes seller + 1 in
    let buyer := User.set_disputes buyerDisputes buyer in
    let seller := User.set_disputes sellerDisputes seller in
    let buyer :=
      if buyerDisputes >=? MAX_DISPUTES env
      then User.set_banned true buyer else buyer in
    let seller :=
      if sellerDisputes >=? MAX_DISPUTES env
      then User.set_banned true seller else seller in
    User_save buyer ;;
    User_save seller ;;
    beginDisputeMessage buyer seller order initiator
  ) (fun error => console_log error).

(** [bot.command('cancel', ...)] *)
Definition cancel (ctx : Ctx) : M unit :=
  try_catch (
    user <- validateUser ctx false ;;
    user <- or_return user ;;
    params <- validateParams ctx user 2 "<order_id>" ;;
    orderId <- or_return_falsy (head params) ;;
    ok <- validateObjectId user orderId ;;
    when (negb ok) return_ ;;
    order <- getOrder user orderId ;;
    order <- or_return order ;;
    when (negb (String.eqb (Order.status order) "PENDING")
          && negb (String.eqb (Order.status order) "WAITING_PAYMENT"))
      (customMessage (Some user) Text.only_untaken_orders ;; return_) ;;
    when (truthy (Order.hash order))
      (cancelHoldInvoice (Order.hash order)) ;;
    let order := Order.set_status "CANCELED" order in
    let order := Order.set_canceled_by (Some (User._id user)) order in
    Order_save order ;;
    customMessage (Some user) (Text.you_canceled (Order._id order)) ;;
    telegram_deleteMessage (channel (CHANNEL env))
      (Order.tg_channel_message1 order) ;;
    telegram_deleteMessage (channel (CHANNEL env))
      (Order.tg_channel_message2 order)
  ) (fun error => console_log error).

(** [bot.command('cancelorder', ...)] *)
Definition cancelorder (ctx : Ctx) : M unit :=
  try_catch (
    user <- validateAdmin ctx ;;
    user <- or_return user ;;
    params <- validateParams ctx user 2 "<order_id>" ;;
    orderId <- or_return_falsy (head params) ;;
    ok <- validateObjectId user orderId ;;
    when (negb ok) return_ ;;
    order <- Order_findOne orderId ;;
    order <- or_return order ;;
    when (truthy (Order.hash order))
      (cancelHoldInvoice (Order.hash order)) ;;
    let order := Order.set_status "CANCELED_BY_ADMIN" order in
    let order := Order.set_canceled_by (Some (User._id user)) order in
    buyer <- User_findOne (Order.buyer_id order) ;;
    seller <- User_findOne (Order.seller_id order) ;;
    Order_save order ;;
    customMessage (Some user) (Text.you_canceled (Order._id order)) ;;
    customMessage seller (Text.admin_canceled_seller (Order._id order)) ;;
    customMessage buyer (Text.admin_canceled_buyer (Order._id order)) ;;
    telegram_deleteMessage (channel (CHANNEL env))
      (Order.tg_channel_message1 order) ;;
    telegram_deleteMessage (channel (CHANNEL env))
      (Order.tg_channel_message2 order)
  ) (fun error => console_log error).

(** [bot.command('settleorder', ...)] *)
Definition settleorder (ctx : Ctx) : M unit :=
  try_catch (
    user <- validateAdmin ctx ;;
    user <- or_return user ;;
    params <- validateParams ctx user 2 "<order_id>" ;;
    orderId <- or_return_falsy (head params) ;;
    ok <- validateObjectId user orderId ;;
    when (negb ok) return_ ;;
    order <- getOrder user orderId ;;
    order <- or_return order ;;
    when (truthy (Order.secret order))
      (settleHoldInvoice (Order.secret order)) ;;
    let order := Order.set_status "COMPLETED_BY_ADMIN" order in
    buyer <- User_findOne (Order.buyer_id order) ;;
    seller <- User_findOne (Order.seller_id order) ;;
    Order_save order ;;
    customMessage (Some user) (Text.you_completed (Order._id order)) ;;
    customMessage seller (Text.admin_completed_seller (Order._id order)) ;;
    customMessage buyer (Text.admin_completed_buyer (Order._id order)) ;;
    telegram_editMessageText (channel (CHANNEL env))
      (Order.tg_channel_message2 order)
      (Text.order_completed (Order._id order)) ;;
    when (negative (Order.tg_chat_id order))
      (telegram_editMessageText (chat (Order.tg_chat_id order))
         (Order.tg_group_message2 order)
         (Text.order_completed (Order._id order)))
  ) (fun error => console_log error).

(** [bot.command('cooperativecancel', ...)] *)
Definition cooperativecancel (ctx : Ctx) : M unit :=
  try_catch (
    user <- validateUser ctx false ;;
    user <- or_return user ;;
    params <- validateParams ctx user 2 "<order_id>" ;;
    orderId <- or_return_falsy (head params) ;;
    ok <- validateObjectId user orderId ;;
    when (negb ok) return_ ;;
    order <- getOrder user orderId ;;
    order <- or_return order ;;
    when (negb (String.eqb (Order.status order) "ACTIVE"))
      (customMessage (Some user) Text.only_active_orders ;; return_) ;;
    parties <-
      (if loose_eq (User._id user) (Order.buyer_id order)
       then
         let initiatorUser := user in
         counterPartyUser <- User_findOne (Order.seller_id order) ;;
         ret (initiatorUser, counterPartyUser, Role.buyer, Role.seller)
       else
         counterPartyUser <- User_findOne (Order.buyer_id order) ;;
         let initiatorUser := user in
         ret (initiatorUser, counterPartyUser, Role.seller, Role.buyer)) ;;
    let '(initiatorUser, counterPartyUser, initiator, counterParty) :=
      parties in
    when (Order.cooperativecancel initiator order)
      (customMessage (Some initiatorUser) Text.already_requested ;;
       return_) ;;
    let order := Order.set_cooperativecancel initiator true order in
    order <-
      (if Order.cooperativecancel counterParty order
       then
         when (truthy (Order.hash order))
           (cancelHoldInvoice (Order.hash order)) ;;
         let order := Order.set_status "CANCELED" order in
         customMessage (Some initiatorUser)
           (Text.you_canceled (Order._id order)) ;;
         customMessage counterPartyUser
           (Text.counterparty_agreed (Order._id order)) ;;
         telegram_deleteMessage (channel (CHANNEL env))
           (Order.tg_channel_message1 order) ;;
         telegram_deleteMessage (channel (CHANNEL env))
           (Order.tg_channel_message2 order) ;;
         ret order
       else
         customMessage (Some initiatorUser)
           (Text.cancel_initiated (Order._id order)) ;;
         customMessage counterPartyUser
           (Text.counterparty_wants_cancel (Order._id order)) ;;
         customMessage counterPartyUser
           (Text.cooperativecancel_command (Order._id order)) ;;
         ret order) ;;
    Order_save order
  ) (fun error => console_log error).

(** [bot.command('ban', ...)]: no binding of [params] is in scope at the
    read [params[0]] (the destructuring above binds [username] only). *)
Definition ban (ctx : Ctx) : M unit :=
  try_catch (
    adminUser <- validateAdmin ctx ;;
    adminUser <- or_return adminUser ;;
    params_ <- validateParams ctx adminUser 2 "<username>" ;;
    username <- or_return_falsy (head params_) ;;
    user <- User_findOne_username username ;;
    user <-
      match user with
      | None => notFoundUserMessage adminUser ;; return_
      | Some user => ret user
      end ;;
    params_0 <- throw (ReferenceError "params") ;;
    ok <- validateObjectId user params_0 ;;
    when (negb ok) return_ ;;
    let user := User.set_banned true user in
    User_save user ;;
    userBannedMessage adminUser
  ) (fun error => console_log error).

End Handlers.

(** The world after a handler has run. *)
Definition run (handler : M unit) (w : World) : World :=
  snd (handler w).

(** ** Reading a run *)

(** [resolves env h cs]: made in this order from the log [h], none of the
    calls [cs] rejects. *)
Fixpoint resolves (env : Env) (h : list Event) (cs : list Call.t) : bool :=
  match cs with
  | [] => true
  | c :: cs' => negb (throws env h c) && resolves env (h ++ [Called c]) cs'
  end.

(** The calls actually made when the calls [cs] are attempted in this
    order from the log [h]: all of them up to the first that rejects. *)
Fixpoint attempted (env : Env) (h : list Event) (cs : list Call.t)
    : list Call.t :=
  match cs with
  | [] => []
  | c :: cs' =>
      c :: (if throws env h c then [] else attempted env (h ++ [Called c]) cs')
  end.

(** The first call of [cs] that rejects, if any. *)
Fixpoint rejection (env : Env) (h : list Event) (cs : list Call.t)
    : option Call.t :=
  match cs with
  | [] => None
  | c :: cs' =>
      if throws env h c then Some c else rejection env (h ++ [Called c]) cs'
  end.

(** What a handler whose body is the straight line [cs] adds to the log:
    the calls made, then the error its [catch] prints. *)
Definition outcome (env : Env) (h : list Event) (cs : list Call.t)
    : list Event :=
  map Called (attempted env h cs)
  ++ match rejection env h cs with
     | Some c => [Printed (Rejected c)]
     | None => []
     end.

(** The log [h] after the calls [cs] have all been made. *)
Definition extend (h : list Event) (cs : list Call.t) : list Event :=
  fold_left (fun h c => h ++ [Called c]) cs h.

(** The events a run added to the log of [w]. *)
Definition since (w w' : World) : list Event :=
  drop (length (trace w)) (trace w').

(** The arguments of the escrow calls of a log, in order. *)
Definition cancel_calls (l : list Event) : list (option string) :=
  omap (fun e =>
          match e with
          | Called (Call.cancelHoldInvoice h) => Some h
          | _ => None
          end) l.

Definition settle_calls (l : list Event) : list (option string) :=
  omap (fun e =>
          match e with
          | Called (Call.settleHoldInvoice s) => Some s
          | _ => None
          end) l.

Definition subscribe_calls (l : list Event) : list string :=
  omap (fun e =>
          match e with
          | Called (Call.subscribeInvoice h) => Some h
          | _ => None
          end) l.

Definition saved_users (l : list Event) : list User.t :=
  omap (fun e =>
          match e with
          | Called (Call.User_save u) => Some u
          | _ => None
          end) l.

(** The replies of [ctx.reply] in a log: text and keyboard. *)
Definition replies (l : list Event)
    : list (Text.t * option (list (list InlineButton))) :=
  omap (fun e =>
          match e with
          | Called (Call.ctx_reply t b) => Some (t, b)
          | _ => None
          end) l.

(** The validators let the command through: the parameter is a non-empty
    string that passes for an object identifier. *)
Definition params_ok (env : Env) (ctx : Ctx) (user : User.t)
    (orderId : string) : Prop :=
  head (validateParams_result env ctx user 2 "<order_id>") = Some orderId
  /\ orderId <> ""
  /\ validateObjectId_result env user orderId = true.

(** The calls every order command starts with. *)
Definition front (validate : Call.t) (ctx : Ctx) (user : User.t)
    (orderId : string) (fetch : Call.t) : list Call.t :=
  [ validate;
    Call.validateParams ctx user 2 "<order_id>";
    Call.validateObjectId user orderId;
    fetch ].

(** A payment of the community that is not paid and has attempts left. *)
Definition unexhausted (env : Env) (communityId : string)
    (p : PendingPayment.t) : bool :=
  String.eqb (PendingPayment.community_id p) communityId
  && (PendingPayment.attempts p <? PAYMENT_ATTEMPTS env)
  && negb (PendingPayment.paid p).

(** The terminal states of the order state machine. *)
Definition terminal (status : string) : bool :=
  String.eqb status "COMPLETED"
  || String.eqb status "COMPLETED_BY_ADMIN"
  || String.eqb status "CANCELED"
  || String.eqb status "CANCELED_BY_ADMIN".

(** The states in which the owner may cancel. *)
Definition cancellable (status : string) : bool :=
  String.eqb status "PENDING" || String.eqb status "WAITING_PAYMENT".

(** The party a user acts as: the buyer when their identifier is the
    order's [buyer_id], the seller otherwise. *)
Definition role_of (user : User.t) (order : Order.t) : Role.t :=
  if loose_eq (User._id user) (Order.buyer_id order)
  then Role.buyer else Role.seller.

Definition other (r : Role.t) : Role.t :=
  match r with
  | Role.buyer => Role.seller
  | Role.seller => Role.buyer
  end.

(** The identifier of the user in role [r]. *)
Definition party_id (r : Role.t) (order : Order.t) : option ObjectId :=
  match r with
  | Role.buyer => Order.buyer_id order
  | Role.seller => Order.seller_id order
  end.

(** Handlers run one after the other. *)
Definition replay (handlers : list (M unit)) (w : World) : World :=
  fold_left (fun w h => run h w) handlers w.

(** ** A concrete deployment, for examples

    Three users, one sell order, and validators that behave as the
    transition table says: a user is let in unless banned, the order is
    fetched by identifier, [release] and [dispute] are open to the parties
    of an ACTIVE or FIAT_SENT order. *)
Module Example.
Definition alice : User.t := User.mk "u_seller" "alice" 0 false.
Definition bob : User.t := User.mk "u_buyer" "bob" 1 false.
Definition root : User.t := User.mk "u_admin" "root" 0 false.

(** A sell order of alice, not taken yet. *)
Definition pending : Order.t :=
  Order.mk "o1" "PENDING" (100000 # 1) (100 # 1)
    (Some "u_seller") None (Some "u_seller") None None None None None
    false false false false (Some 11) (Some 12) None None.

(** The same order once bob has taken it and alice has paid the hold
    invoice. *)
Definition taken (status : string) (secret : option string) : Order.t :=
  Order.mk "o1" status (100000 # 1) (100 # 1)
    (Some "u_seller") (Some "u_buyer") (Some "u_seller")
    (Some "lnbc1buyer") (Some "h1") secret (Some 1700000000000) None
    false false false false (Some 11) (Some 12) None None.

Definition people : gmap string User.t :=
  <["u_seller" := alice]> (<["u_buyer" := bob]> (<["u_admin" := root]> ∅)).

Definition world (o : Order.t) : World :=
  {| db := {| orders := <[Order._id o := o]> ∅;
              users := people;
              communities := ∅;
              pendingpayments := [] |};
     trace := [] |}.

Definition party (o : Order.t) (u : User.t) : bool :=
  loose_eq (User._id u) (Order.buyer_id o)
  || loose_eq (User._id u) (Order.seller_id o).

Definition in_trade (o : Order.t) : bool :=
  String.eqb (Order.status o) "ACTIVE"
  || String.eqb (Order.status o) "FIAT_SENT".

Definition env (rejects : list Event -> Call.t -> bool) : Env :=
  {| CHANNEL := "@p2p";
     MAX_DISPUTES := 2;
     PAYMENT_ATTEMPTS := 3;
     clock := fun _ => 1700000000000;
     throws := rejects;
     validateUser_result := fun d ctx _ =>
       match users d !! message_from ctx with
       | Some u => if User.banned u then None else Some u
       | None => None
       end;
     validateAdmin_result := fun d ctx =>
       if String.eqb (message_from ctx) "u_admin"
       then users d !! "u_admin" else None;
     validateParams_result := fun ctx _ _ _ => [message_text ctx];
     validateObjectId_result := fun _ _ => true;
     validateTakeSell_result := fun _ ctx _ =>
       Some (Some (message_text ctx), "lnbc1buyer");
     validateTakeSellOrder_result := fun _ _ _ o =>
       match o with
       | Some o => String.eqb (Order.status o) "PENDING"
       | None => false
       end;
     validateReleaseOrder_result := fun d u id =>
       match orders d !! id with
       | Some o =>
           if loose_eq (User._id u) (Order.seller_id o) && in_trade o
           then Some o else None
       | None => None
       end;
     validateDisputeOrder_result := fun d u id =>
       match orders d !! id with
       | Some o => if party o u && in_trade o then Some o else None
       | None => None
       end;
     getOrder_result := fun d _ id => orders d !! id;
     createHoldInvoice_result := fun _ _ =>
       {| hi_request := "lnbc1hold"; hi_hash := "h1"; hi_secret := "s1" |}
  |}.

(** No call ever rejects. *)
Definition reliable : Env := env (fun _ _ => false).

(** The escrow node is down: creating a hold invoice rejects. *)
Definition node_down : Env :=
  env (fun _ c =>
         match c with
         | Call.createHoldInvoice _ _ => true
         | _ => false
         end).

(** The postings are gone from the channel: deleting them rejects. *)
Definition postings_gone : Env :=
  env (fun _ c =>
         match c with
         | Call.telegram_deleteMessage _ _ => true
         | _ => false
         end).

(** The order in the states of a trade. *)
Definition active : Order.t := taken "ACTIVE" (Some "s1").
Definition fiat_sent : Order.t := taken "FIAT_SENT" (Some "s1").

(** The seller has asked for a cooperative cancellation. *)
Definition awaiting_buyer : Order.t :=
  Order.set_seller_cooperativecancel true active.

(** The order once cancelled; the hash and the secret stay on it. *)
Definition canceled : Order.t := taken "CANCELED" (Some "s1").

(** [/command o1] sent by the user [from]. *)
Definition command (from : ObjectId) : Ctx :=
  {| message_text := "o1";
     message_from := from;
     botInfo_username := "p2pbot";
     match_1 := "" |}.
(** [/ban bob] sent by the admin. *)
Definition ban_bob : Ctx :=
  {| message_text := "bob";
     message_from := "u_admin";
     botInfo_username := "p2pbot";
     match_1 := "" |}.
End Example.

(** ** The release, beyond the handler

    The handler of [/release] ends with the call of [settleHoldInvoice];
    what lets an order through to it ([validateReleaseOrder] of
    [./validations]) and what advances the order once its hold invoice is
    settled (the functions of [../ln]) are code of the repository that is
    not under src. *)
Module Spec.
(** Modelled from the spec: [validateReleaseOrder] of [./validations],
    which is not under src.  The row of the transition table for the
    release (§4.1: from FIAT_SENT/ACTIVE, the seller releases,
    precondition: secret present) and [release(order)] of §4.2
    (requires [secret]) give what it lets through: the order of that
    identifier when it is ACTIVE or FIAT_SENT, the caller is its seller
    and its secret is present; otherwise nothing (§7, ValidationFailure:
    reported to the caller, no state change). *)
Definition validateReleaseOrder (d : DB) (user : User.t) (orderId : string)
    : option Order.t :=
  match orders d !! orderId with
  | Some order =>
      if (String.eqb (Order.status order) "ACTIVE"
          || String.eqb (Order.status order) "FIAT_SENT")
         && loose_eq (User._id user) (Order.seller_id order)
         && truthy (Order.secret order)
      then Some order else None
  | None => None
  end.

(** Modelled from the spec: the transition of an order by the Escrow
    Coordinator on the settlement of its hold invoice, which is not under
    src (the handler awaits [settleHoldInvoice] of [../ln] and saves
    nothing).  §4.1: FIAT_SENT/ACTIVE, seller releases, secret present,
    to COMPLETED; §4.2, [release(order)]: when the settle call errors the
    status of the order is not advanced. *)
Definition release (settled : bool) (order : Order.t) : Order.t :=
  if settled
     && truthy (Order.secret order)
     && (String.eqb (Order.status order) "ACTIVE"
         || String.eqb (Order.status order) "FIAT_SENT")
  then Order.set_status "COMPLETED" order else order.
End Spec.

(** The secrets of the calls of [settleHoldInvoice] that resolved among
    the events [l] that follow the log [h]. *)
Fixpoint settled (env : Env) (h l : list Event) : list (option string) :=
  match l with
  | [] => []
  | e :: l' =>
      match e with
      | Called (Call.settleHoldInvoice s) =>
          if throws env h (Call.settleHoldInvoice s) then [] else [s]
      | _ => []
      end
      ++ settled env (h ++ [e]) l'
  end.

(** The documents after a run, once the coordinator has advanced the
    orders whose hold invoice the run settled. *)
Definition coordinated (env : Env) (w w' : World) : DB :=
  let secrets := settled env (trace w) (since w w') in
  {| orders :=
       (fun o => Spec.release (bool_decide (Order.secret o ∈ secrets)) o)
       <$> orders (db w');
     users := users (db w');
     communities := communities (db w');
     pendingpayments := pendingpayments (db w') |}.

(** The deployment of the examples with the validator of the release as
    the spec has it. *)
Module Deployed.
Definition env (rejects : list Event -> Call.t -> bool) : Env :=
  {| CHANNEL := CHANNEL (Example.env rejects);
     MAX_DISPUTES := MAX_DISPUTES (Example.env rejects);
     PAYMENT_ATTEMPTS := PAYMENT_ATTEMPTS (Example.env rejects);
     clock := clock (Example.env rejects);
     throws := rejects;
     validateUser_result := validateUser_result (Example.env rejects);
     validateAdmin_result := validateAdmin_result (Example.env rejects);
     validateParams_result := validateParams_result (Example.env rejects);
     validateObjectId_result := validateObjectId_result (Example.env rejects);
     validateTakeSell_result := validateTakeSell_result (Example.env rejects);
     validateTakeSellOrder_result :=
       validateTakeSellOrder_result (Example.env rejects);
     validateReleaseOrder_result := Spec.validateReleaseOrder;
     validateDisputeOrder_result :=
       validateDisputeOrder_result (Example.env rejects);
     getOrder_result := getOrder_result (Example.env rejects);
     createHoldInvoice_result :=
       createHoldInvoice_result (Example.env rejects) |}.

(** No call ever rejects. *)
Definition reliable : Env := env (fun _ _ => false).

(** The escrow node is down: settling rejects. *)
Definition node_down : Env :=
  env (fun _ c =>
         match c with
         | Call.settleHoldInvoice _ => true
         | _ => false
         end).
End Deployed.

(** * The other handlers

    The handlers of the bot that the first part leaves out and that await
    no function of this repository that writes documents ([fiatsent],
    [addinvoice], [checkorder]), and the messages of the community module
    that format no number or date ([updateCommunityMessage],
    [showUserCommunitiesMessage], [wizardCommunityWrongPermission],
    [sureMessage]).  They await functions the first part has no call for,
    so they run in a monad of their own, over the same documents. *)
(** The calls of the first part, as the calls of these handlers name them. *)
Abbreviation CoreCall := Call.t (only parsing).
Abbreviation CoreEnv := Env (only parsing).

Module Rest.

(** A community document, as far as these messages read it. *)
Module CommunityDoc.
Record t := mk {
  _id : ObjectId;
  name : string;
  public : bool;
}.
End CommunityDoc.

(** An inline button with its label already translated. *)
Record Button := {
  text : string;
  callback_data : string;
}.

Module Call.
Inductive t :=
(* the awaited functions of the first part *)
| core (c : CoreCall)
(* ./validations *)
| validateFiatSentOrder (user : User.t) (orderId : string)
| validateInvoice (user : User.t) (lnInvoice : option string)
(* ./messages *)
| fiatSentMessages (user : User.t) (seller : option User.t)
| addInvoiceMessage (user : User.t) (order : Order.t)
| genericErrorMessage (user : option User.t)
| checkOrderMessage (ctx : Ctx) (order : Order.t)
    (creator buyer seller : string)
(* telegraf *)
| ctx_deleteMessage
| ctx_reply (text : string) (keyboard : option (list (list Button))).
End Call.

Inductive Error :=
| Rejected (c : Call.t)
| TypeError (reading : string).

Inductive Event :=
| Called (c : Call.t)
| Printed (e : Error)     (* console.log(error) *)
| Logged (e : Error).     (* logger.error(error) *)

Record World := {
  db : DB;
  docs : gmap string CommunityDoc.t;   (* the communities, with their names *)
  trace : list Event;                  (* oldest first *)
}.

(** The environment of the first part, the outcome of the awaited calls of
    these handlers, the translations of [ctx.i18n.t], and the results of
    the two validators the first part does not call. *)
Record Env := {
  base : CoreEnv;
  throws : list Event -> Call.t -> bool;
  i18n_t : string -> list (string * string) -> string;
  validateFiatSentOrder_result : DB -> User.t -> string -> option Order.t;
  validateInvoice_result : User.t -> option string -> bool;
}.

Inductive Res (A : Type) :=
| Normal (a : A)       (* the statement completed *)
| Returned             (* a [return] left the handler *)
| Thrown (e : Error).  (* an exception is propagating *)
Arguments Normal {A} a.
Arguments Returned {A}.
Arguments Thrown {A} e.

Definition M (A : Type) : Type := World -> Res A * World.

Definition ret {A} (a : A) : M A := fun w => (Normal a, w).

Definition bind {A B} (m : M A) (k : A -> M B) : M B :=
  fun w =>
    match m w with
    | (Normal a, w') => k a w'
    | (Returned, w') => (Returned, w')
    | (Thrown e, w') => (Thrown e, w')
    end.

Declare Scope rest_scope.
Delimit Scope rest_scope with rest.
Notation "x <- m ;; k" := (bind m (fun x => k))
  (at level 100, m at next level, right associativity) : rest_scope.
Notation "m ;; k" := (bind m (fun _ => k))
  (at level 100, right associativity) : rest_scope.
Local Open Scope rest_scope.

Definition return_ {A} : M A := fun w => (Returned, w).

Definition throw {A} (e : Error) : M A := fun w => (Thrown e, w).

(** [try { body } catch (error) { handler }]; what [handler] throws
    leaves the function. *)
Definition try_catch (body : M unit) (handler : Error -> M unit) : M unit :=
  fun w =>
    match body w with
    | (Thrown e, w') => handler e w'
    | r => r
    end.

Definition log (ev : Event) (w : World) : World :=
  {| db := db w; docs := docs w; trace := trace w ++ [ev] |}.

Definition console_log (e : Error) : M unit :=
  fun w => (Normal tt, log (Printed e) w).

Definition logger_error (e : Error) : M unit :=
  fun w => (Normal tt, log (Logged e) w).

Definition or_return {A} (v : option A) : M A :=
  match v with
  | Some a => ret a
  | None => return_
  end.

Definition or_return_falsy (v : option string) : M string :=
  match v with
  | Some s => if String.eqb s "" then return_ else ret s
  | None => return_
  end.

Definition read {A} (what : string) (v : option A) : M A :=
  match v with
  | Some a => ret a
  | None => throw (TypeError what)
  end.

Definition when (b : bool) (m : M unit) : M unit :=
  if b then m else ret tt.

(** ["\n"] *)
Definition newline : string := String (Ascii.ascii_of_nat 10) "".

(** [communities.splice(-2)]: the last two elements (all of them when
    there are fewer) are taken out of the array. *)
Definition splice_last_two {A} (l : list A) : list A * list A :=
  (take (length l - 2) l, drop (length l - 2) l).

(** The loop of [showUserCommunitiesMessage]:
    [while (communities.length > 0) { ... buttons.push(lineBtn) }],
    from the state of the two arrays to their state when it ends. *)
Unset Equations With Funext.
Equations? button_rows (communities : list CommunityDoc.t)
    (buttons : list (list Button))
    : list CommunityDoc.t * list (list Button)
    by wf (length communities) lt :=
  button_rows [] buttons := ([], buttons);
  button_rows (c :: cs) buttons :=
    let lastTwo := snd (splice_last_two (c :: cs)) in
    let lineBtn :=
      map (fun c =>
             {| text := CommunityDoc.name c;
                callback_data :=
                  "updateCommunity_" +:+ CommunityDoc._id c |})
        lastTwo in
    button_rows (fst (splice_last_two (c :: cs))) (buttons ++ [lineBtn]).
Proof. cbn [splice_last_two fst]. rewrite length_take. cbn. lia. Qed.

(** [s.indexOf(sub) !== -1] *)
Definition includes (sub s : string) : bool :=
  found (String.index 0 sub s).

Section Handlers.
Variable env : Env.

Definition await (c : Call.t) : M unit :=
  fun w =>
    if throws env (trace w) c
    then (Thrown (Rejected c), log (Called c) w)
    else (Normal tt, log (Called c) w).

Definition await_value {A} (c : Call.t) (result : World -> A) : M A :=
  await c ;; fun w => (Normal (result w), w).

Definition write (f : DB -> DB) : M unit :=
  fun w => (Normal tt, {| db := f (db w); docs := docs w; trace := trace w |}).

(** *** The awaited functions of the first part, with the same results. *)

Definition validateUser (ctx : Ctx) (start : bool) : M (option User.t) :=
  await_value (Call.core (Call.validateUser ctx start))
    (fun w => validateUser_result (base env) (db w) ctx start).

Definition validateAdmin (ctx : Ctx) : M (option User.t) :=
  await_value (Call.core (Call.validateAdmin ctx))
    (fun w => validateAdmin_result (base env) (db w) ctx).

Definition validateParams (ctx : Ctx) (user : User.t) (paramNumber : nat)
    (errOutputString : string) : M (list string) :=
  await_value
    (Call.core (Call.validateParams ctx user paramNumber errOutputString))
    (fun _ =>
       validateParams_result (base env) ctx user paramNumber errOutputString).

Definition validateObjectId (user : User.t) (id : string) : M bool :=
  await_value (Call.core (Call.validateObjectId user id))
    (fun _ => validateObjectId_result (base env) user id).

Definition getOrder (user : User.t) (orderId : string) : M (option Order.t) :=
  await_value (Call.core (Call.getOrder user orderId))
    (fun w => getOrder_result (base env) (db w) user orderId).

Definition Order_findOne (id : string) : M (option Order.t) :=
  await_value (Call.core (Call.Order_findOne id))
    (fun w => orders (db w) !! id).

Definition User_findOne (id : option ObjectId) : M (option User.t) :=
  await_value (Call.core (Call.User_findOne id))
    (fun w => find_user (db w) id).

(** [Community.findById(id)], the whole document. *)
Definition Community_findById (id : string) : M (option CommunityDoc.t) :=
  await_value (Call.core (Call.Community_findById id))
    (fun w => docs w !! id).

Definition Order_save (order : Order.t) : M unit :=
  await (Call.core (Call.Order_save order)) ;; write (store_order order).

(** *** The awaited functions of these handlers. *)

Definition validateFiatSentOrder (user : User.t) (orderId : string)
    : M (option Order.t) :=
  await_value (Call.validateFiatSentOrder user orderId)
    (fun w => validateFiatSentOrder_result env (db w) user orderId).

Definition validateInvoice (user : User.t) (lnInvoice : option string)
    : M bool :=
  await_value (Call.validateInvoice user lnInvoice)
    (fun _ => validateInvoice_result env user lnInvoice).

Definition fiatSentMessages (user : User.t) (seller : option User.t)
    : M unit :=
  await (Call.fiatSentMessages user seller).

Definition addInvoiceMessage (user : User.t) (order : Order.t) : M unit :=
  await (Call.addInvoiceMessage user order).

Definition genericErrorMessage (user : option User.t) : M unit :=
  await (Call.genericErrorMessage user).

Definition checkOrderMessage (ctx : Ctx) (order : Order.t)
    (creator buyer seller : string) : M unit :=
  await (Call.checkOrderMessage ctx order creator buyer seller).

Definition ctx_deleteMessage : M unit := await Call.ctx_deleteMessage.

Definition ctx_reply (text : string)
    (keyboard : option (list (list Button))) : M unit :=
  await (Call.ctx_reply text keyboard).

(** [ctx.i18n.t(key)] *)
Definition t (key : string) : string := i18n_t env key [].

(** ** The handlers of the bot *)

(** [bot.command('checkorder', ...)] *)
Definition checkorder (ctx : Ctx) : M unit :=
  try_catch (
    user <- validateAdmin ctx ;;
    user <- or_return user ;;
    params <- validateParams ctx user 2 "<order_id>" ;;
    orderId <- or_return_falsy (head params) ;;
    ok <- validateObjectId user orderId ;;
    when (negb ok) return_ ;;
    order <- getOrder user orderId ;;
    order <- or_return order ;;
    creator <- User_findOne (Order.seller_id order) ;;
    buyer <- User_findOne (Order.buyer_id order) ;;
    seller <- User_findOne (Order.seller_id order) ;;
    creator <- read "username" creator ;;
    buyer <- read "username" buyer ;;
    seller <- read "username" seller ;;
    checkOrderMessage ctx order (User.username creator)
      (User.username buyer) (User.username seller)
  ) (fun error => console_log error).

(** [bot.command('fiatsent', ...)] *)
Definition fiatsent (ctx : Ctx) : M unit :=
  try_catch (
    user <- validateUser ctx false ;;
    user <- or_return user ;;
    params <- validateParams ctx user 2 "<order_id>" ;;
    orderId <- or_return_falsy (head params) ;;
    ok <- validateObjectId user orderId ;;
    when (negb ok) return_ ;;
    order <- validateFiatSentOrder user orderId ;;
    order <- or_return order ;;
    let order := Order.set_status "FIAT_SENT" order in
    seller <- User_findOne (Order.seller_id order) ;;
    Order_save order ;;
    fiatSentMessages user seller
  ) (fun error => console_log error).

(** [bot.command('addinvoice', ...)]; the [catch] awaits two functions of
    its own. *)
Definition addinvoice (ctx : Ctx) : M unit :=
  try_catch (
    user <- validateUser ctx false ;;
    user <- or_return user ;;
    params <- validateParams ctx user 3 "<order_id> <lightning_invoice>" ;;
    let lnInvoice := params !! 1%nat in
    orderId <- or_return_falsy (head params) ;;
    ok <- validateObjectId user orderId ;;
    when (negb ok) return_ ;;
    ok <- validateInvoice user lnInvoice ;;
    when (negb ok) return_ ;;
    order <- Order_findOne orderId ;;
    order <- or_return order ;;
    let order := Order.set_buyer_invoice lnInvoice order in
    Order_save order ;;
    addInvoiceMessage user order
  ) (fun error =>
    console_log error ;;
    user <- validateUser ctx false ;;
    genericErrorMessage user).

(** ** The messages of the community module *)

(** [exports.updateCommunityMessage] *)
Definition updateCommunityMessage (ctx : Ctx) : M unit :=
  try_catch (
    ctx_deleteMessage ;;
    let id := match_1 ctx in
    community <- Community_findById id ;;
    community <- read "name" community ;;
    let text :=
      t "community" +:+ ": " +:+ CommunityDoc.name community +:+ newline in
    let text := text +:+ t "what_to_do" in
    let visibilityText :=
      if CommunityDoc.public community
      then "🕵️ " +:+ t "make_private"
      else "📢 " +:+ t "make_public" in
    ctx_reply text
      (Some
         [ [ {| text := "✏️ " +:+ t "name";
                callback_data := "editNameBtn_" +:+ id |};
             {| text := "✏️ " +:+ t "currencies";
                callback_data := "editCurrenciesBtn_" +:+ id |} ];
           [ {| text := "✏️ " +:+ t "group";
                callback_data := "editGroupBtn_" +:+ id |};
             {| text := "✏️ " +:+ t "channels";
                callback_data := "editChannelsBtn_" +:+ id |} ];
           [ {| text := "✏️ " +:+ t "fee";
                callback_data := "editFeeBtn_" +:+ id |};
             {| text := "✏️ " +:+ t "dispute_solvers";
                callback_data := "editSolversBtn_" +:+ id |} ];
           [ {| text := "✏️ " +:+ t "dispute_channel";
                callback_data := "editDisputeChannelBtn_" +:+ id |};
             {| text := "💰 " +:+ t "earnings";
                callback_data := "earningsBtn_" +:+ id |} ];
           [ {| text := visibilityText;
                callback_data := "changeVisibilityBtn_" +:+ id |};
             {| text := "☠️ " +:+ t "delete_community";
                callback_data := "deleteCommunityAskBtn_" +:+ id |} ] ])
  ) (fun error => logger_error error).

(** [exports.showUserCommunitiesMessage]; the array of the caller is the
    one the loop empties. *)
Definition showUserCommunitiesMessage (ctx : Ctx)
    (communities : list CommunityDoc.t) : M unit :=
  try_catch (
    let buttons := snd (button_rows communities []) in
    ctx_reply (t "select_community") (Some buttons)
  ) (fun error => logger_error error).

(** [exports.wizardCommunityWrongPermission] *)
Definition wizardCommunityWrongPermission (ctx : Ctx) (channel : string)
    (response : string) : M unit :=
  try_catch (
    if includes "bot was kicked from the supergroup chat" response
    then ctx_reply (t "bot_kicked") None
    else if includes "chat not found" response
    then ctx_reply (t "chat_not_found") None
    else if includes "not a member of this chat" response
    then ctx_reply (t "not_member") None
    else if includes "group chat was upgraded to a supergroup" response
    then ctx_reply (t "upgraded_to_supergroup") None
    else if includes "is not an admin" response
    then ctx_reply
           (i18n_t env "wizard_community_you_are_not_admin"
              [("channel", channel)])
           None
    else ctx_reply (t "generic_error") None
  ) (fun error => logger_error error).

(** [exports.sureMessage] *)
Definition sureMessage (ctx : Ctx) : M unit :=
  try_catch (
    ctx_deleteMessage ;;
    let id := match_1 ctx in
    ctx_reply (t "are_you_sure")
      (Some
         [ [ {| text := "🔴 " +:+ t "no"; callback_data := "doNothingBtn" |};
             {| text := "🟢 " +:+ t "yes";
                callback_data := "deleteCommunityBtn_" +:+ id |} ] ])
  ) (fun error => logger_error error).

End Handlers.

Definition run {A} (handler : M A) (w : World) : World := snd (handler w).
Definition result {A} (handler : M A) (w : World) : Res A := fst (handler w).

(** *** Reading a run *)

Fixpoint resolves (env : Env) (h : list Event) (cs : list Call.t) : bool :=
  match cs with
  | [] => true
  | c :: cs' => negb (throws env h c) && resolves env (h ++ [Called c]) cs'
  end.

Fixpoint attempted (env : Env) (h : list Event) (cs : list Call.t)
    : list Call.t :=
  match cs with
  | [] => []
  | c :: cs' =>
      c :: (if throws env h c then [] else attempted env (h ++ [Called c]) cs')
  end.

Fixpoint rejection (env : Env) (h : list Event) (cs : list Call.t)
    : option Call.t :=
  match cs with
  | [] => None
  | c :: cs' =>
      if throws env h c then Some c else rejection env (h ++ [Called c]) cs'
  end.

(** What a straight line of calls [cs] adds to the log of a handler whose
    [catch] prints the error. *)
Definition outcome (env : Env) (h : list Event) (cs : list Call.t)
    : list Event :=
  map Called (attempted env h cs)
  ++ match rejection env h cs with
     | Some c => [Printed (Rejected c)]
     | None => []
     end.

Definition since (w w' : World) : list Event :=
  drop (length (trace w)) (trace w').

(** The replies of a log. *)
Definition replies (l : list Event)
    : list (string * option (list (list Button))) :=
  omap (fun e =>
          match e with
          | Called (Call.ctx_reply text keyboard) => Some (text, keyboard)
          | _ => None
          end) l.

(** The calls of a log to the escrow functions of [../ln]. *)
Definition escrow_calls (l : list Event) : list CoreCall :=
  omap (fun e =>
          match e with
          | Called (Call.core (Call.createHoldInvoice a d)) =>
              Some (Call.createHoldInvoice a d)
          | Called (Call.core (Call.subscribeInvoice h)) =>
              Some (Call.subscribeInvoice h)
          | Called (Call.core (Call.settleHoldInvoice s)) =>
              Some (Call.settleHoldInvoice s)
          | Called (Call.core (Call.cancelHoldInvoice h)) =>
              Some (Call.cancelHoldInvoice h)
          | _ => None
          end) l.
End Rest.

(** The calls of a log of the first part to the escrow functions of
    [../ln]. *)
Definition ln_calls (l : list Event) : list Call.t :=
  omap (fun e =>
          match e with
          | Called (Call.createHoldInvoice a d) =>
              Some (Call.createHoldInvoice a d)
          | Called (Call.subscribeInvoice h) => Some (Call.subscribeInvoice h)
          | Called (Call.settleHoldInvoice s) => Some (Call.settleHoldInvoice s)
          | Called (Call.cancelHoldInvoice h) => Some (Call.cancelHoldInvoice h)
          | _ => None
          end) l.

(** ** What the commands keep *)

(** Every document is stored under its own identifier. *)
Definition well_keyed (d : DB) : Prop :=
  (forall id o, orders d !! id = Some o -> Order._id o = id)
  /\ (forall id u, users d !! id = Some u -> User._id u = id).

(** The order a handler works on, as one of the functions that fetch an
    order returned it. *)
Definition fetched (env : Rest.Env) (d : DB) (id : string) (o : Order.t)
    : Prop :=
  orders d !! id = Some o
  \/ (exists user, getOrder_result (Rest.base env) d user id = Some o)
  \/ (exists user,
        validateReleaseOrder_result (Rest.base env) d user id = Some o)
  \/ (exists user,
        validateDisputeOrder_result (Rest.base env) d user id = Some o)
  \/ (exists user, Rest.validateFiatSentOrder_result env d user id = Some o).

(** The functions of [./validations] and [./ordersActions] that return an
    order return the stored document of that identifier. *)
Definition returns_stored (env : Rest.Env) : Prop :=
  forall d id o, fetched env d id o -> orders d !! id = Some o.

(** What every command but [/takesell] keeps of an order: its identity,
    its terms, its parties, its escrow linkage; and a flag that is set
    stays set. *)
Definition order_kept (o o' : Order.t) : Prop :=
  Order._id o' = Order._id o
  /\ Order.amount o' = Order.amount o
  /\ Order.fee o' = Order.fee o
  /\ Order.creator_id o' = Order.creator_id o
  /\ Order.buyer_id o' = Order.buyer_id o
  /\ Order.seller_id o' = Order.seller_id o
  /\ Order.hash o' = Order.hash o
  /\ Order.secret o' = Order.secret o
  /\ Order.taken_at o' = Order.taken_at o
  /\ (Order.buyer_cooperativecancel o = true ->
      Order.buyer_cooperativecancel o' = true)
  /\ (Order.seller_cooperativecancel o = true ->
      Order.seller_cooperativecancel o' = true)
  /\ (Order.buyer_dispute o = true -> Order.buyer_dispute o' = true)
  /\ (Order.seller_dispute o = true -> Order.seller_dispute o' = true).

Definition orders_kept (d d' : DB) : Prop :=
  forall id o,
    orders d !! id = Some o ->
    exists o', orders d' !! id = Some o' /\ order_kept o o'.

(** What every command keeps of a user: a counter never goes down, a ban
    is never lifted. *)
Definition user_kept (u u' : User.t) : Prop :=
  User._id u' = User._id u
  /\ User.username u' = User.username u
  /\ User.disputes u <= User.disputes u'
  /\ (User.banned u = true -> User.banned u' = true).

Definition users_kept (d d' : DB) : Prop :=
  forall id u,
    users d !! id = Some u ->
    exists u', users d' !! id = Some u' /\ user_kept u u'.

(** The one write of an order command: the fetched order, updated, saved
    under its identifier. *)
Inductive order_write (fetch : string -> Order.t -> Prop) (d : DB)
    : DB -> Prop :=
| order_written (id : string) (o o' : Order.t) :
    fetch id o ->
    order_kept o o' ->
    order_write fetch d (store_order o' d).

(** The one write of [/takesell]: the stored order of that identifier,
    taken. *)
Inductive take_write (d : DB) : DB -> Prop :=
| taken_written (id : string) (o : Order.t)
    (buyer lnInvoice hash secret : string) (now : Z) :
    orders d !! id = Some o ->
    take_write d
      (store_order
         (Order.set_taken_at (Some now)
            (Order.set_secret (Some secret)
               (Order.set_hash (Some hash)
                  (Order.set_buyer_invoice (Some lnInvoice)
                     (Order.set_buyer_id (Some buyer)
                        (Order.set_status "WAITING_PAYMENT" o))))))
         d).

(** The writes of [/dispute], which stops at the first that rejects: the
    order, then the buyer, then the seller. *)
Inductive dispute_write (fetch : string -> Order.t -> Prop) (d : DB)
    : DB -> Prop :=
| dispute_order (id : string) (o o' : Order.t) :
    fetch id o ->
    order_kept o o' ->
    dispute_write fetch d (store_order o' d)
| dispute_buyer (id : string) (o o' : Order.t) (b b' : User.t) :
    fetch id o ->
    order_kept o o' ->
    find_user d (Order.buyer_id o) = Some b ->
    user_kept b b' ->
    dispute_write fetch d (store_user b' (store_order o' d))
| dispute_both (id : string) (o o' : Order.t) (b b' s s' : User.t) :
    fetch id o ->
    order_kept o o' ->
    find_user d (Order.buyer_id o) = Some b ->
    user_kept b b' ->
    find_user d (Order.seller_id o) = Some s ->
    user_kept s s' ->
    dispute_write fetch d (store_user s' (store_user b' (store_order o' d))).

(** ** Histories of commands *)

Inductive Command :=
| Takesell | Release | Dispute | Cancel | Cancelorder | Settleorder
| Cooperativecancel | Ban | Fiatsent | Addinvoice | Checkorder.

(** [effect env c d d']: a run of the handler of [c], for some message and
    from some log, takes the documents from [d] to [d']. *)
Definition effect (env : Rest.Env) (c : Command) (d d' : DB) : Prop :=
  match c with
  | Takesell =>
      exists ctx w, db w = d /\ db (run (takesell (Rest.base env) ctx) w) = d'
  | Release =>
      exists ctx w, db w = d /\ db (run (release (Rest.base env) ctx) w) = d'
  | Dispute =>
      exists ctx w, db w = d /\ db (run (dispute (Rest.base env) ctx) w) = d'
  | Cancel =>
      exists ctx w, db w = d /\ db (run (cancel (Rest.base env) ctx) w) = d'
  | Cancelorder =>
      exists ctx w,
        db w = d /\ db (run (cancelorder (Rest.base env) ctx) w) = d'
  | Settleorder =>
      exists ctx w,
        db w = d /\ db (run (settleorder (Rest.base env) ctx) w) = d'
  | Cooperativecancel =>
      exists ctx w,
        db w = d /\ db (run (cooperativecancel (Rest.base env) ctx) w) = d'
  | Ban =>
      exists ctx w, db w = d /\ db (run (ban (Rest.base env) ctx) w) = d'
  | Fiatsent =>
      exists ctx w,
        Rest.db w = d /\ Rest.db (Rest.run (Rest.fiatsent env ctx) w) = d'
  | Addinvoice =>
      exists ctx w,
        Rest.db w = d /\ Rest.db (Rest.run (Rest.addinvoice env ctx) w) = d'
  | Checkorder =>
      exists ctx w,
        Rest.db w = d /\ Rest.db (Rest.run (Rest.checkorder env ctx) w) = d'
  end.

(** The documents before and after a sequence of commands. *)
Inductive history (env : Rest.Env) : list Command -> DB -> DB -> Prop :=
| history_nil (d : DB) : history env [] d d
| history_cons (c : Command) (cs : list Command) (d d' d'' : DB) :
    effect env c d d' ->
    history env cs d' d'' ->
    history env (c :: cs) d d''.

(** What [/takesell] keeps of an order as well: its identity, its terms,
    who created and who sells it. *)
Definition terms_kept (o o' : Order.t) : Prop :=
  Order._id o' = Order._id o
  /\ Order.amount o' = Order.amount o
  /\ Order.fee o' = Order.fee o
  /\ Order.creator_id o' = Order.creator_id o
  /\ Order.seller_id o' = Order.seller_id o.

Definition all_terms_kept (d d' : DB) : Prop :=
  forall id o,
    orders d !! id = Some o ->
    exists o', orders d' !! id = Some o' /\ terms_kept o o'.

(** ** A concrete deployment of the other handlers *)
Module RestExample.
(** The deployment of the first part, whose validator of the parameters
    returns the invoice [lnbc1new] after the identifier when a command
    takes two parameters. *)
Definition core : Env :=
  {| CHANNEL := CHANNEL Example.reliable;
     MAX_DISPUTES := MAX_DISPUTES Example.reliable;
     PAYMENT_ATTEMPTS := PAYMENT_ATTEMPTS Example.reliable;
     clock := clock Example.reliable;
     throws := throws Example.reliable;
     validateUser_result := validateUser_result Example.reliable;
     validateAdmin_result := validateAdmin_result Example.reliable;
     validateParams_result := fun ctx _ paramNumber _ =>
       if (paramNumber =? 3)%nat
       then [message_text ctx; "lnbc1new"] else [message_text ctx];
     validateObjectId_result := validateObjectId_result Example.reliable;
     validateTakeSell_result := validateTakeSell_result Example.reliable;
     validateTakeSellOrder_result :=
       validateTakeSellOrder_result Example.reliable;
     validateReleaseOrder_result :=
       validateReleaseOrder_result Example.reliable;
     validateDisputeOrder_result :=
       validateDisputeOrder_result Example.reliable;
     getOrder_result := getOrder_result Example.reliable;
     createHoldInvoice_result := createHoldInvoice_result Example.reliable |}.

Definition env (rejects : list Rest.Event -> Rest.Call.t -> bool) : Rest.Env :=
  {| Rest.base := core;
     Rest.throws := rejects;
     Rest.i18n_t := fun key _ => key;
     Rest.validateFiatSentOrder_result := fun d u id =>
       match orders d !! id with
       | Some o =>
           if loose_eq (User._id u) (Order.buyer_id o)
              && String.eqb (Order.status o) "ACTIVE"
           then Some o else None
       | None => None
       end;
     Rest.validateInvoice_result := fun _ lnInvoice => truthy lnInvoice |}.

(** No call ever rejects. *)
Definition reliable : Rest.Env := env (fun _ _ => false).

(** Telegram is unreachable: the messages of [addinvoice] reject. *)
Definition muted : Rest.Env :=
  env (fun _ c =>
         match c with
         | Rest.Call.addInvoiceMessage _ _ => true
         | Rest.Call.genericErrorMessage _ => true
         | _ => false
         end).

(** The message of the menu is gone already: deleting it rejects. *)
Definition menu_gone : Rest.Env :=
  env (fun _ c =>
         match c with
         | Rest.Call.ctx_deleteMessage => true
         | _ => false
         end).

Definition satoshis : Rest.CommunityDoc.t :=
  Rest.CommunityDoc.mk "c1" "Satoshis" true.

Definition world (o : Order.t) : Rest.World :=
  {| Rest.db := db (Example.world o);
     Rest.docs := <["c1" := satoshis]> ∅;
     Rest.trace := [] |}.

(** A buy order of bob that alice has taken: its creator is the buyer. *)
Definition bought : Order.t :=
  Order.mk "o1" "ACTIVE" (100000 # 1) (100 # 1)
    (Some "u_buyer") (Some "u_buyer") (Some "u_seller")
    (Some "lnbc1buyer") (Some "h1") (Some "s1") (Some 1700000000000) None
    false false false false (Some 11) (Some 12) None None.

(** An order whose buyer has no user document. *)
Definition orphan : Order.t :=
  Order.set_buyer_id (Some "u_ghost") Example.active.

(** A callback on the community [id]. *)
Definition callback (id : string) : Ctx :=
  {| message_text := "";
     message_from := "u_admin";
     botInfo_username := "p2pbot";
     match_1 := id |}.
End RestExample.

(** * Proofs *)

Lemma resolves_cons env h c cs :
  resolves env h (c :: cs) = true ->
  throws env h c = false /\ resolves env (h ++ [Called c]) cs = true.
Proof.
  simpl. intros H. apply andb_prop in H as [H1 H2].
  apply negb_true_iff in H1. auto.
Qed.

Lemma resolves_app env h cs1 cs2 :
  resolves env h (cs1 ++ cs2) =
  resolves env h cs1 && resolves env (h ++ map Called cs1) cs2.
Proof.
  revert h. induction cs1 as [|c cs1 IH]; intros h; simpl.
  - by rewrite app_nil_r.
  - rewrite IH, <- app_assoc, andb_assoc. reflexivity.
Qed.

Lemma eqb_ne (s t : string) : s <> t -> String.eqb s t = false.
Proof. apply String.eqb_neq. Qed.

Lemma since_app (w : World) (d : DB) (l : list Event) :
  since w {| db := d; trace := trace w ++ l |} = l.
Proof. unfold since. cbn. apply drop_app_length. Qed.

Lemma since_nil (w : World) (d : DB) :
  since w {| db := d; trace := trace w |} = [].
Proof. unfold since. cbn. apply drop_all. Qed.

(** Symbolic execution of a handler.  [split_resolves] turns the
    hypothesis that a list of calls resolves into one fact per call;
    [exec] unfolds the handler and runs it as far as the facts at hand
    decide; [case_throws] splits on the outcome of the next call. *)
Ltac split_resolves H :=
  repeat
    (let H1 := fresh "Hcall" in
     apply resolves_cons in H as [H1 H]);
  clear H.

Ltac use_facts :=
  repeat
    (match goal with
     | Hc : throws _ _ _ = false |- _ => rewrite Hc
     | Hc : throws _ _ _ = true |- _ => rewrite Hc
     | Hc : _ = Some _ |- _ => rewrite Hc
     | Hc : _ = None |- _ => rewrite Hc
     | Hc : _ = true |- _ => rewrite Hc
     | Hc : _ = false |- _ => rewrite Hc
     end; cbn).

Ltac exec handler :=
  unfold run, handler, try_catch, bind, when, console_log, logger_error, ret,
    return_, throw;
  unfold validateUser, validateAdmin, validateParams, validateObjectId,
    validateTakeSell, validateTakeSellOrder, validateReleaseOrder,
    validateDisputeOrder, getOrder, Order_findOne, User_findOne,
    User_findOne_username, Community_findById, PendingPayment_findOne,
    Order_save, User_save, createHoldInvoice, subscribeInvoice,
    settleHoldInvoice, cancelHoldInvoice, customMessage, beginDisputeMessage,
    invoicePaymentRequestMessage, takeSellWaitingSellerToPayMessage,
    invalidDataMessage, notFoundUserMessage, userBannedMessage,
    telegram_deleteMessage, telegram_editMessageText, ctx_reply, Date_now,
    await_value, await, write, bind, ret;
  cbn; use_facts.

Ltac case_throws :=
  repeat
    (match goal with
     | |- context [throws ?e ?h ?c] =>
         let E := fresh "E" in destruct (throws e h c) eqn:E; cbn; use_facts
     end).

Arguments since : simpl never.

(** Split on what a validator returned. *)
Ltac case_values :=
  repeat
    (match goal with
     | |- context [throws ?e ?h ?c] =>
         let E := fresh "E" in destruct (throws e h c) eqn:E
     | |- context [or_return ?v _] =>
         let E := fresh "E" in destruct v eqn:E
     | |- context [or_return_falsy ?v _] =>
         let E := fresh "E" in destruct v eqn:E
     | |- context [String.eqb ?s ""] =>
         let E := fresh "E" in destruct (String.eqb s "") eqn:E
     | |- context [negb ?b] =>
         let E := fresh "E" in destruct b eqn:E
     end; cbn; use_facts).

Ltac same_world :=
  unfold log; cbn; rewrite <- ?app_assoc; cbn;
  rewrite ?since_app, ?since_nil; cbn; try reflexivity.

(** ** The owner's [/cancel] *)

Section Cancel.
Variable env : Env.
Variables (w : World) (ctx : Ctx) (user : User.t) (orderId : string)
  (order : Order.t).
Hypothesis Huser : validateUser_result env (db w) ctx false = Some user.
Hypothesis Hparams : params_ok env ctx user orderId.
Hypothesis Horder : getOrder_result env (db w) user orderId = Some order.

Let fr : list Call.t :=
  front (Call.validateUser ctx false) ctx user orderId
    (Call.getOrder user orderId).
Let order' : Order.t :=
  Order.set_canceled_by (Some (User._id user))
    (Order.set_status "CANCELED" order).
Let escrow : list Call.t :=
  if truthy (Order.hash order)
  then [Call.cancelHoldInvoice (Order.hash order)] else [].
Let calls : list Call.t :=
  if cancellable (Order.status order)
  then
    fr ++ escrow
    ++ [ Call.Order_save order';
         Call.customMessage (Some user) (Text.you_canceled (Order._id order));
         Call.telegram_deleteMessage (channel (CHANNEL env))
           (Order.tg_channel_message1 order);
         Call.telegram_deleteMessage (channel (CHANNEL env))
           (Order.tg_channel_message2 order) ]
  else fr ++ [Call.customMessage (Some user) Text.only_untaken_orders].

Ltac cancel_cases :=
  destruct Hparams as (Hp & Hne%eqb_ne & Hv);
  subst calls fr order' escrow; unfold outcome, cancellable, front;
  destruct order as [? status ? ? ? ? ? ? hash]; cbn in *;
  destruct (String.eqb status "PENDING") eqn:E1;
  destruct (String.eqb status "WAITING_PAYMENT") eqn:E2;
  destruct (truthy hash) eqn:E3;
  exec cancel; case_throws; same_world.

(** Whatever the calls do, the documents change only for a cancellable
    order, and only by the one [save]. *)
Lemma cancel_db :
  db (run (cancel env ctx) w) =
  if cancellable (Order.status order)
     && resolves env (trace w) (fr ++ escrow ++ [Call.Order_save order'])
  then store_order order' (db w) else db w.
Proof. cancel_cases. Qed.

(** The hold invoice is cancelled exactly when the order is cancellable
    and has a hash; nothing is settled. *)
Lemma cancel_escrow :
  cancel_calls (since w (run (cancel env ctx) w)) =
  (if cancellable (Order.status order) && truthy (Order.hash order)
      && resolves env (trace w) fr
   then [Order.hash order] else [])
  /\ settle_calls (since w (run (cancel env ctx) w)) = [].
Proof. cancel_cases; split; reflexivity. Qed.

(** The calls of a run, in order. *)
Lemma cancel_log :
  trace (run (cancel env ctx) w) = trace w ++ outcome env (trace w) calls.
Proof. cancel_cases. Qed.

(** C5. The owner's cancel goes through only on an order that is PENDING
    or WAITING_PAYMENT: on any other status the user gets the guidance
    message and the documents stay as they are.  When it goes through, the
    order is saved with status CANCELED, the hold invoice is cancelled
    exactly when the order has a hash (never for an order without one), and
    the two postings are deleted from the channel. *)
Theorem cancel_by_owner :
  let w' := run (cancel env ctx) w in
  db w' =
    (if cancellable (Order.status order)
        && resolves env (trace w) (fr ++ escrow ++ [Call.Order_save order'])
     then store_order order' (db w) else db w)
  /\ Order.status order' = "CANCELED"
  /\ cancel_calls (since w w') =
    (if cancellable (Order.status order) && truthy (Order.hash order)
        && resolves env (trace w) fr
     then [Order.hash order] else [])
  /\ trace w' = trace w ++ outcome env (trace w) calls.
Proof.
  intros w'. subst w'.
  split; [apply cancel_db|].
  split; [subst order'; destruct order; reflexivity|].
  split; [apply cancel_escrow|].
  apply cancel_log.
Qed.
End Cancel.

(** Alice cancels her PENDING order, which has no hash: the order is saved
    as CANCELED, no hold invoice is cancelled, the postings are deleted. *)
Lemma cancel_by_owner_witness :
  validateUser_result Example.reliable
    (db (Example.world Example.pending)) (Example.command "u_seller") false
  = Some Example.alice
  /\ db (run (cancel Example.reliable (Example.command "u_seller"))
           (Example.world Example.pending))
     = store_order
         (Order.set_canceled_by (Some "u_seller")
            (Order.set_status "CANCELED" Example.pending))
         (db (Example.world Example.pending))
  /\ cancel_calls
       (since (Example.world Example.pending)
          (run (cancel Example.reliable (Example.command "u_seller"))
             (Example.world Example.pending)))
     = []
  /\ trace (run (cancel Example.reliable (Example.command "u_seller"))
              (Example.world Example.pending))
     = map Called
         [ Call.validateUser (Example.command "u_seller") false;
           Call.validateParams (Example.command "u_seller") Example.alice 2
             "<order_id>";
           Call.validateObjectId Example.alice "o1";
           Call.getOrder Example.alice "o1";
           Call.Order_save
             (Order.set_canceled_by (Some "u_seller")
                (Order.set_status "CANCELED" Example.pending));
           Call.customMessage (Some Example.alice) (Text.you_canceled "o1");
           Call.telegram_deleteMessage (channel "@p2p") (Some 11);
           Call.telegram_deleteMessage (channel "@p2p") (Some 12) ].
Proof.
  assert (Hp : params_ok Example.reliable (Example.command "u_seller")
                 Example.alice "o1")
    by (repeat split; discriminate).
  destruct (cancel_by_owner Example.reliable (Example.world Example.pending)
              (Example.command "u_seller") Example.alice "o1" Example.pending
              eq_refl Hp eq_refl)
    as (Hdb & _ & Hescrow & Htrace).
  split; [reflexivity|].
  split; [exact Hdb|].
  split; [exact Hescrow|].
  exact Htrace.
Defined.

(** ** [/release] *)

(** The handler writes no document, whatever the validators return and
    whatever the calls do. *)
Lemma release_db env ctx w : db (run (release env ctx) w) = db w.
Proof. exec release. case_values; reflexivity. Qed.

(** It cancels no hold invoice either. *)
Lemma release_cancels_nothing env ctx w :
  cancel_calls (since w (run (release env ctx) w)) = [].
Proof. exec release. case_values; same_world. Qed.

Section Release.
Variable env : Env.
Variables (w : World) (ctx : Ctx) (user : User.t) (orderId : string)
  (order : Order.t).
Hypothesis Huser : validateUser_result env (db w) ctx false = Some user.
Hypothesis Hparams : params_ok env ctx user orderId.
Hypothesis Horder :
  validateReleaseOrder_result env (db w) user orderId = Some order.

Let fr : list Call.t :=
  front (Call.validateUser ctx false) ctx user orderId
    (Call.validateReleaseOrder user orderId).

Ltac release_cases :=
  destruct Hparams as (Hp & Hne%eqb_ne & Hv);
  subst fr; unfold outcome, front; cbn;
  exec release; case_throws; same_world.

(** Once the validator has returned the order, settle is called with the
    order's secret, present or not. *)
Lemma release_settle :
  settle_calls (since w (run (release env ctx) w)) =
  if resolves env (trace w) fr then [Order.secret order] else [].
Proof. release_cases. Qed.

Lemma release_log :
  trace (run (release env ctx) w) =
  trace w
  ++ outcome env (trace w) (fr ++ [Call.settleHoldInvoice (Order.secret order)]).
Proof. release_cases. Qed.

End Release.

Section ReleaseCompletes.
Variable env : Env.
Variables (w : World) (ctx : Ctx) (user : User.t) (orderId : string)
  (order : Order.t).
Hypothesis Huser : validateUser_result env (db w) ctx false = Some user.
Hypothesis Hparams : params_ok env ctx user orderId.
Hypothesis Horder :
  validateReleaseOrder_result env (db w) user orderId = Some order.

(** The order is the stored one, in a state of the trade, with its
    secret. *)
Hypothesis Hstored : orders (db w) !! orderId = Some order.
Hypothesis Hstatus :
  Order.status order = "ACTIVE" \/ Order.status order = "FIAT_SENT".
Hypothesis Hsecret : truthy (Order.secret order) = true.

Let fr : list Call.t :=
  front (Call.validateUser ctx false) ctx user orderId
    (Call.validateReleaseOrder user orderId).
Let settle : Call.t := Call.settleHoldInvoice (Order.secret order).

(** The one settlement of the run is the one of the order's secret, when
    the call resolves. *)
Lemma release_settled :
  settled env (trace w) (since w (run (release env ctx) w)) =
  if resolves env (trace w) (fr ++ [settle]) then [Order.secret order] else [].
Proof.
  clear Hstored Hstatus Hsecret.
  unfold since.
  rewrite (release_log env w ctx user orderId order Huser Hparams Horder),
    drop_app_length.
  subst fr settle. unfold outcome, front. cbn.
  case_throws; reflexivity.
Qed.

(** C2.  When the seller releases an order that is FIAT_SENT (or ACTIVE)
    with its secret present, [settleHoldInvoice] is called exactly once,
    with the order's secret, as the last call of the handler, which
    writes no document itself; and with the transition of the coordinator
    modelled from the spec, the status of the stored order becomes
    COMPLETED when the settle call resolves, and is not advanced when it
    rejects. *)
Theorem release_settles_once :
  let w' := run (release env ctx) w in
  settle_calls (since w w') =
    (if resolves env (trace w) fr then [Order.secret order] else [])
  /\ trace w' = trace w ++ outcome env (trace w) (fr ++ [settle])
  /\ db w' = db w
  /\ Order.status <$> orders (coordinated env w w') !! orderId
     = Some (if resolves env (trace w) (fr ++ [settle])
             then "COMPLETED" else Order.status order).
Proof.
  cbn zeta.
  split; [apply (release_settle env w ctx user orderId order
                   Huser Hparams Horder)|].
  split; [apply (release_log env w ctx user orderId order
                   Huser Hparams Horder)|].
  split; [apply release_db|].
  unfold coordinated. cbn [orders].
  rewrite release_settled, release_db, lookup_fmap, Hstored.
  destruct (resolves env (trace w) (fr ++ [settle])); cbn.
  - rewrite bool_decide_eq_true_2 by apply list_elem_of_here.
    unfold Spec.release. rewrite Hsecret.
    destruct Hstatus as [Hs|Hs]; rewrite Hs; destruct order; reflexivity.
  - rewrite bool_decide_eq_false_2 by apply not_elem_of_nil.
    reflexivity.
Qed.
End ReleaseCompletes.

(** Alice releases the FIAT_SENT order: one settle call with the secret,
    no document written by the handler, and the order COMPLETED by the
    coordinator; with the node down the order stays FIAT_SENT. *)
Lemma release_settles_once_witness :
  validateReleaseOrder_result Deployed.reliable
    (db (Example.world Example.fiat_sent)) Example.alice "o1"
  = Some Example.fiat_sent
  /\ settle_calls
       (since (Example.world Example.fiat_sent)
          (run (release Deployed.reliable (Example.command "u_seller"))
             (Example.world Example.fiat_sent)))
     = [Some "s1"]
  /\ db (run (release Deployed.reliable (Example.command "u_seller"))
           (Example.world Example.fiat_sent))
     = db (Example.world Example.fiat_sent)
  /\ Order.status <$>
       orders
         (coordinated Deployed.reliable (Example.world Example.fiat_sent)
            (run (release Deployed.reliable (Example.command "u_seller"))
               (Example.world Example.fiat_sent))) !! "o1"
     = Some "COMPLETED"
  /\ Order.status <$>
       orders
         (coordinated Deployed.node_down (Example.world Example.fiat_sent)
            (run (release Deployed.node_down (Example.command "u_seller"))
               (Example.world Example.fiat_sent))) !! "o1"
     = Some "FIAT_SENT".
Proof.
  assert (Hp : params_ok Deployed.reliable (Example.command "u_seller")
                 Example.alice "o1")
    by (repeat split; discriminate).
  assert (Hp' : params_ok Deployed.node_down (Example.command "u_seller")
                  Example.alice "o1")
    by (repeat split; discriminate).
  destruct (release_settles_once Deployed.reliable
              (Example.world Example.fiat_sent) (Example.command "u_seller")
              Example.alice "o1" Example.fiat_sent eq_refl Hp eq_refl
              eq_refl (or_intror eq_refl) eq_refl)
    as (Hsettle & _ & Hdb & Hstatus).
  destruct (release_settles_once Deployed.node_down
              (Example.world Example.fiat_sent) (Example.command "u_seller")
              Example.alice "o1" Example.fiat_sent eq_refl Hp' eq_refl
              eq_refl (or_intror eq_refl) eq_refl)
    as (_ & _ & _ & Hdown).
  split; [reflexivity|].
  split; [exact Hsettle|].
  split; [exact Hdb|].
  split; [exact Hstatus | exact Hdown].
Defined.

(** ** The admin's [/cancelorder] and [/settleorder] *)

Section Admin.
Variable env : Env.
Variables (w : World) (ctx : Ctx) (user : User.t) (orderId : string)
  (order : Order.t).
Hypothesis Hadmin : validateAdmin_result env (db w) ctx = Some user.
Hypothesis Hparams : params_ok env ctx user orderId.
Hypothesis Hfound : orders (db w) !! orderId = Some order.
Hypothesis Horder : getOrder_result env (db w) user orderId = Some order.

Let parties : list Call.t :=
  [ Call.User_findOne (Order.buyer_id order);
    Call.User_findOne (Order.seller_id order) ].
Let buyer : option User.t := find_user (db w) (Order.buyer_id order).
Let seller : option User.t := find_user (db w) (Order.seller_id order).

(** *** [/cancelorder] *)

Let fr_cancel : list Call.t :=
  front (Call.validateAdmin ctx) ctx user orderId (Call.Order_findOne orderId).
Let canceled : Order.t :=
  Order.set_canceled_by (Some (User._id user))
    (Order.set_status "CANCELED_BY_ADMIN" order).
Let refund : list Call.t :=
  if truthy (Order.hash order)
  then [Call.cancelHoldInvoice (Order.hash order)] else [].
Let calls_cancel : list Call.t :=
  fr_cancel ++ refund ++ parties
  ++ [ Call.Order_save canceled;
       Call.customMessage (Some user) (Text.you_canceled (Order._id order));
       Call.customMessage seller (Text.admin_canceled_seller (Order._id order));
       Call.customMessage buyer (Text.admin_canceled_buyer (Order._id order));
       Call.telegram_deleteMessage (channel (CHANNEL env))
         (Order.tg_channel_message1 order);
       Call.telegram_deleteMessage (channel (CHANNEL env))
         (Order.tg_channel_message2 order) ].

Ltac cancelorder_cases :=
  clear Horder;
  destruct Hparams as (Hp & Hne%eqb_ne & Hv);
  subst calls_cancel fr_cancel canceled refund parties buyer seller;
  unfold outcome, front;
  destruct order as [? ? ? ? ? ? ? ? hash]; cbn in *;
  destruct (truthy hash) eqn:E3;
  exec cancelorder; case_throws; same_world.


Lemma cancelorder_escrow :
  cancel_calls (since w (run (cancelorder env ctx) w)) =
  (if truthy (Order.hash order) && resolves env (trace w) fr_cancel
   then [Order.hash order] else [])
  /\ settle_calls (since w (run (cancelorder env ctx) w)) = [].
Proof. cancelorder_cases; split; reflexivity. Qed.

Lemma cancelorder_log :
  trace (run (cancelorder env ctx) w) =
  trace w ++ outcome env (trace w) calls_cancel.
Proof. cancelorder_cases. Qed.

(** *** [/settleorder] *)

Let fr_settle : list Call.t :=
  front (Call.validateAdmin ctx) ctx user orderId (Call.getOrder user orderId).
Let completed : Order.t := Order.set_status "COMPLETED_BY_ADMIN" order.
Let settle : list Call.t :=
  if truthy (Order.secret order)
  then [Call.settleHoldInvoice (Order.secret order)] else [].
Let calls_settle : list Call.t :=
  fr_settle ++ settle ++ parties
  ++ [ Call.Order_save completed;
       Call.customMessage (Some user) (Text.you_completed (Order._id order));
       Call.customMessage seller
         (Text.admin_completed_seller (Order._id order));
       Call.customMessage buyer (Text.admin_completed_buyer (Order._id order));
       Call.telegram_editMessageText (channel (CHANNEL env))
         (Order.tg_channel_message2 order)
         (Text.order_completed (Order._id order)) ]
  ++ (if negative (Order.tg_chat_id order)
      then [ Call.telegram_editMessageText (chat (Order.tg_chat_id order))
               (Order.tg_group_message2 order)
               (Text.order_completed (Order._id order)) ]
      else []).

Ltac settleorder_cases :=
  clear Hfound;
  destruct Hparams as (Hp & Hne%eqb_ne & Hv);
  subst calls_settle fr_settle completed settle parties buyer seller;
  unfold outcome, front;
  destruct order as [? ? ? ? ? ? ? ? ? secret ? ? ? ? ? ? ? ? tg_chat_id];
  cbn in *;
  destruct (truthy secret) eqn:E3;
  destruct (negative tg_chat_id) eqn:E4;
  exec settleorder; case_throws; same_world.


Lemma settleorder_escrow :
  settle_calls (since w (run (settleorder env ctx) w)) =
  (if truthy (Order.secret order) && resolves env (trace w) fr_settle
   then [Order.secret order] else [])
  /\ cancel_calls (since w (run (settleorder env ctx) w)) = [].
Proof. settleorder_cases; split; reflexivity. Qed.

Lemma settleorder_log :
  trace (run (settleorder env ctx) w) =
  trace w ++ outcome env (trace w) calls_settle.
Proof. settleorder_cases. Qed.
End Admin.

(** ** [/cooperativecancel] *)

Section Cooperative.
Variable env : Env.
Variables (w : World) (ctx : Ctx) (user : User.t) (orderId : string)
  (order : Order.t).
Hypothesis Huser : validateUser_result env (db w) ctx false = Some user.
Hypothesis Hparams : params_ok env ctx user orderId.
Hypothesis Horder : getOrder_result env (db w) user orderId = Some order.

Let fr : list Call.t :=
  front (Call.validateUser ctx false) ctx user orderId
    (Call.getOrder user orderId).
Let initiator : Role.t := role_of user order.
Let counterParty : Role.t := other initiator.
Let lookup : Call.t := Call.User_findOne (party_id counterParty order).
Let counterPartyUser : option User.t :=
  find_user (db w) (party_id counterParty order).
Let requested : Order.t := Order.set_cooperativecancel initiator true order.
Let canceled : Order.t := Order.set_status "CANCELED" requested.
Let refund : list Call.t :=
  if truthy (Order.hash order)
  then [Call.cancelHoldInvoice (Order.hash order)] else [].

(** The calls of the branch that waits for the counterparty. *)
Let first_request : list Call.t :=
  fr ++ lookup
  :: [ Call.customMessage (Some user) (Text.cancel_initiated (Order._id order));
       Call.customMessage counterPartyUser
         (Text.counterparty_wants_cancel (Order._id order));
       Call.customMessage counterPartyUser
         (Text.cooperativecancel_command (Order._id order));
       Call.Order_save requested ].

(** The calls of the second confirmation. *)
Let second_confirmation : list Call.t :=
  fr ++ lookup :: refund
  ++ [ Call.customMessage (Some user) (Text.you_canceled (Order._id order));
       Call.customMessage counterPartyUser
         (Text.counterparty_agreed (Order._id order));
       Call.telegram_deleteMessage (channel (CHANNEL env))
         (Order.tg_channel_message1 order);
       Call.telegram_deleteMessage (channel (CHANNEL env))
         (Order.tg_channel_message2 order);
       Call.Order_save canceled ].

Let calls : list Call.t :=
  if negb (String.eqb (Order.status order) "ACTIVE")
  then fr ++ [Call.customMessage (Some user) Text.only_active_orders]
  else if Order.cooperativecancel initiator order
  then fr ++ [lookup; Call.customMessage (Some user) Text.already_requested]
  else if Order.cooperativecancel counterParty order
  then second_confirmation
  else first_request.

(** The document the handler saves, if it gets to save one. *)
Let saved : option Order.t :=
  if String.eqb (Order.status order) "ACTIVE"
     && negb (Order.cooperativecancel initiator order)
  then Some (if Order.cooperativecancel counterParty order
             then canceled else requested)
  else None.

Ltac cooperative_cases :=
  destruct Hparams as (Hp & Hne%eqb_ne & Hv);
  subst calls saved second_confirmation first_request refund canceled
    requested counterPartyUser lookup counterParty initiator fr;
  unfold outcome, front, role_of;
  destruct order as [? status ? ? ? buyer_id ? ? hash ? ? ? bc sc];
  cbn in *;
  destruct (String.eqb status "ACTIVE") eqn:E1;
  destruct (loose_eq (User._id user) buyer_id) eqn:E2;
  destruct bc, sc;
  destruct (truthy hash) eqn:E3;
  exec cooperativecancel; case_throws; same_world.

Lemma cooperativecancel_db :
  db (run (cooperativecancel env ctx) w) =
  match saved with
  | Some o =>
      if resolves env (trace w) calls then store_order o (db w) else db w
  | None => db w
  end.
Proof. cooperative_cases. Qed.

Lemma cooperativecancel_escrow :
  cancel_calls (since w (run (cooperativecancel env ctx) w)) =
  (if String.eqb (Order.status order) "ACTIVE"
      && negb (Order.cooperativecancel initiator order)
      && Order.cooperativecancel counterParty order
      && truthy (Order.hash order)
      && resolves env (trace w) (fr ++ [lookup])
   then [Order.hash order] else [])
  /\ settle_calls (since w (run (cooperativecancel env ctx) w)) = [].
Proof. cooperative_cases; split; reflexivity. Qed.

Lemma cooperativecancel_log :
  trace (run (cooperativecancel env ctx) w) =
  trace w ++ outcome env (trace w) calls.
Proof. cooperative_cases. Qed.
End Cooperative.

(** ** The second confirmation of a cooperative cancellation *)

Section SecondConfirmation.
Variable env : Env.
Variables (w : World) (ctx : Ctx) (user : User.t) (orderId : string)
  (order : Order.t).
Hypothesis Huser : validateUser_result env (db w) ctx false = Some user.
Hypothesis Hparams : params_ok env ctx user orderId.
Hypothesis Horder : getOrder_result env (db w) user orderId = Some order.
Hypothesis Hactive : Order.status order = "ACTIVE".
Hypothesis Hmine :
  Order.cooperativecancel (role_of user order) order = false.
Hypothesis Htheirs :
  Order.cooperativecancel (other (role_of user order)) order = true.

Let fr : list Call.t :=
  front (Call.validateUser ctx false) ctx user orderId
    (Call.getOrder user orderId).
Let lookup : Call.t :=
  Call.User_findOne (party_id (other (role_of user order)) order).
Let counterPartyUser : option User.t :=
  find_user (db w) (party_id (other (role_of user order)) order).
Let canceled : Order.t :=
  Order.set_status "CANCELED"
    (Order.set_cooperativecancel (role_of user order) true order).

(** The calls of the branch, in the order of the source: the refund, the
    two notifications, the two deletions, and the [save] last. *)
Let branch : list Call.t :=
  (if truthy (Order.hash order)
   then [Call.cancelHoldInvoice (Order.hash order)] else [])
  ++ [ Call.customMessage (Some user) (Text.you_canceled (Order._id order));
       Call.customMessage counterPartyUser
         (Text.counterparty_agreed (Order._id order));
       Call.telegram_deleteMessage (channel (CHANNEL env))
         (Order.tg_channel_message1 order);
       Call.telegram_deleteMessage (channel (CHANNEL env))
         (Order.tg_channel_message2 order);
       Call.Order_save canceled ].

(** C10. In the second confirmation the refund, the two notifications and
    the two deletions are made before the save.  So when one of them
    rejects, the handler's [catch] prints the error and the save is never
    made: the documents are as they were (the order still ACTIVE, without
    the second flag), although the hold invoice has been cancelled as soon
    as the order has a hash and the handler got that far. *)
Theorem second_confirmation_saves_last :
  let w' := run (cooperativecancel env ctx) w in
  trace w' = trace w ++ outcome env (trace w) (fr ++ lookup :: branch)
  /\ db w' =
     (if resolves env (trace w) (fr ++ lookup :: branch)
      then store_order canceled (db w) else db w)
  /\ cancel_calls (since w w') =
     (if truthy (Order.hash order) && resolves env (trace w) (fr ++ [lookup])
      then [Order.hash order] else []).
Proof.
  intros w'. subst w'.
  pose proof (cooperativecancel_log env w ctx user orderId order
                Huser Hparams Horder) as Hlog.
  pose proof (cooperativecancel_db env w ctx user orderId order
                Huser Hparams Horder) as Hdb.
  pose proof (cooperativecancel_escrow env w ctx user orderId order
                Huser Hparams Horder) as [Hesc _].
  rewrite Hactive, Hmine, Htheirs in Hlog, Hdb, Hesc.
  cbn [String.eqb Ascii.eqb Bool.eqb negb andb] in Hlog, Hdb, Hesc.
  repeat split; assumption.
Qed.
End SecondConfirmation.

Lemma outcome_resolves env h cs :
  resolves env h cs = true -> outcome env h cs = map Called cs.
Proof.
  unfold outcome. revert h.
  induction cs as [|c cs IH]; intros h Hres; [reflexivity|].
  apply resolves_cons in Hres as [Hc Hres]. cbn. rewrite Hc.
  specialize (IH _ Hres).
  destruct (rejection env (h ++ [Called c]) cs);
    cbn in *; rewrite ?app_nil_r in *; congruence.
Qed.

Lemma since_trace (w w' : World) (l : list Event) :
  trace w' = trace w ++ l -> since w w' = l.
Proof. unfold since. intros ->. apply drop_app_length. Qed.

Lemma cancel_calls_app l1 l2 :
  cancel_calls (l1 ++ l2) = cancel_calls l1 ++ cancel_calls l2.
Proof. apply omap_app. Qed.

(** The same as [split_resolves], once [resolves] has been computed. *)
Ltac split_conj H :=
  repeat
    (let H1 := fresh "Hcall" in
     apply andb_prop in H as [H1 H]; apply negb_true_iff in H1);
  clear H.

Section BothParties.
Variable env : Env.
Variables (w : World) (ctx1 ctx2 : Ctx) (user1 user2 : User.t)
  (orderId : string) (order : Order.t).

(** An ACTIVE order that nobody has asked to cancel yet, stored under its
    identifier. *)
Hypothesis Hid : Order._id order = orderId.
Hypothesis Hactive : Order.status order = "ACTIVE".
Hypothesis Hbuyer : Order.buyer_cooperativecancel order = false.
Hypothesis Hseller : Order.seller_cooperativecancel order = false.

(** The first request, by [user1]. *)
Hypothesis Huser1 : validateUser_result env (db w) ctx1 false = Some user1.
Hypothesis Hparams1 : params_ok env ctx1 user1 orderId.
Hypothesis Hget1 : getOrder_result env (db w) user1 orderId = Some order.

Let first : Role.t := role_of user1 order.
Let requested : Order.t := Order.set_cooperativecancel first true order.
Let canceled : Order.t :=
  Order.set_status "CANCELED"
    (Order.set_cooperativecancel (other first) true requested).

Let calls1 : list Call.t :=
  front (Call.validateUser ctx1 false) ctx1 user1 orderId
    (Call.getOrder user1 orderId)
  ++ [ Call.User_findOne (party_id (other first) order);
       Call.customMessage (Some user1) (Text.cancel_initiated orderId);
       Call.customMessage (find_user (db w) (party_id (other first) order))
         (Text.counterparty_wants_cancel orderId);
       Call.customMessage (find_user (db w) (party_id (other first) order))
         (Text.cooperativecancel_command orderId);
       Call.Order_save requested ].
Hypothesis Hcalls1 : resolves env (trace w) calls1 = true.

Let w1 : World := run (cooperativecancel env ctx1) w.

(** The second request, by the other party, on the stored order. *)
Hypothesis Huser2 : validateUser_result env (db w1) ctx2 false = Some user2.
Hypothesis Hparams2 : params_ok env ctx2 user2 orderId.
Hypothesis Hget2 :
  getOrder_result env (db w1) user2 orderId = orders (db w1) !! orderId.
Hypothesis Hroles : role_of user2 order = other first.

Let calls2 : list Call.t :=
  front (Call.validateUser ctx2 false) ctx2 user2 orderId
    (Call.getOrder user2 orderId)
  ++ Call.User_findOne (party_id first order)
  :: (if truthy (Order.hash order)
      then [Call.cancelHoldInvoice (Order.hash order)] else [])
  ++ [ Call.customMessage (Some user2) (Text.you_canceled orderId);
       Call.customMessage (find_user (db w) (party_id first order))
         (Text.counterparty_agreed orderId);
       Call.telegram_deleteMessage (channel (CHANNEL env))
         (Order.tg_channel_message1 order);
       Call.telegram_deleteMessage (channel (CHANNEL env))
         (Order.tg_channel_message2 order);
       Call.Order_save canceled ].
Hypothesis Hcalls2 : resolves env (trace w1) calls2 = true.

Let w2 : World := run (cooperativecancel env ctx2) w1.

Lemma first_request_run :
  w1 = {| db := store_order requested (db w);
          trace := trace w ++ map Called calls1 |}.
Proof.
  subst w1 w2 calls2 calls1 canceled requested first.
  destruct Hparams1 as (Hp & Hne%eqb_ne & Hv).
  clear Huser2 Hparams2 Hget2 Hcalls2 Hroles.
  split_resolves Hcalls1.
  unfold role_of, front in *.
  destruct order as [? ? ? ? ? buyer_id]; cbn in *; subst.
  destruct (loose_eq (User._id user1) buyer_id) eqn:E1; cbn in *;
    exec cooperativecancel; same_world.
Qed.

Lemma second_request_run :
  w2 = {| db := store_order canceled (db w1);
          trace := trace w1 ++ map Called calls2 |}.
Proof.
  pose proof first_request_run as Hw1.
  assert (Hget : getOrder_result env (db w1) user2 orderId = Some requested).
  { rewrite Hget2, Hw1. cbn.
    replace orderId with (Order._id requested)
      by (subst requested; destruct order, first; exact Hid).
    apply lookup_insert_eq. }
  assert (Husers : users (db w1) = users (db w)) by (rewrite Hw1; reflexivity).
  clearbody w1. clear Hw1 Hget2 Hcalls1 calls1.
  subst w2 calls2 canceled requested first.
  destruct Hparams2 as (Hp & Hne%eqb_ne & Hv).
  unfold role_of, front, find_user in *.
  destruct order as [? ? ? ? ? buyer_id]; cbn in *; subst.
  destruct (loose_eq (User._id user1) buyer_id) eqn:E1;
    destruct (loose_eq (User._id user2) buyer_id) eqn:E2;
    try discriminate Hroles; cbn in *;
    destruct (truthy hash) eqn:E3; cbn in *;
    split_conj Hcalls2;
    exec cooperativecancel; unfold find_user; cbn; rewrite ?Husers;
    use_facts; same_world.
Qed.

(** C3. On an ACTIVE order, the request of one party while the other has
    not asked yet leaves the order ACTIVE, with the requester's flag only,
    and cancels no hold invoice.  The order becomes CANCELED on the call of
    the other party, the one that makes both flags true; the hold invoice
    is then cancelled, once, when the order has a hash.  Which of the two
    parties asks first makes no difference. *)
Theorem cooperative_cancel_needs_both :
  orders (db w1) !! orderId = Some requested
  /\ Order.status requested = "ACTIVE"
  /\ Order.cooperativecancel first requested = true
  /\ Order.cooperativecancel (other first) requested = false
  /\ cancel_calls (since w w1) = []
  /\ orders (db w2) !! orderId = Some canceled
  /\ Order.status canceled = "CANCELED"
  /\ Order.buyer_cooperativecancel canceled = true
  /\ Order.seller_cooperativecancel canceled = true
  /\ cancel_calls (since w1 w2) =
     (if truthy (Order.hash order) then [Order.hash order] else [])
  /\ cancel_calls (since w w2) =
     (if truthy (Order.hash order) then [Order.hash order] else []).
Proof.
  pose proof first_request_run as H1.
  pose proof second_request_run as H2.
  assert (Hk1 : Order._id requested = orderId)
    by (subst requested; destruct order, first; exact Hid).
  assert (Hk2 : Order._id canceled = orderId)
    by (subst canceled requested; destruct order, first; exact Hid).
  split.
  { rewrite H1. cbn. rewrite Hk1. apply lookup_insert_eq. }
  split.
  { subst requested. destruct order, first; exact Hactive. }
  split.
  { subst requested. destruct order, first; reflexivity. }
  split.
  { subst requested. destruct order, first; cbn in *; assumption. }
  split.
  { rewrite H1, since_app. reflexivity. }
  split.
  { rewrite H2. cbn. rewrite Hk2. apply lookup_insert_eq. }
  split.
  { subst canceled requested. destruct order, first; reflexivity. }
  split.
  { subst canceled requested. destruct order, first; reflexivity. }
  split.
  { subst canceled requested. destruct order, first; reflexivity. }
  split.
  { rewrite H2, since_app. subst calls2.
    destruct (truthy (Order.hash order)); reflexivity. }
  rewrite H2, H1. cbn. rewrite <- app_assoc, since_app, cancel_calls_app.
  subst calls2. destruct (truthy (Order.hash order)); reflexivity.
Qed.
End BothParties.

(** Bob, the buyer, asks first and alice agrees: ACTIVE after the first
    call, CANCELED after the second, one refund of the hash. *)
Lemma cooperative_cancel_needs_both_witness :
  Order.status Example.active = "ACTIVE"
  /\ role_of Example.bob Example.active = Role.buyer
  /\ role_of Example.alice Example.active = Role.seller
  /\ Order.status <$>
       orders
         (db (run (cooperativecancel Example.reliable
                     (Example.command "u_buyer"))
                (Example.world Example.active))) !! "o1"
     = Some "ACTIVE"
  /\ Order.status <$>
       orders
         (db (run (cooperativecancel Example.reliable
                     (Example.command "u_seller"))
                (run (cooperativecancel Example.reliable
                        (Example.command "u_buyer"))
                   (Example.world Example.active)))) !! "o1"
     = Some "CANCELED"
  /\ cancel_calls
       (since (Example.world Example.active)
          (run (cooperativecancel Example.reliable
                  (Example.command "u_seller"))
             (run (cooperativecancel Example.reliable
                     (Example.command "u_buyer"))
                (Example.world Example.active))))
     = [Some "h1"].
Proof.
  assert (Hp1 : params_ok Example.reliable (Example.command "u_buyer")
                  Example.bob "o1")
    by (repeat split; discriminate).
  assert (Hp2 : params_ok Example.reliable (Example.command "u_seller")
                  Example.alice "o1")
    by (repeat split; discriminate).
  destruct (cooperative_cancel_needs_both Example.reliable
              (Example.world Example.active)
              (Example.command "u_buyer") (Example.command "u_seller")
              Example.bob Example.alice "o1" Example.active
              eq_refl eq_refl eq_refl eq_refl
              eq_refl Hp1 eq_refl eq_refl
              eq_refl Hp2 eq_refl eq_refl eq_refl)
    as (Hw1 & _ & _ & _ & _ & Hw2 & _ & _ & _ & _ & Hcancel).
  split; [reflexivity|].
  split; [reflexivity|].
  split; [reflexivity|].
  split; [rewrite Hw1; reflexivity|].
  split; [rewrite Hw2; reflexivity|].
  exact Hcancel.
Defined.

(** Bob confirms the cancellation alice asked for, and the first posting
    cannot be deleted: the hold invoice has been cancelled and both users
    notified, and the order is still stored as it was. *)
Lemma second_confirmation_saves_last_witness :
  Order.status Example.awaiting_buyer = "ACTIVE"
  /\ Order.seller_cooperativecancel Example.awaiting_buyer = true
  /\ trace (run (cooperativecancel Example.postings_gone
                   (Example.command "u_buyer"))
              (Example.world Example.awaiting_buyer))
     = map Called
         [ Call.validateUser (Example.command "u_buyer") false;
           Call.validateParams (Example.command "u_buyer") Example.bob 2
             "<order_id>";
           Call.validateObjectId Example.bob "o1";
           Call.getOrder Example.bob "o1";
           Call.User_findOne (Some "u_seller");
           Call.cancelHoldInvoice (Some "h1");
           Call.customMessage (Some Example.bob) (Text.you_canceled "o1");
           Call.customMessage (Some Example.alice)
             (Text.counterparty_agreed "o1");
           Call.telegram_deleteMessage (channel "@p2p") (Some 11) ]
       ++ [ Printed
              (Rejected
                 (Call.telegram_deleteMessage (channel "@p2p") (Some 11))) ]
  /\ db (run (cooperativecancel Example.postings_gone
                (Example.command "u_buyer"))
           (Example.world Example.awaiting_buyer))
     = db (Example.world Example.awaiting_buyer)
  /\ cancel_calls
       (since (Example.world Example.awaiting_buyer)
          (run (cooperativecancel Example.postings_gone
                  (Example.command "u_buyer"))
             (Example.world Example.awaiting_buyer)))
     = [Some "h1"].
Proof.
  assert (Hp : params_ok Example.postings_gone (Example.command "u_buyer")
                 Example.bob "o1")
    by (repeat split; discriminate).
  destruct (second_confirmation_saves_last Example.postings_gone
              (Example.world Example.awaiting_buyer)
              (Example.command "u_buyer") Example.bob "o1"
              Example.awaiting_buyer
              eq_refl Hp eq_refl eq_refl eq_refl eq_refl)
    as (Hlog & Hdb & Hcancel).
  split; [reflexivity|].
  split; [reflexivity|].
  split; [exact Hlog|].
  split; [exact Hdb | exact Hcancel].
Defined.

Lemma terminal_guards (s : string) :
  terminal s = true ->
  cancellable s = false /\ String.eqb s "ACTIVE" = false.
Proof.
  unfold terminal, cancellable. intros H.
  repeat (apply orb_prop in H as [H|H]);
    apply String.eqb_eq in H; subst; split; reflexivity.
Qed.

(** ** Escrow calls on an order in a terminal state *)

Section Terminal.
Variable env : Env.
Variables (w : World) (orderId : string) (order : Order.t).
Hypothesis Hterminal : terminal (Order.status order) = true.

(** A user sends [/cancel] or [/cooperativecancel]. *)
Variables (ctx : Ctx) (user : User.t).
Hypothesis Huser : validateUser_result env (db w) ctx false = Some user.
Hypothesis Hparams : params_ok env ctx user orderId.
Hypothesis Horder : getOrder_result env (db w) user orderId = Some order.

(** An admin sends [/cancelorder] or [/settleorder]. *)
Variables (ctx_a : Ctx) (admin : User.t).
Hypothesis Hadmin : validateAdmin_result env (db w) ctx_a = Some admin.
Hypothesis Hparams_a : params_ok env ctx_a admin orderId.
Hypothesis Hfound : orders (db w) !! orderId = Some order.
Hypothesis Horder_a : getOrder_result env (db w) admin orderId = Some order.

(** C1, as the handlers have it.  Once an order is in a terminal state, the
    user's cancel and the cooperative cancellation call neither
    [cancelHoldInvoice] nor [settleHoldInvoice] and write nothing.  The
    admin's commands do not look at the status: [/cancelorder] calls
    [cancelHoldInvoice] whenever the order has a hash, [/settleorder] calls
    [settleHoldInvoice] whenever it has a secret, each time they are
    sent. *)
Theorem escrow_on_terminal_order :
  (cancel_calls (since w (run (cancel env ctx) w)) = []
   /\ settle_calls (since w (run (cancel env ctx) w)) = []
   /\ db (run (cancel env ctx) w) = db w)
  /\ (cancel_calls (since w (run (cooperativecancel env ctx) w)) = []
      /\ settle_calls (since w (run (cooperativecancel env ctx) w)) = []
      /\ db (run (cooperativecancel env ctx) w) = db w)
  /\ cancel_calls (since w (run (cancelorder env ctx_a) w)) =
     (if truthy (Order.hash order)
         && resolves env (trace w)
              (front (Call.validateAdmin ctx_a) ctx_a admin orderId
                 (Call.Order_findOne orderId))
      then [Order.hash order] else [])
  /\ settle_calls (since w (run (settleorder env ctx_a) w)) =
     (if truthy (Order.secret order)
         && resolves env (trace w)
              (front (Call.validateAdmin ctx_a) ctx_a admin orderId
                 (Call.getOrder admin orderId))
      then [Order.secret order] else []).
Proof.
  destruct (terminal_guards _ Hterminal) as [Hc Ha].
  pose proof (cancel_escrow env w ctx user orderId order Huser Hparams Horder)
    as [Hc1 Hc2].
  pose proof (cancel_db env w ctx user orderId order Huser Hparams Horder)
    as Hc3.
  pose proof (cooperativecancel_escrow env w ctx user orderId order
                Huser Hparams Horder) as [Hd1 Hd2].
  pose proof (cooperativecancel_db env w ctx user orderId order
                Huser Hparams Horder) as Hd3.
  rewrite Hc in Hc1, Hc3. rewrite Ha in Hd1, Hd3.
  cbn [andb] in Hc1, Hc3, Hd1, Hd3.
  split; [auto|].
  split; [auto|].
  split.
  - apply (proj1 (cancelorder_escrow env w ctx_a admin orderId order
                    Hadmin Hparams_a Hfound)).
  - apply (proj1 (settleorder_escrow env w ctx_a admin orderId order
                    Hadmin Hparams_a Horder_a)).
Qed.
End Terminal.

(** On the CANCELED order, the owner's cancel calls nothing, and the admin's
    commands cancel the hold invoice and reveal the secret again. *)
Lemma escrow_on_terminal_order_witness :
  terminal (Order.status Example.canceled) = true
  /\ cancel_calls
       (since (Example.world Example.canceled)
          (run (cancel Example.reliable (Example.command "u_seller"))
             (Example.world Example.canceled)))
     = []
  /\ cancel_calls
       (since (Example.world Example.canceled)
          (run (cancelorder Example.reliable (Example.command "u_admin"))
             (Example.world Example.canceled)))
     = [Some "h1"]
  /\ settle_calls
       (since (Example.world Example.canceled)
          (run (settleorder Example.reliable (Example.command "u_admin"))
             (Example.world Example.canceled)))
     = [Some "s1"].
Proof.
  assert (Hp : params_ok Example.reliable (Example.command "u_seller")
                 Example.alice "o1")
    by (repeat split; discriminate).
  assert (Hpa : params_ok Example.reliable (Example.command "u_admin")
                  Example.root "o1")
    by (repeat split; discriminate).
  destruct (escrow_on_terminal_order Example.reliable
              (Example.world Example.canceled) "o1" Example.canceled
              eq_refl
              (Example.command "u_seller") Example.alice eq_refl Hp eq_refl
              (Example.command "u_admin") Example.root eq_refl Hpa
              eq_refl eq_refl)
    as ((Hcancel & _) & _ & Hadmin_cancel & Hadmin_settle).
  split; [reflexivity|].
  split; [exact Hcancel|].
  split; [exact Hadmin_cancel | exact Hadmin_settle].
Defined.

(** C1 as stated fails.  An order is taken, cancelled by its owner while
    waiting for the payment, then cancelled again and settled twice by an
    admin: the hold invoice of hash [h1] is cancelled twice, the second
    time when the order is already CANCELED, and its secret is revealed
    twice after that. *)
Lemma escrow_called_again_after_terminal :
  Order.status <$>
    orders
      (db (replay
             [ takesell Example.reliable (Example.command "u_buyer");
               cancel Example.reliable (Example.command "u_seller") ]
             (Example.world Example.pending))) !! "o1"
  = Some "CANCELED"
  /\ cancel_calls
       (trace
          (replay
             [ takesell Example.reliable (Example.command "u_buyer");
               cancel Example.reliable (Example.command "u_seller");
               cancelorder Example.reliable (Example.command "u_admin") ]
             (Example.world Example.pending)))
     = [Some "h1"; Some "h1"]
  /\ settle_calls
       (trace
          (replay
             [ takesell Example.reliable (Example.command "u_buyer");
               cancel Example.reliable (Example.command "u_seller");
               cancelorder Example.reliable (Example.command "u_admin");
               settleorder Example.reliable (Example.command "u_admin");
               settleorder Example.reliable (Example.command "u_admin") ]
             (Example.world Example.pending)))
     = [Some "s1"; Some "s1"].
Proof. repeat split; vm_compute; reflexivity. Qed.

(** ** Which handlers look at the field before they call the escrow *)



Section Guards.
Variable env : Env.
Variables (w : World) (orderId : string) (order : Order.t).

(** The validator of the release is the one of the spec. *)
Hypothesis Hspec :
  forall d u id,
    validateReleaseOrder_result env d u id = Spec.validateReleaseOrder d u id.

(** A user sends [/cancel], [/cooperativecancel] or [/release]. *)
Variables (ctx : Ctx) (user : User.t).
Hypothesis Huser : validateUser_result env (db w) ctx false = Some user.
Hypothesis Hparams : params_ok env ctx user orderId.
Hypothesis Horder : getOrder_result env (db w) user orderId = Some order.

(** An admin sends [/cancelorder] or [/settleorder]. *)
Variables (ctx_a : Ctx) (admin : User.t).
Hypothesis Hadmin : validateAdmin_result env (db w) ctx_a = Some admin.
Hypothesis Hparams_a : params_ok env ctx_a admin orderId.
Hypothesis Hfound : orders (db w) !! orderId = Some order.
Hypothesis Horder_a : getOrder_result env (db w) admin orderId = Some order.

Let fr (validate fetch : Call.t) (c : Ctx) (u : User.t) : list Call.t :=
  front validate c u orderId fetch.
Let parties : list Call.t :=
  [ Call.User_findOne (Order.buyer_id order);
    Call.User_findOne (Order.seller_id order) ].
Let refund : list Call.t :=
  if truthy (Order.hash order)
  then [Call.cancelHoldInvoice (Order.hash order)] else [].
Let settle : list Call.t :=
  if truthy (Order.secret order)
  then [Call.settleHoldInvoice (Order.secret order)] else [].
Let canceled : Order.t :=
  Order.set_canceled_by (Some (User._id user))
    (Order.set_status "CANCELED" order).

End Guards.


(** ** [/dispute] *)

Section Dispute.
Variable env : Env.
Variables (w : World) (ctx : Ctx) (user : User.t) (orderId : string)
  (order : Order.t) (b s : User.t).
Hypothesis Huser : validateUser_result env (db w) ctx false = Some user.
Hypothesis Hparams : params_ok env ctx user orderId.
Hypothesis Horder :
  validateDisputeOrder_result env (db w) user orderId = Some order.
Hypothesis Hbuyer : find_user (db w) (Order.buyer_id order) = Some b.
Hypothesis Hseller : find_user (db w) (Order.seller_id order) = Some s.

Let initiator : Role.t := role_of user order.
Let disputed : Order.t :=
  Order.set_status "DISPUTE" (Order.set_dispute initiator true order).
Let buyer' : User.t :=
  if User.disputes b + 1 >=? MAX_DISPUTES env
  then User.set_banned true (User.set_disputes (User.disputes b + 1) b)
  else User.set_disputes (User.disputes b + 1) b.
Let seller' : User.t :=
  if User.disputes s + 1 >=? MAX_DISPUTES env
  then User.set_banned true (User.set_disputes (User.disputes s + 1) s)
  else User.set_disputes (User.disputes s + 1) s.

Let upto_order : list Call.t :=
  front (Call.validateUser ctx false) ctx user orderId
    (Call.validateDisputeOrder user orderId)
  ++ [ Call.User_findOne (Order.buyer_id order);
       Call.User_findOne (Order.seller_id order);
       Call.Order_save disputed ].
Let calls : list Call.t :=
  upto_order
  ++ [ Call.User_save buyer';
       Call.User_save seller';
       Call.beginDisputeMessage buyer' seller' disputed initiator ].

Ltac dispute_cases :=
  destruct Hparams as (Hp & Hne%eqb_ne & Hv);
  subst calls upto_order seller' buyer' disputed initiator;
  unfold outcome, front, role_of;
  destruct order as [? ? ? ? ? buyer_id seller_id]; cbn in *;
  destruct (loose_eq (User._id user) buyer_id) eqn:E1;
  destruct (User.disputes b + 1 >=? MAX_DISPUTES env) eqn:E2;
  destruct (User.disputes s + 1 >=? MAX_DISPUTES env) eqn:E3;
  exec dispute; case_throws; same_world.

Lemma dispute_log :
  trace (run (dispute env ctx) w) = trace w ++ outcome env (trace w) calls.
Proof. dispute_cases. Qed.

Lemma dispute_db :
  db (run (dispute env ctx) w) =
  if resolves env (trace w) upto_order
  then
    if resolves env (trace w) (upto_order ++ [Call.User_save buyer'])
    then
      if resolves env (trace w)
           (upto_order ++ [Call.User_save buyer'; Call.User_save seller'])
      then store_user seller' (store_user buyer' (store_order disputed (db w)))
      else store_user buyer' (store_order disputed (db w))
    else store_order disputed (db w)
  else db w.
Proof. dispute_cases. Qed.

(** C4. Opening a dispute saves the order with status DISPUTE and with the
    dispute flag of the initiator set, the flag of the other party as it
    was.  The [disputes] counters of the buyer and of the seller are both
    one more than they were, whoever opened the dispute, and the [banned]
    flag of each is set exactly when their new counter has reached
    [MAX_DISPUTES] (a flag that was set stays set).  The two users are
    saved before the notification is sent. *)
Theorem dispute_opens :
  let w' := run (dispute env ctx) w in
  Order.status disputed = "DISPUTE"
  /\ Order.dispute initiator disputed = true
  /\ Order.dispute (other initiator) disputed
     = Order.dispute (other initiator) order
  /\ User.disputes buyer' = User.disputes b + 1
  /\ User.disputes seller' = User.disputes s + 1
  /\ User.banned buyer'
     = (User.banned b || (User.disputes b + 1 >=? MAX_DISPUTES env))
  /\ User.banned seller'
     = (User.banned s || (User.disputes s + 1 >=? MAX_DISPUTES env))
  /\ trace w' = trace w ++ outcome env (trace w) calls
  /\ db w' =
     (if resolves env (trace w) upto_order
      then
        if resolves env (trace w) (upto_order ++ [Call.User_save buyer'])
        then
          if resolves env (trace w)
               (upto_order ++ [Call.User_save buyer'; Call.User_save seller'])
          then
            store_user seller'
              (store_user buyer' (store_order disputed (db w)))
          else store_user buyer' (store_order disputed (db w))
        else store_order disputed (db w)
      else db w).
Proof.
  intros w'. subst w'.
  split; [subst disputed; destruct order, initiator; reflexivity|].
  split; [subst disputed; destruct order, initiator; reflexivity|].
  split; [subst disputed; destruct order, initiator; reflexivity|].
  split.
  { unfold buyer'.
    destruct (User.disputes b + 1 >=? MAX_DISPUTES env); reflexivity. }
  split.
  { unfold seller'.
    destruct (User.disputes s + 1 >=? MAX_DISPUTES env); reflexivity. }
  split.
  { unfold buyer'.
    destruct (User.disputes b + 1 >=? MAX_DISPUTES env); cbn;
      [apply eq_sym, orb_true_r | apply eq_sym, orb_false_r]. }
  split.
  { unfold seller'.
    destruct (User.disputes s + 1 >=? MAX_DISPUTES env); cbn;
      [apply eq_sym, orb_true_r | apply eq_sym, orb_false_r]. }
  split; [apply dispute_log | apply dispute_db].
Qed.
End Dispute.

(** Bob opens a dispute with one dispute on his record and a maximum of
    two: both counters go up, bob is banned, alice is not. *)
Lemma dispute_opens_witness :
  validateDisputeOrder_result Example.reliable
    (db (Example.world Example.active)) Example.bob "o1"
  = Some Example.active
  /\ MAX_DISPUTES Example.reliable = 2
  /\ User.disputes Example.bob = 1
  /\ User.disputes Example.alice = 0
  /\ db (run (dispute Example.reliable (Example.command "u_buyer"))
           (Example.world Example.active))
     = store_user (User.mk "u_seller" "alice" 1 false)
         (store_user (User.mk "u_buyer" "bob" 2 true)
            (store_order
               (Order.set_status "DISPUTE"
                  (Order.set_buyer_dispute true Example.active))
               (db (Example.world Example.active))))
  /\ saved_users
       (trace (run (dispute Example.reliable (Example.command "u_buyer"))
                 (Example.world Example.active)))
     = [User.mk "u_buyer" "bob" 2 true; User.mk "u_seller" "alice" 1 false].
Proof.
  assert (Hp : params_ok Example.reliable (Example.command "u_buyer")
                 Example.bob "o1")
    by (repeat split; discriminate).
  destruct (dispute_opens Example.reliable (Example.world Example.active)
              (Example.command "u_buyer") Example.bob "o1" Example.active
              Example.bob Example.alice
              eq_refl Hp eq_refl eq_refl eq_refl)
    as (_ & _ & _ & _ & _ & _ & _ & Hlog & Hdb).
  split; [reflexivity|].
  split; [reflexivity|].
  split; [reflexivity|].
  split; [reflexivity|].
  split; [exact Hdb|].
  rewrite Hlog. reflexivity.
Defined.

Lemma resolves_rejection env h cs :
  resolves env h cs =
  match rejection env h cs with
  | None => true
  | Some _ => false
  end.
Proof.
  revert h. induction cs as [|c cs IH]; intros h; cbn; [reflexivity|].
  destruct (throws env h c); [reflexivity|]. apply IH.
Qed.

(** ** [/takesell] *)

Section TakeSell.
Variable env : Env.
Variables (w : World) (ctx : Ctx) (user : User.t) (orderId lnInvoice : string)
  (order : Order.t).
Hypothesis Huser : validateUser_result env (db w) ctx false = Some user.
Hypothesis Htake :
  validateTakeSell_result env (db w) ctx user = Some (Some orderId, lnInvoice).
Hypothesis Hne : orderId <> "".
Hypothesis Hfound : orders (db w) !! orderId = Some order.
Hypothesis Hvalid :
  validateTakeSellOrder_result env (db w) user lnInvoice (Some order) = true.

Let amount : Z := Qfloor (Order.amount order + Order.fee order).
Let description : string := "Venta por @" +:+ botInfo_username ctx.
Let create : Call.t := Call.createHoldInvoice amount description.
Let invoice : HoldInvoice := createHoldInvoice_result env amount description.

(** The calls up to the creation of the hold invoice. *)
Let upto_create : list Call.t :=
  [ Call.validateUser ctx false;
    Call.validateTakeSell ctx user;
    Call.Order_findOne orderId;
    Call.validateTakeSellOrder user lnInvoice (Some order);
    Call.User_findOne (Order.creator_id order);
    create ].

(** The order as the handler saves it. *)
Let taken : Order.t :=
  Order.set_taken_at (Some (clock env (extend (trace w) upto_create)))
    (Order.set_secret (Some (hi_secret invoice))
       (Order.set_hash (Some (hi_hash invoice))
          (Order.set_buyer_invoice (Some lnInvoice)
             (Order.set_buyer_id (Some (User._id user))
                (Order.set_status "WAITING_PAYMENT" order))))).

Ltac takesell_cases :=
  apply eqb_ne in Hne;
  subst taken upto_create invoice create description amount;
  unfold extend;
  destruct order; cbn in *;
  exec takesell; case_throws; same_world.

Lemma takesell_db :
  db (run (takesell env ctx) w) =
  if resolves env (trace w) (upto_create ++ [Call.Order_save taken])
  then store_order taken (db w) else db w.
Proof. takesell_cases. Qed.

Lemma takesell_subscribe :
  subscribe_calls (since w (run (takesell env ctx) w)) =
  if resolves env (trace w) (upto_create ++ [Call.Order_save taken])
  then [hi_hash invoice] else [].
Proof. takesell_cases. Qed.

(** C6. The order is written by one [save], made after the hold invoice
    has been created: when the creation rejects, the documents are as they
    were (the stored order keeps its status and its buyer, and gets no
    hash, secret or [taken_at]) and no subscription is begun.  When the
    calls up to the [save] resolve, the stored order is in WAITING_PAYMENT
    with the taker as buyer and the hash and the secret of the invoice, and
    the subscription for that hash is begun. *)
Theorem takesell_advances_after_create :
  let w' := run (takesell env ctx) w in
  db w' =
    (if resolves env (trace w) (upto_create ++ [Call.Order_save taken])
     then store_order taken (db w) else db w)
  /\ subscribe_calls (since w w') =
    (if resolves env (trace w) (upto_create ++ [Call.Order_save taken])
     then [hi_hash invoice] else [])
  /\ (rejection env (trace w) upto_create = Some create ->
      db w' = db w /\ subscribe_calls (since w w') = [])
  /\ Order.status taken = "WAITING_PAYMENT"
  /\ Order.buyer_id taken = Some (User._id user)
  /\ Order.hash taken = Some (hi_hash invoice)
  /\ Order.secret taken = Some (hi_secret invoice)
  /\ Order.taken_at taken
     = Some (clock env (extend (trace w) upto_create)).
Proof.
  intros w'. subst w'.
  pose proof takesell_db as Hdb. pose proof takesell_subscribe as Hsub.
  split; [exact Hdb|].
  split; [exact Hsub|].
  split.
  { intros Hrej.
    assert (Hres : resolves env (trace w)
                     (upto_create ++ [Call.Order_save taken]) = false).
    { rewrite resolves_app, resolves_rejection, Hrej. reflexivity. }
    rewrite Hres in Hdb, Hsub. split; assumption. }
  subst taken. destruct order.
  repeat (split; [reflexivity|]). reflexivity.
Qed.
End TakeSell.

(** Bob takes the order while the node is down: nothing is stored, nothing
    is subscribed to. *)
Lemma takesell_advances_after_create_witness :
  Order.status <$>
    orders (db (run (takesell Example.node_down (Example.command "u_buyer"))
                  (Example.world Example.pending))) !! "o1"
  = Some "PENDING"
  /\ db (run (takesell Example.node_down (Example.command "u_buyer"))
           (Example.world Example.pending))
     = db (Example.world Example.pending)
  /\ subscribe_calls
       (since (Example.world Example.pending)
          (run (takesell Example.node_down (Example.command "u_buyer"))
             (Example.world Example.pending)))
     = [].
Proof.
  assert (Hne : "o1" <> "") by discriminate.
  destruct (takesell_advances_after_create Example.node_down
              (Example.world Example.pending) (Example.command "u_buyer")
              Example.bob "o1" "lnbc1buyer" Example.pending
              eq_refl eq_refl Hne eq_refl eq_refl)
    as (_ & _ & Hdown & _).
  destruct (Hdown eq_refl) as [Hdb Hsub].
  split; [rewrite Hdb; reflexivity|].
  split; [exact Hdb | exact Hsub].
Defined.

(** With a node that answers, the same command stores the order in
    WAITING_PAYMENT and subscribes to the hash of the invoice. *)
Example takesell_node_up :
  Order.status <$>
    orders (db (run (takesell Example.reliable (Example.command "u_buyer"))
                  (Example.world Example.pending))) !! "o1"
  = Some "WAITING_PAYMENT"
  /\ subscribe_calls
       (trace (run (takesell Example.reliable (Example.command "u_buyer"))
                 (Example.world Example.pending)))
     = ["h1"].
Proof. split; vm_compute; reflexivity. Qed.

Lemma found_find {A} (P : A -> bool) (l : list A) :
  found (List.find P l) = existsb P l.
Proof.
  induction l as [|a l IH]; cbn; [reflexivity|].
  destruct (P a); [reflexivity | exact IH].
Qed.

(** ** The earnings message *)

(** C8. While the community has a pending payment that is not paid and has
    attempts left, the reply says that an invoice is already being paid and
    carries no button.  Otherwise the reply shows the earnings, with the
    withdraw button exactly when the earnings are greater than 0.  The
    handler writes nothing. *)
Theorem earnings_offer_deduplicated env ctx w :
  let w' := run (earningsMessage env ctx) w in
  let communityId := match_1 ctx in
  let query :=
    Call.PendingPayment_findOne communityId (PAYMENT_ATTEMPTS env) in
  db w' = db w
  /\ replies (since w w') =
     if throws env (trace w) query then []
     else if existsb (unexhausted env communityId) (pendingpayments (db w))
     then [(Text.invoice_already_being_paid, None)]
     else if throws env (trace w ++ [Called query])
               (Call.Community_findById communityId)
     then []
     else
       match communities (db w) !! communityId with
       | Some community =>
           [ (Text.current_earnings (Community.orders_to_redeem community)
                (Community.earnings community),
              if Community.earnings community >? 0
              then Some [[ {| text := Text.withdraw_earnings;
                              callback_data :=
                                "withdrawEarnings_"
                                +:+ Community._id community |} ]]
              else None) ]
       | None => []
       end.
Proof.
  cbn zeta. unfold unexhausted.
  rewrite <- found_find.
  exec earningsMessage.
  destruct (throws env (trace w) _) eqn:E1; cbn; [same_world; auto|].
  destruct (List.find _ _) eqn:E2; cbn.
  { case_throws; same_world; auto. }
  destruct (throws env (trace w ++ _) _) eqn:E3; cbn; [same_world; auto|].
  destruct (communities (db w) !! match_1 ctx) as [c|] eqn:E4; cbn;
    [|same_world; auto].
  destruct (Community.earnings c >? 0) eqn:E5;
    case_throws; same_world; auto.
Qed.

(** ** [/ban] *)

(** C9. The handler writes nothing and saves no user, whoever sends the
    command and whatever the calls do.  When the admin and the parameter
    pass the validators and a user of that name is found, the read of
    [params] throws before the flag is assigned: the log ends with the
    query of the user and the ReferenceError printed by the [catch]. *)
Theorem ban_never_bans env ctx w :
  let w' := run (ban env ctx) w in
  (db w' = db w /\ saved_users (since w w') = [])
  /\ forall adminUser username user,
       validateAdmin_result env (db w) ctx = Some adminUser ->
       head (validateParams_result env ctx adminUser 2 "<username>")
       = Some username ->
       username <> "" ->
       List.find (fun u => String.eqb (User.username u) username)
         (map snd (map_to_list (users (db w))))
       = Some user ->
       let calls :=
         [ Call.validateAdmin ctx;
           Call.validateParams ctx adminUser 2 "<username>";
           Call.User_findOne_username username ] in
       trace w' =
       trace w ++ outcome env (trace w) calls
       ++ (if resolves env (trace w) calls
           then [Printed (ReferenceError "params")] else []).
Proof.
  cbn zeta. split.
  - exec ban.
    repeat
      (match goal with
       | |- context [throws ?e ?h ?c] =>
           let E := fresh "E" in destruct (throws e h c) eqn:E
       | |- context [or_return ?v _] =>
           let E := fresh "E" in destruct v eqn:E
       | |- context [or_return_falsy ?v _] =>
           let E := fresh "E" in destruct v eqn:E
       | |- context [String.eqb ?s ""] =>
           let E := fresh "E" in destruct (String.eqb s "") eqn:E
       | |- context [List.find ?P ?l] =>
           let E := fresh "E" in destruct (List.find P l) eqn:E
       end; cbn; use_facts);
      same_world; auto.
  - intros adminUser username user Hadmin Hparams Hne%eqb_ne Hfind.
    unfold outcome.
    exec ban; case_throws; same_world.
Qed.

(** The admin bans bob, who exists: bob is not banned, and the log ends
    with the ReferenceError. *)
Lemma ban_never_bans_witness :
  User.banned <$>
    users (db (run (ban Example.reliable Example.ban_bob)
                 (Example.world Example.active))) !! "u_buyer"
  = Some false
  /\ trace (run (ban Example.reliable Example.ban_bob)
              (Example.world Example.active))
     = [ Called (Call.validateAdmin Example.ban_bob);
         Called (Call.validateParams Example.ban_bob Example.root 2 "<username>");
         Called (Call.User_findOne_username "bob");
         Printed (ReferenceError "params") ].
Proof.
  destruct (ban_never_bans Example.reliable Example.ban_bob
              (Example.world Example.active))
    as [[Hdb _] Hlog].
  split; [rewrite Hdb; reflexivity|].
  apply (Hlog Example.root "bob" Example.bob); try reflexivity.
  discriminate.
Defined.

(** * The other handlers, and what the commands keep *)

(** Split on everything a run depends on: the outcome of the next call,
    what a validator returned, a test of the handler. *)
Ltac crunch :=
  repeat
    (match goal with
     | |- context [throws ?e ?h ?c] =>
         let E := fresh "E" in destruct (throws e h c) eqn:E
     | |- context [or_return ?v _] =>
         let E := fresh "E" in destruct v eqn:E
     | |- context [or_return_falsy ?v _] =>
         let E := fresh "E" in destruct v eqn:E
     | |- context [read _ ?v _] =>
         let E := fresh "E" in destruct v eqn:E
     | |- context [if ?b then _ else _] =>
         let E := fresh "E" in destruct b eqn:E
     | |- context [match ?p with (_, _) => _ end] => is_var p; destruct p
     end; cbn; use_facts).

(** ** What one command writes

    Whoever sends it, and whatever the validators return and the calls
    do, a command leaves the documents as they were or makes the writes
    of its summary. *)

Lemma order_kept_refl o : order_kept o o.
Proof. repeat split; auto. Qed.

Ltac kept :=
  match goal with
  | |- order_kept ?o _ => destruct o; cbn; repeat split; auto
  end.

Ltac written :=
  first
    [ left; reflexivity
    | right; eapply order_written;
      [ unfold fetched; eauto 6 | kept ] ].

Lemma cancel_writes (env : Rest.Env) ctx w :
  db (run (cancel (Rest.base env) ctx) w) = db w
  \/ order_write (fetched env (db w)) (db w)
       (db (run (cancel (Rest.base env) ctx) w)).
Proof. exec cancel. crunch; written. Qed.

Lemma cancelorder_writes (env : Rest.Env) ctx w :
  db (run (cancelorder (Rest.base env) ctx) w) = db w
  \/ order_write (fetched env (db w)) (db w)
       (db (run (cancelorder (Rest.base env) ctx) w)).
Proof. exec cancelorder. crunch; written. Qed.

Lemma settleorder_writes (env : Rest.Env) ctx w :
  db (run (settleorder (Rest.base env) ctx) w) = db w
  \/ order_write (fetched env (db w)) (db w)
       (db (run (settleorder (Rest.base env) ctx) w)).
Proof. exec settleorder. crunch; written. Qed.

Lemma cooperativecancel_writes (env : Rest.Env) ctx w :
  db (run (cooperativecancel (Rest.base env) ctx) w) = db w
  \/ order_write (fetched env (db w)) (db w)
       (db (run (cooperativecancel (Rest.base env) ctx) w)).
Proof. exec cooperativecancel. crunch; written. Qed.

Lemma ban_writes_nothing env ctx w : db (run (ban env ctx) w) = db w.
Proof.
  exec ban. crunch; try reflexivity.
  all: repeat (match goal with
               | |- context [match ?x with Some _ => _ | None => _ end] =>
                   destruct x eqn:?
               end; cbn; use_facts); crunch; reflexivity.
Qed.

Lemma takesell_writes (env : Rest.Env) ctx w :
  db (run (takesell (Rest.base env) ctx) w) = db w
  \/ take_write (db w) (db (run (takesell (Rest.base env) ctx) w)).
Proof.
  exec takesell. crunch; try (left; reflexivity).
  all: right; eapply taken_written; eassumption.
Qed.

Lemma user_kept_counted (max : Z) (u : User.t) :
  user_kept u
    (if User.disputes u + 1 >=? max
     then User.set_banned true (User.set_disputes (User.disputes u + 1) u)
     else User.set_disputes (User.disputes u + 1) u).
Proof.
  unfold user_kept.
  destruct (User.disputes u + 1 >=? max); destruct u;
    cbn [User.disputes User.set_disputes User.set_banned User._id
         User.username User.banned];
    (split; [reflexivity|]); (split; [reflexivity|]);
    (split; [lia|]); auto.
Qed.

Lemma dispute_writes (env : Rest.Env) ctx w :
  db (run (dispute (Rest.base env) ctx) w) = db w
  \/ dispute_write (fetched env (db w)) (db w)
       (db (run (dispute (Rest.base env) ctx) w)).
Proof.
  exec dispute.
  repeat
    (match goal with
     | |- context [throws ?e ?h ?c] =>
         let E := fresh "E" in destruct (throws e h c) eqn:E
     | |- context [or_return ?v _] =>
         let E := fresh "E" in destruct v eqn:E
     | |- context [or_return_falsy ?v _] =>
         let E := fresh "E" in destruct v eqn:E
     | |- context [read _ ?v _] =>
         let E := fresh "E" in destruct v eqn:E
     | |- context [String.eqb ?s ""] =>
         let E := fresh "E" in destruct (String.eqb s "") eqn:E
     | |- context [negb ?b] =>
         let E := fresh "E" in destruct b eqn:E
     | |- context [loose_eq ?a ?b] =>
         let E := fresh "E" in destruct (loose_eq a b) eqn:E
     end; cbn; use_facts);
    try (left; reflexivity); right.
  all: first
    [ eapply dispute_both;
      [ unfold fetched; eauto 6 | kept | eassumption
      | apply user_kept_counted | eassumption | apply user_kept_counted ]
    | eapply dispute_buyer;
      [ unfold fetched; eauto 6 | kept | eassumption
      | apply user_kept_counted ]
    | eapply dispute_order; [ unfold fetched; eauto 6 | kept ] ].
Qed.

(** The same tactics for the other handlers. *)
Ltac exec2 handler :=
  unfold Rest.run, Rest.result, handler, Rest.try_catch, Rest.bind, Rest.when,
    Rest.console_log, Rest.logger_error, Rest.ret, Rest.return_, Rest.throw;
  unfold Rest.validateUser, Rest.validateAdmin, Rest.validateParams,
    Rest.validateObjectId, Rest.getOrder, Rest.Order_findOne,
    Rest.User_findOne, Rest.Community_findById, Rest.Order_save,
    Rest.validateFiatSentOrder, Rest.validateInvoice, Rest.fiatSentMessages,
    Rest.addInvoiceMessage, Rest.genericErrorMessage, Rest.checkOrderMessage,
    Rest.ctx_deleteMessage, Rest.ctx_reply, Rest.await_value, Rest.await,
    Rest.write, Rest.bind, Rest.ret;
  cbn; use_facts.

Ltac crunch2 :=
  repeat
    (match goal with
     | |- context [Rest.throws ?e ?h ?c] =>
         let E := fresh "E" in destruct (Rest.throws e h c) eqn:E
     | |- context [Rest.or_return ?v _] =>
         let E := fresh "E" in destruct v eqn:E
     | |- context [Rest.or_return_falsy ?v _] =>
         let E := fresh "E" in destruct v eqn:E
     | |- context [Rest.read _ ?v _] =>
         let E := fresh "E" in destruct v eqn:E
     | |- context [if ?b then _ else _] =>
         let E := fresh "E" in destruct b eqn:E
     end; cbn; use_facts).

Lemma fiatsent_writes env ctx w :
  Rest.db (Rest.run (Rest.fiatsent env ctx) w) = Rest.db w
  \/ order_write (fetched env (Rest.db w)) (Rest.db w)
       (Rest.db (Rest.run (Rest.fiatsent env ctx) w)).
Proof. exec2 Rest.fiatsent. crunch2; written. Qed.

Lemma addinvoice_writes env ctx w :
  Rest.db (Rest.run (Rest.addinvoice env ctx) w) = Rest.db w
  \/ order_write (fetched env (Rest.db w)) (Rest.db w)
       (Rest.db (Rest.run (Rest.addinvoice env ctx) w)).
Proof. exec2 Rest.addinvoice. crunch2; written. Qed.

Lemma checkorder_writes_nothing env ctx w :
  Rest.db (Rest.run (Rest.checkorder env ctx) w) = Rest.db w.
Proof. exec2 Rest.checkorder. crunch2; reflexivity. Qed.

(** ** From one write to what is kept *)

Lemma well_keyed_store_order d o : well_keyed d -> well_keyed (store_order o d).
Proof.
  intros [Ho Hu]. split; [|exact Hu].
  intros id o' H. cbn in H.
  apply lookup_insert_Some in H as [[<- <-]|[_ H]]; [reflexivity | eauto].
Qed.

Lemma well_keyed_store_user d u : well_keyed d -> well_keyed (store_user u d).
Proof.
  intros [Ho Hu]. split; [exact Ho|].
  intros id u' H. cbn in H.
  apply lookup_insert_Some in H as [[<- <-]|[_ H]]; [reflexivity | eauto].
Qed.

Lemma order_kept_trans o1 o2 o3 :
  order_kept o1 o2 -> order_kept o2 o3 -> order_kept o1 o3.
Proof.
  unfold order_kept. intros H1 H2.
  destruct H1 as (?&?&?&?&?&?&?&?&?&?&?&?&?).
  destruct H2 as (?&?&?&?&?&?&?&?&?&?&?&?&?).
  repeat split; try congruence; auto.
Qed.

Lemma user_kept_refl u : user_kept u u.
Proof. unfold user_kept. repeat split; auto. lia. Qed.

Lemma user_kept_trans u1 u2 u3 :
  user_kept u1 u2 -> user_kept u2 u3 -> user_kept u1 u3.
Proof.
  unfold user_kept. intros (?&?&?&?) (?&?&?&?).
  split; [congruence|]. split; [congruence|]. split; [lia | auto].
Qed.

Lemma terms_kept_refl o : terms_kept o o.
Proof. repeat split. Qed.

Lemma terms_kept_trans o1 o2 o3 :
  terms_kept o1 o2 -> terms_kept o2 o3 -> terms_kept o1 o3.
Proof.
  unfold terms_kept. intros (?&?&?&?&?) (?&?&?&?&?).
  repeat split; congruence.
Qed.

Lemma order_kept_terms o o' : order_kept o o' -> terms_kept o o'.
Proof.
  unfold order_kept, terms_kept. intros (?&?&?&?&?&?&?). repeat split; auto.
Qed.

Lemma orders_kept_refl d : orders_kept d d.
Proof. intros id o H. exists o. split; [exact H | apply order_kept_refl]. Qed.

Lemma orders_kept_trans d1 d2 d3 :
  orders_kept d1 d2 -> orders_kept d2 d3 -> orders_kept d1 d3.
Proof.
  intros H1 H2 id o H.
  destruct (H1 id o H) as (o2 & Ho2 & K1).
  destruct (H2 id o2 Ho2) as (o3 & Ho3 & K2).
  exists o3. split; [exact Ho3 | eapply order_kept_trans; eassumption].
Qed.

Lemma users_kept_refl d : users_kept d d.
Proof. intros id u H. exists u. split; [exact H | apply user_kept_refl]. Qed.

Lemma users_kept_eq d d' : users d' = users d -> users_kept d d'.
Proof.
  intros E id u H. exists u. rewrite E.
  split; [exact H | apply user_kept_refl].
Qed.

Lemma users_kept_trans d1 d2 d3 :
  users_kept d1 d2 -> users_kept d2 d3 -> users_kept d1 d3.
Proof.
  intros H1 H2 id u H.
  destruct (H1 id u H) as (u2 & Hu2 & K1).
  destruct (H2 id u2 Hu2) as (u3 & Hu3 & K2).
  exists u3. split; [exact Hu3 | eapply user_kept_trans; eassumption].
Qed.

Lemma all_terms_kept_refl d : all_terms_kept d d.
Proof. intros id o H. exists o. split; [exact H | apply terms_kept_refl]. Qed.

Lemma all_terms_kept_trans d1 d2 d3 :
  all_terms_kept d1 d2 -> all_terms_kept d2 d3 -> all_terms_kept d1 d3.
Proof.
  intros H1 H2 id o H.
  destruct (H1 id o H) as (o2 & Ho2 & K1).
  destruct (H2 id o2 Ho2) as (o3 & Ho3 & K2).
  exists o3. split; [exact Ho3 | eapply terms_kept_trans; eassumption].
Qed.

Lemma orders_kept_all_terms d d' : orders_kept d d' -> all_terms_kept d d'.
Proof.
  intros H id o Ho. destruct (H id o Ho) as (o' & Ho' & K).
  exists o'. split; [exact Ho' | apply order_kept_terms, K].
Qed.

(** Saving an order that keeps what the stored order of its identifier
    has keeps every order. *)
Lemma orders_kept_store d id o o' :
  well_keyed d ->
  orders d !! id = Some o ->
  order_kept o o' ->
  orders_kept d (store_order o' d).
Proof.
  intros [Hk _] Ho K id1 o1 H1. cbn.
  destruct (decide (Order._id o' = id1)) as [<-|Hne].
  - exists o'. split; [apply lookup_insert_eq|].
    assert (Order._id o' = id) as Hid.
    { destruct K as [-> _]. apply (Hk _ _ Ho). }
    rewrite Hid in H1. rewrite Ho in H1. injection H1 as <-. exact K.
  - exists o1. split; [|apply order_kept_refl].
    rewrite lookup_insert_ne by exact Hne. exact H1.
Qed.

Lemma all_terms_kept_store d id o o' :
  well_keyed d ->
  orders d !! id = Some o ->
  terms_kept o o' ->
  all_terms_kept d (store_order o' d).
Proof.
  intros [Hk _] Ho K id1 o1 H1. cbn.
  destruct (decide (Order._id o' = id1)) as [<-|Hne].
  - exists o'. split; [apply lookup_insert_eq|].
    assert (Order._id o' = id) as Hid.
    { destruct K as [-> _]. apply (Hk _ _ Ho). }
    rewrite Hid in H1. rewrite Ho in H1. injection H1 as <-. exact K.
  - exists o1. split; [|apply terms_kept_refl].
    rewrite lookup_insert_ne by exact Hne. exact H1.
Qed.

(** Saving a user that keeps what the stored user of its identifier has
    keeps every user. *)
Lemma users_kept_store d id u u' :
  well_keyed d ->
  users d !! id = Some u ->
  user_kept u u' ->
  users_kept d (store_user u' d).
Proof.
  intros [_ Hk] Hu K id1 u1 H1. cbn.
  destruct (decide (User._id u' = id1)) as [<-|Hne].
  - exists u'. split; [apply lookup_insert_eq|].
    assert (User._id u' = id) as Hid.
    { destruct K as [-> _]. apply (Hk _ _ Hu). }
    rewrite Hid in H1. rewrite Hu in H1. injection H1 as <-. exact K.
  - exists u1. split; [|apply user_kept_refl].
    rewrite lookup_insert_ne by exact Hne. exact H1.
Qed.

(** ** What one command keeps *)

Lemma find_user_Some d id u :
  find_user d id = Some u -> exists i, id = Some i /\ users d !! i = Some u.
Proof. destruct id as [i|]; [eauto | discriminate]. Qed.

Lemma order_write_keeps fetch d d' :
  order_write fetch d d' ->
  users d' = users d
  /\ (well_keyed d -> well_keyed d')
  /\ ((forall id o, fetch id o -> orders d !! id = Some o) ->
      well_keyed d -> orders_kept d d').
Proof.
  intros [id o o' Hf K]. split; [reflexivity|].
  split; [apply well_keyed_store_order|].
  intros Hst Hk. eapply orders_kept_store; eauto.
Qed.

Lemma take_write_keeps d d' :
  take_write d d' ->
  users d' = users d
  /\ (well_keyed d -> well_keyed d')
  /\ (well_keyed d -> all_terms_kept d d').
Proof.
  intros [id o buyer ln h s now Ho]. split; [reflexivity|].
  split; [apply well_keyed_store_order|].
  intros Hk. eapply all_terms_kept_store; eauto.
  destruct o; repeat split.
Qed.

Lemma dispute_write_keeps fetch d d' :
  dispute_write fetch d d' ->
  well_keyed d ->
  well_keyed d'
  /\ users_kept d d'
  /\ ((forall id o, fetch id o -> orders d !! id = Some o) ->
      orders_kept d d').
Proof.
  intros Hw Hk. destruct Hw as
    [ id o o' Hf K
    | id o o' b b' Hf K Hb Kb
    | id o o' b b' s s' Hf K Hb Kb Hs Ks ].
  - split; [apply well_keyed_store_order, Hk|].
    split; [apply users_kept_eq; reflexivity|].
    intros Hst. eapply orders_kept_store; eauto.
  - split; [apply well_keyed_store_user, well_keyed_store_order, Hk|].
    apply find_user_Some in Hb as (bid & _ & Hb).
    split.
    + eapply users_kept_trans;
        [apply (users_kept_eq d (store_order o' d)); reflexivity|].
      eapply users_kept_store;
        [apply well_keyed_store_order, Hk | exact Hb | exact Kb].
    + intros Hst id1 o1 H1.
      destruct (orders_kept_store d id o o' Hk (Hst _ _ Hf) K id1 o1 H1)
        as (o2 & H2 & K2).
      exists o2. split; [exact H2 | exact K2].
  - split.
    { apply well_keyed_store_user, well_keyed_store_user,
        well_keyed_store_order, Hk. }
    apply find_user_Some in Hb as (bid & _ & Hb).
    apply find_user_Some in Hs as (sid & _ & Hs).
    destruct Hk as [Hko Hku].
    assert (User._id b' = bid) as Hbid
      by (destruct Kb as [-> _]; apply (Hku _ _ Hb)).
    assert (User._id s' = sid) as Hsid
      by (destruct Ks as [-> _]; apply (Hku _ _ Hs)).
    split.
    + intros id1 u1 H1. cbn.
      destruct (decide (sid = id1)) as [<-|Hne1].
      * exists s'. rewrite Hsid, lookup_insert_eq. split; [reflexivity|].
        rewrite Hs in H1. injection H1 as <-. exact Ks.
      * rewrite Hsid, lookup_insert_ne by exact Hne1.
        destruct (decide (bid = id1)) as [<-|Hne2].
        -- exists b'. rewrite Hbid, lookup_insert_eq. split; [reflexivity|].
           rewrite Hb in H1. injection H1 as <-. exact Kb.
        -- exists u1. rewrite Hbid, lookup_insert_ne by exact Hne2.
           split; [exact H1 | apply user_kept_refl].
    + intros Hst id1 o1 H1.
      destruct (orders_kept_store d id o o' (conj Hko Hku) (Hst _ _ Hf) K
                  id1 o1 H1) as (o2 & H2 & K2).
      exists o2. split; [exact H2 | exact K2].
Qed.

(** What one command keeps. *)
Lemma effect_keeps env c d d' :
  effect env c d d' ->
  well_keyed d ->
  well_keyed d'
  /\ users_kept d d'
  /\ (c <> Dispute -> users d' = users d)
  /\ (returns_stored env -> all_terms_kept d d')
  /\ (returns_stored env -> c <> Takesell -> orders_kept d d').
Proof.
  intros He Hk.
  assert (Hsame : d' = d ->
            well_keyed d'
            /\ users_kept d d'
            /\ (c <> Dispute -> users d' = users d)
            /\ (returns_stored env -> all_terms_kept d d')
            /\ (returns_stored env -> c <> Takesell -> orders_kept d d')).
  { intros ->. split; [exact Hk|].
    split; [apply users_kept_refl|]. split; [reflexivity|].
    split; intros; [apply all_terms_kept_refl | apply orders_kept_refl]. }
  assert (Horder : order_write (fetched env d) d d' ->
            well_keyed d'
            /\ users_kept d d'
            /\ (c <> Dispute -> users d' = users d)
            /\ (returns_stored env -> all_terms_kept d d')
            /\ (returns_stored env -> c <> Takesell -> orders_kept d d')).
  { intros Hw. destruct (order_write_keeps _ _ _ Hw) as (Hu & Hwk & Ho).
    split; [auto|]. split; [apply users_kept_eq, Hu|]. split; [auto|].
    split; intros Hst; [apply orders_kept_all_terms|intros _];
      apply Ho; auto; intros id o; apply Hst. }
  destruct c; cbn in He; destruct He as (ctx & w & <- & <-).
  - (* takesell *)
    destruct (takesell_writes env ctx w) as [E|Hw];
      [apply Hsame, E|].
    destruct (take_write_keeps _ _ Hw) as (Hu & Hwk & Ht).
    split; [auto|]. split; [apply users_kept_eq, Hu|]. split; [auto|].
    split; [auto|]. intros _ Hne. congruence.
  - apply Hsame, release_db.
  - (* dispute *)
    destruct (dispute_writes env ctx w) as [E|Hw];
      [apply Hsame, E|].
    destruct (dispute_write_keeps _ _ _ Hw Hk) as (Hwk & Hu & Ho).
    split; [auto|]. split; [auto|]. split; [congruence|].
    split; intros Hst; [apply orders_kept_all_terms|intros _];
      apply Ho; intros id o; apply Hst.
  - destruct (cancel_writes env ctx w) as [E|Hw];
      [apply Hsame, E | auto].
  - destruct (cancelorder_writes env ctx w) as [E|Hw];
      [apply Hsame, E | auto].
  - destruct (settleorder_writes env ctx w) as [E|Hw];
      [apply Hsame, E | auto].
  - destruct (cooperativecancel_writes env ctx w) as [E|Hw];
      [apply Hsame, E | auto].
  - apply Hsame, ban_writes_nothing.
  - destruct (fiatsent_writes env ctx w) as [E|Hw];
      [apply Hsame, E | auto].
  - destruct (addinvoice_writes env ctx w) as [E|Hw];
      [apply Hsame, E | auto].
  - apply Hsame, checkorder_writes_nothing.
Qed.

Lemma effect_users env c d d' :
  effect env c d d' -> c <> Dispute -> users d' = users d.
Proof.
  intros He Hne.
  destruct c; cbn in He; destruct He as (ctx & w & <- & <-);
    try congruence.
  - destruct (takesell_writes env ctx w) as [->|Hw]; [reflexivity|].
    apply (take_write_keeps _ _ Hw).
  - rewrite release_db. reflexivity.
  - destruct (cancel_writes env ctx w) as [->|Hw]; [reflexivity|].
    apply (order_write_keeps _ _ _ Hw).
  - destruct (cancelorder_writes env ctx w) as [->|Hw]; [reflexivity|].
    apply (order_write_keeps _ _ _ Hw).
  - destruct (settleorder_writes env ctx w) as [->|Hw]; [reflexivity|].
    apply (order_write_keeps _ _ _ Hw).
  - destruct (cooperativecancel_writes env ctx w) as [->|Hw]; [reflexivity|].
    apply (order_write_keeps _ _ _ Hw).
  - rewrite ban_writes_nothing. reflexivity.
  - destruct (fiatsent_writes env ctx w) as [->|Hw]; [reflexivity|].
    apply (order_write_keeps _ _ _ Hw).
  - destruct (addinvoice_writes env ctx w) as [->|Hw]; [reflexivity|].
    apply (order_write_keeps _ _ _ Hw).
  - rewrite checkorder_writes_nothing. reflexivity.
Qed.

(** ** What a history of commands keeps *)

(** X1. Whatever commands are sent, in whatever order, and whatever calls
    reject: every user that was stored is still stored, under the same
    name, with a [disputes] counter that is at least what it was and a
    [banned] flag that is still set if it was set. *)
Theorem users_never_lose env cs d d' :
  history env cs d d' ->
  well_keyed d ->
  well_keyed d' /\ users_kept d d'.
Proof.
  induction 1 as [d|c cs d d1 d2 He Hh IH]; intros Hk.
  - split; [exact Hk | apply users_kept_refl].
  - destruct (effect_keeps _ _ _ _ He Hk) as (Hk1 & Hu1 & _).
    destruct (IH Hk1) as (Hk2 & Hu2).
    split; [exact Hk2 | eapply users_kept_trans; eassumption].
Qed.

(** X2. The users are written by [/dispute] only: a history without a
    dispute leaves the users as they were.  In particular [/ban] bans
    nobody and no command lifts a ban. *)
Theorem only_dispute_writes_users env cs d d' :
  history env cs d d' ->
  Dispute ∉ cs ->
  users d' = users d.
Proof.
  induction 1 as [d|c cs d d1 d2 He Hh IH]; intros Hnot; [reflexivity|].
  apply not_elem_of_cons in Hnot as [Hne Hnot].
  rewrite (IH Hnot). apply (effect_users _ _ _ _ He). congruence.
Qed.

(** X3. When the functions that fetch an order return the stored one, no
    history of commands deletes an order or changes its identifier, its
    amount, its fee, its creator or its seller; and a history without
    [/takesell] keeps its buyer, its hash, its secret and [taken_at] as
    well, and never resets a dispute or cooperative-cancel flag: the hash
    and the secret stay on the order through every terminal state. *)
Theorem orders_never_lose env cs d d' :
  history env cs d d' ->
  returns_stored env ->
  well_keyed d ->
  all_terms_kept d d' /\ (Takesell ∉ cs -> orders_kept d d').
Proof.
  intros Hh Hst. induction Hh as [d|c cs d d1 d2 He Hh IH]; intros Hk.
  - split; [apply all_terms_kept_refl | intros _; apply orders_kept_refl].
  - destruct (effect_keeps _ _ _ _ He Hk) as (Hk1 & _ & _ & Ht1 & Ho1).
    destruct (IH Hk1) as (Ht2 & Ho2).
    split; [eapply all_terms_kept_trans; eauto|].
    intros Hnot. apply not_elem_of_cons in Hnot as [Hne Hnot].
    eapply orders_kept_trans; [apply Ho1; auto; congruence | auto].
Qed.

(** The documents of the example deployments are stored under their
    identifiers, and their validators return stored orders. *)
Lemma example_well_keyed (o : Order.t) : well_keyed (db (Example.world o)).
Proof.
  split; cbn.
  - intros id o' H.
    apply lookup_insert_Some in H as [[<- <-]|[_ H]]; [reflexivity|].
    rewrite lookup_empty in H. discriminate.
  - intros id u H. unfold Example.people in H.
    repeat (apply lookup_insert_Some in H as [[<- <-]|[_ H]];
            [reflexivity|]).
    rewrite lookup_empty in H. discriminate.
Qed.

Lemma example_returns_stored rejects :
  returns_stored (RestExample.env rejects).
Proof.
  intros d id o [H|[[u H]|[[u H]|[[u H]|[u H]]]]]; cbn in H;
    try exact H;
    destruct (orders d !! id) as [o1|]; try discriminate;
    match type of H with
    | (if ?b then _ else _) = _ => destruct b; congruence
    end.
Qed.

(** Two commands sent one after the other, as a history. *)
Lemma history_dispute_cancelorder :
  history RestExample.reliable [Dispute; Cancelorder]
    (db (Example.world Example.active))
    (db (replay
           [ dispute Example.reliable (Example.command "u_buyer");
             cancelorder Example.reliable (Example.command "u_admin") ]
           (Example.world Example.active))).
Proof.
  eapply history_cons.
  - exists (Example.command "u_buyer"), (Example.world Example.active).
    split; reflexivity.
  - eapply history_cons; [|apply history_nil].
    exists (Example.command "u_admin"),
      (run (dispute Example.reliable (Example.command "u_buyer"))
         (Example.world Example.active)).
    split; reflexivity.
Qed.

Lemma history_cancel_settleorder :
  history RestExample.reliable [Cancel; Settleorder]
    (db (Example.world Example.active))
    (db (replay
           [ cancel Example.reliable (Example.command "u_seller");
             settleorder Example.reliable (Example.command "u_admin") ]
           (Example.world Example.active))).
Proof.
  eapply history_cons.
  - exists (Example.command "u_seller"), (Example.world Example.active).
    split; reflexivity.
  - eapply history_cons; [|apply history_nil].
    exists (Example.command "u_admin"),
      (run (cancel Example.reliable (Example.command "u_seller"))
         (Example.world Example.active)).
    split; reflexivity.
Qed.

(** Bob, with one dispute already, opens a dispute and the admin cancels
    the order: bob is stored banned, and nobody is lost. *)
Lemma users_never_lose_witness :
  users_kept (db (Example.world Example.active))
    (db (replay
           [ dispute Example.reliable (Example.command "u_buyer");
             cancelorder Example.reliable (Example.command "u_admin") ]
           (Example.world Example.active))).
Proof.
  apply (users_never_lose RestExample.reliable [Dispute; Cancelorder]).
  - exact history_dispute_cancelorder.
  - apply example_well_keyed.
Defined.

(** The owner's cancel (refused on the ACTIVE order) and the admin's
    settle leave the three users as they were. *)
Lemma only_dispute_writes_users_witness :
  users
    (db (replay
           [ cancel Example.reliable (Example.command "u_seller");
             settleorder Example.reliable (Example.command "u_admin") ]
           (Example.world Example.active)))
  = users (db (Example.world Example.active)).
Proof.
  apply (only_dispute_writes_users RestExample.reliable [Cancel; Settleorder]).
  - exact history_cancel_settleorder.
  - intros H. repeat (apply elem_of_cons in H as [H|H]; [discriminate|]).
    apply elem_of_nil in H. exact H.
Defined.

(** After the same two commands the order is COMPLETED_BY_ADMIN and still
    carries its hash and its secret. *)
Lemma orders_never_lose_witness :
  orders_kept (db (Example.world Example.active))
    (db (replay
           [ cancel Example.reliable (Example.command "u_seller");
             settleorder Example.reliable (Example.command "u_admin") ]
           (Example.world Example.active))).
Proof.
  apply (orders_never_lose RestExample.reliable [Cancel; Settleorder]).
  - exact history_cancel_settleorder.
  - apply example_returns_stored.
  - apply example_well_keyed.
  - intros H. repeat (apply elem_of_cons in H as [H|H]; [discriminate|]).
    apply elem_of_nil in H. exact H.
Defined.

Lemma rest_since_app (w : Rest.World) (d : DB) docs (l : list Rest.Event) :
  Rest.since w
    {| Rest.db := d; Rest.docs := docs; Rest.trace := Rest.trace w ++ l |}
  = l.
Proof. unfold Rest.since. cbn. apply drop_app_length. Qed.

Lemma rest_since_nil (w : Rest.World) (d : DB) docs :
  Rest.since w {| Rest.db := d; Rest.docs := docs; Rest.trace := Rest.trace w |}
  = [].
Proof. unfold Rest.since. cbn. apply drop_all. Qed.

Arguments Rest.since : simpl never.

Ltac case_throws2 :=
  repeat
    (match goal with
     | |- context [Rest.throws ?e ?h ?c] =>
         let E := fresh "E" in
         destruct (Rest.throws e h c) eqn:E; cbn; use_facts
     end).

Ltac same_world2 :=
  unfold Rest.log; cbn; rewrite <- ?app_assoc; cbn;
  rewrite ?rest_since_app, ?rest_since_nil; cbn; try reflexivity.

(** ** [/fiatsent] *)

Section Fiatsent.
Variable env : Rest.Env.
Variables (w : Rest.World) (ctx : Ctx) (user : User.t) (orderId : string)
  (order : Order.t).
Hypothesis Huser :
  validateUser_result (Rest.base env) (Rest.db w) ctx false = Some user.
Hypothesis Hparams : params_ok (Rest.base env) ctx user orderId.
Hypothesis Horder :
  Rest.validateFiatSentOrder_result env (Rest.db w) user orderId = Some order.

Let sent : Order.t := Order.set_status "FIAT_SENT" order.
Let seller : option User.t := find_user (Rest.db w) (Order.seller_id order).
Let upto_save : list Rest.Call.t :=
  [ Rest.Call.core (Call.validateUser ctx false);
    Rest.Call.core (Call.validateParams ctx user 2 "<order_id>");
    Rest.Call.core (Call.validateObjectId user orderId);
    Rest.Call.validateFiatSentOrder user orderId;
    Rest.Call.core (Call.User_findOne (Order.seller_id order));
    Rest.Call.core (Call.Order_save sent) ].
Let calls : list Rest.Call.t :=
  upto_save ++ [Rest.Call.fiatSentMessages user seller].

(** X5. [/fiatsent] changes the status of the order the validator
    returned and nothing else of it; the order is saved before the two
    parties are told, so it is FIAT_SENT also when the messages reject;
    and no function of the escrow is called. *)
Theorem fiatsent_marks_before_telling :
  let w' := Rest.run (Rest.fiatsent env ctx) w in
  Rest.db w' =
    (if Rest.resolves env (Rest.trace w) upto_save
     then store_order sent (Rest.db w) else Rest.db w)
  /\ Rest.trace w' = Rest.trace w ++ Rest.outcome env (Rest.trace w) calls
  /\ Rest.escrow_calls (Rest.since w w') = []
  /\ Order.status sent = "FIAT_SENT"
  /\ order_kept order sent
  /\ Order.buyer_invoice sent = Order.buyer_invoice order.
Proof.
  destruct Hparams as (Hp & Hne%eqb_ne & Hv).
  subst calls upto_save seller sent. unfold Rest.outcome.
  destruct order; cbn in *.
  repeat split; auto;
    exec2 Rest.fiatsent; case_throws2; same_world2.
Qed.
End Fiatsent.

(** Bob tells that he has sent the fiat: the order is stored FIAT_SENT,
    with the hash and the secret it had. *)
Lemma fiatsent_marks_before_telling_witness :
  Rest.validateFiatSentOrder_result RestExample.reliable
    (Rest.db (RestExample.world Example.active)) Example.bob "o1"
  = Some Example.active
  /\ Rest.db (Rest.run (Rest.fiatsent RestExample.reliable
                          (Example.command "u_buyer"))
                (RestExample.world Example.active))
     = store_order Example.fiat_sent
         (Rest.db (RestExample.world Example.active)).
Proof.
  assert (Hp : params_ok (Rest.base RestExample.reliable)
                 (Example.command "u_buyer") Example.bob "o1")
    by (repeat split; discriminate).
  destruct (fiatsent_marks_before_telling RestExample.reliable
              (RestExample.world Example.active) (Example.command "u_buyer")
              Example.bob "o1" Example.active eq_refl Hp eq_refl)
    as (Hdb & _).
  split; [reflexivity | exact Hdb].
Defined.

(** ** [/addinvoice] *)

Section Addinvoice.
Variable env : Rest.Env.
Variables (w : Rest.World) (ctx : Ctx) (user : User.t) (orderId : string)
  (order : Order.t).
Let params : list string :=
  validateParams_result (Rest.base env) ctx user 3
    "<order_id> <lightning_invoice>".
Let lnInvoice : option string := params !! 1%nat.
Hypothesis Huser :
  validateUser_result (Rest.base env) (Rest.db w) ctx false = Some user.
Hypothesis Hparams : head params = Some orderId.
Hypothesis Hne : orderId <> "".
Hypothesis Hid : validateObjectId_result (Rest.base env) user orderId = true.
Hypothesis Hinvoice : Rest.validateInvoice_result env user lnInvoice = true.
Hypothesis Hfound : orders (Rest.db w) !! orderId = Some order.

Let updated : Order.t := Order.set_buyer_invoice lnInvoice order.
Let upto_save : list Rest.Call.t :=
  [ Rest.Call.core (Call.validateUser ctx false);
    Rest.Call.core
      (Call.validateParams ctx user 3 "<order_id> <lightning_invoice>");
    Rest.Call.core (Call.validateObjectId user orderId);
    Rest.Call.validateInvoice user lnInvoice;
    Rest.Call.core (Call.Order_findOne orderId);
    Rest.Call.core (Call.Order_save updated) ].
Let calls : list Rest.Call.t :=
  upto_save ++ [Rest.Call.addInvoiceMessage user updated].

(** The calls of the [catch]. *)
Let recover (d : DB) : list Rest.Call.t :=
  [ Rest.Call.core (Call.validateUser ctx false);
    Rest.Call.genericErrorMessage
      (validateUser_result (Rest.base env) d ctx false) ].

Ltac addinvoice_cases :=
  apply eqb_ne in Hne;
  subst calls recover upto_save updated lnInvoice params;
  unfold Rest.outcome;
  destruct order; cbn in *;
  exec2 Rest.addinvoice;
  repeat
    (unfold Rest.log; cbn; rewrite <- ?app_assoc; cbn;
     match goal with
     | |- context [Rest.throws ?e ?h ?c] =>
         let E := fresh "E" in
         destruct (Rest.throws e h c) eqn:E; cbn; use_facts
     end);
  same_world2.

Lemma addinvoice_db :
  Rest.db (Rest.run (Rest.addinvoice env ctx) w) =
  if Rest.resolves env (Rest.trace w) upto_save
  then store_order updated (Rest.db w) else Rest.db w.
Proof. addinvoice_cases. Qed.

(** X6. [/addinvoice] fetches the order by its identifier alone: whoever
    the sender is and whatever the status of the order, the stored order
    gets the invoice of the command as [buyer_invoice], and keeps its
    status, its parties, its hash and its secret. *)
Theorem addinvoice_overwrites_invoice :
  let w' := Rest.run (Rest.addinvoice env ctx) w in
  Rest.db w' =
    (if Rest.resolves env (Rest.trace w) upto_save
     then store_order updated (Rest.db w) else Rest.db w)
  /\ Rest.escrow_calls (Rest.since w w') = []
  /\ Order.buyer_invoice updated = lnInvoice
  /\ Order.status updated = Order.status order
  /\ order_kept order updated.
Proof.
  cbn zeta. split; [apply addinvoice_db|].
  split; [addinvoice_cases|].
  subst updated. destruct order; cbn. repeat split; auto.
Qed.

(** X7. The [catch] of [/addinvoice] awaits two calls of its own, so the
    promise of the handler is rejected when one of them rejects: after a
    call of the body has rejected and the error is printed, the user is
    validated again and sent the generic error; the rejection of either
    leaves the handler.  The order stays saved when it is the message of
    success that rejected. *)
Theorem addinvoice_catch_rejects :
  let w' := Rest.run (Rest.addinvoice env ctx) w in
  let h := Rest.trace w ++ Rest.outcome env (Rest.trace w) calls in
  match Rest.rejection env (Rest.trace w) calls with
  | None =>
      Rest.trace w' = h
      /\ Rest.result (Rest.addinvoice env ctx) w = Rest.Normal tt
  | Some _ =>
      Rest.trace w'
      = h ++ map Rest.Called (Rest.attempted env h (recover (Rest.db w')))
      /\ Rest.result (Rest.addinvoice env ctx) w
         = match Rest.rejection env h (recover (Rest.db w')) with
           | Some c => Rest.Thrown (Rest.Rejected c)
           | None => Rest.Normal tt
           end
  end.
Proof.
  cbn zeta. addinvoice_cases; split; reflexivity.
Qed.
End Addinvoice.

(** Alice, the seller, sends an invoice for the order once it is
    cancelled: it replaces the invoice of the buyer. *)
Lemma addinvoice_overwrites_invoice_witness :
  validateUser_result (Rest.base RestExample.reliable)
    (Rest.db (RestExample.world Example.canceled))
    (Example.command "u_seller") false
  = Some Example.alice
  /\ Order.buyer_invoice Example.canceled = Some "lnbc1buyer"
  /\ Rest.db (Rest.run (Rest.addinvoice RestExample.reliable
                          (Example.command "u_seller"))
                (RestExample.world Example.canceled))
     = store_order
         (Order.set_buyer_invoice (Some "lnbc1new") Example.canceled)
         (Rest.db (RestExample.world Example.canceled)).
Proof.
  assert (Hne : "o1" <> "") by discriminate.
  destruct (addinvoice_overwrites_invoice RestExample.reliable
              (RestExample.world Example.canceled)
              (Example.command "u_seller") Example.alice "o1"
              Example.canceled eq_refl eq_refl Hne eq_refl eq_refl eq_refl)
    as (Hdb & _).
  split; [reflexivity|].
  split; [reflexivity|].
  exact Hdb.
Defined.

(** Telegram is unreachable when bob sends his invoice: the order is
    saved, the message of success rejects, and so does the generic error
    of the [catch], which leaves the handler. *)
Lemma addinvoice_catch_rejects_witness :
  Rest.result (Rest.addinvoice RestExample.muted (Example.command "u_buyer"))
    (RestExample.world Example.active)
  = Rest.Thrown
      (Rest.Rejected (Rest.Call.genericErrorMessage (Some Example.bob)))
  /\ Rest.throws RestExample.muted []
       (Rest.Call.genericErrorMessage (Some Example.bob)) = true.
Proof.
  assert (Hne : "o1" <> "") by discriminate.
  pose proof (addinvoice_catch_rejects RestExample.muted
                (RestExample.world Example.active)
                (Example.command "u_buyer") Example.bob "o1"
                Example.active eq_refl eq_refl Hne eq_refl eq_refl eq_refl)
    as H.
  cbn in H. destruct H as [_ H].
  split; [exact H | reflexivity].
Defined.

(** ** [/checkorder] *)

Section Checkorder.
Variable env : Rest.Env.
Variables (w : Rest.World) (ctx : Ctx) (user : User.t) (orderId : string)
  (order : Order.t).
Hypothesis Hadmin :
  validateAdmin_result (Rest.base env) (Rest.db w) ctx = Some user.
Hypothesis Hparams : params_ok (Rest.base env) ctx user orderId.
Hypothesis Horder :
  getOrder_result (Rest.base env) (Rest.db w) user orderId = Some order.

(** The calls up to the third query. *)
Let lookups : list Rest.Call.t :=
  map Rest.Call.core
    (front (Call.validateAdmin ctx) ctx user orderId
       (Call.getOrder user orderId)
     ++ [ Call.User_findOne (Order.seller_id order);
          Call.User_findOne (Order.buyer_id order);
          Call.User_findOne (Order.seller_id order) ]).

Ltac checkorder_cases :=
  destruct Hparams as (Hp & Hne%eqb_ne & Hv);
  subst lookups;
  unfold Rest.outcome, front, find_user in *;
  destruct order; cbn in *;
  exec2 Rest.checkorder; unfold find_user; cbn; use_facts;
  case_throws2; same_world2.

(** X8. The summary the admin gets names the seller of the order as its
    creator, whoever created it: the first query is by [seller_id], and
    [creator_id] is not read. *)
Theorem checkorder_names_seller_as_creator (b s : User.t) :
  find_user (Rest.db w) (Order.buyer_id order) = Some b ->
  find_user (Rest.db w) (Order.seller_id order) = Some s ->
  let w' := Rest.run (Rest.checkorder env ctx) w in
  Rest.trace w' =
    Rest.trace w
    ++ Rest.outcome env (Rest.trace w)
         (lookups
          ++ [Rest.Call.checkOrderMessage ctx order (User.username s)
                (User.username b) (User.username s)])
  /\ Rest.db w' = Rest.db w.
Proof.
  intros Hb Hs. cbn zeta. split; [|apply checkorder_writes_nothing].
  checkorder_cases.
Qed.

(** X9. When the buyer or the seller of the order has no user document
    (an order nobody has taken has no buyer), the admin gets no summary:
    after the three queries the read of [username] throws, and the [catch]
    prints the error. *)
Theorem checkorder_needs_both_parties :
  find_user (Rest.db w) (Order.buyer_id order) = None
  \/ find_user (Rest.db w) (Order.seller_id order) = None ->
  let w' := Rest.run (Rest.checkorder env ctx) w in
  Rest.trace w' =
    Rest.trace w
    ++ map Rest.Called (Rest.attempted env (Rest.trace w) lookups)
    ++ [Rest.Printed
          match Rest.rejection env (Rest.trace w) lookups with
          | Some c => Rest.Rejected c
          | None => Rest.TypeError "username"
          end]
  /\ Rest.db w' = Rest.db w.
Proof.
  intros Hmiss. cbn zeta. split; [|apply checkorder_writes_nothing].
  destruct (find_user (Rest.db w) (Order.seller_id order)) as [s|] eqn:Hs;
    destruct (find_user (Rest.db w) (Order.buyer_id order)) as [b|] eqn:Hb;
    [destruct Hmiss; discriminate| | |];
    clear Hmiss; checkorder_cases.
Qed.
End Checkorder.

(** The admin checks a buy order that bob created and alice took: alice,
    the seller, is shown as its creator. *)
Lemma checkorder_names_seller_as_creator_witness :
  Order.creator_id RestExample.bought = Some (User._id Example.bob)
  /\ Rest.trace (Rest.run (Rest.checkorder RestExample.reliable
                             (Example.command "u_admin"))
                   (RestExample.world RestExample.bought))
     = map Rest.Called
         (map Rest.Call.core
            [ Call.validateAdmin (Example.command "u_admin");
              Call.validateParams (Example.command "u_admin") Example.root 2
                "<order_id>";
              Call.validateObjectId Example.root "o1";
              Call.getOrder Example.root "o1";
              Call.User_findOne (Some "u_seller");
              Call.User_findOne (Some "u_buyer");
              Call.User_findOne (Some "u_seller") ]
          ++ [ Rest.Call.checkOrderMessage (Example.command "u_admin")
                 RestExample.bought "alice" "bob" "alice" ]).
Proof.
  assert (Hp : params_ok (Rest.base RestExample.reliable)
                 (Example.command "u_admin") Example.root "o1")
    by (repeat split; discriminate).
  destruct (checkorder_names_seller_as_creator RestExample.reliable
              (RestExample.world RestExample.bought)
              (Example.command "u_admin") Example.root "o1"
              RestExample.bought eq_refl Hp eq_refl Example.bob Example.alice
              eq_refl eq_refl)
    as (Hlog & _).
  split; [reflexivity | exact Hlog].
Defined.

(** The admin checks the order nobody has taken: no summary is sent. *)
Lemma checkorder_needs_both_parties_witness :
  Order.buyer_id Example.pending = None
  /\ Rest.trace (Rest.run (Rest.checkorder RestExample.reliable
                             (Example.command "u_admin"))
                   (RestExample.world Example.pending))
     = map Rest.Called
         (map Rest.Call.core
            [ Call.validateAdmin (Example.command "u_admin");
              Call.validateParams (Example.command "u_admin") Example.root 2
                "<order_id>";
              Call.validateObjectId Example.root "o1";
              Call.getOrder Example.root "o1";
              Call.User_findOne (Some "u_seller");
              Call.User_findOne None;
              Call.User_findOne (Some "u_seller") ])
       ++ [Rest.Printed (Rest.TypeError "username")].
Proof.
  assert (Hp : params_ok (Rest.base RestExample.reliable)
                 (Example.command "u_admin") Example.root "o1")
    by (repeat split; discriminate).
  destruct (checkorder_needs_both_parties RestExample.reliable
              (RestExample.world Example.pending)
              (Example.command "u_admin") Example.root "o1"
              Example.pending eq_refl Hp eq_refl (or_introl eq_refl))
    as (Hlog & _).
  split; [reflexivity | exact Hlog].
Defined.

(** ** The keyboard of [showUserCommunitiesMessage] *)

Lemma button_rows_spec (communities : list Rest.CommunityDoc.t)
    (buttons : list (list Rest.Button)) :
  exists rows,
    Rest.button_rows communities buttons = ([], buttons ++ rows)
    /\ concat (reverse rows)
       = map (fun c =>
                {| Rest.text := Rest.CommunityDoc.name c;
                   Rest.callback_data :=
                     "updateCommunity_" +:+ Rest.CommunityDoc._id c |})
           communities
    /\ length rows = Nat.div2 (S (length communities))
    /\ forall (i : nat) r,
         rows !! i = Some r ->
         length r = (2 `min` (length communities - 2 * i))%nat.
Proof.
  remember (length communities) as n eqn:Hn.
  revert communities buttons Hn.
  induction n as [n IH] using lt_wf_ind. intros communities buttons Hn.
  destruct communities as [|c cs].
  - exists []. subst n. rewrite app_nil_r.
    split; [now simp button_rows|].
    split; [reflexivity|]. split; [reflexivity|].
    intros i r H. destruct i; discriminate.
  - simp button_rows. cbn zeta.
    set (l := c :: cs) in *.
    assert (Hpos : (1 <= n)%nat) by (subst n l; cbn; lia).
    unfold Rest.splice_last_two at 1 2. cbn [fst snd].
    rewrite <- Hn.
    destruct (IH (n - 2)%nat ltac:(lia) (take (n - 2) l)
                (buttons ++
                 [map (fun c0 =>
                         {| Rest.text := Rest.CommunityDoc.name c0;
                            Rest.callback_data :=
                              "updateCommunity_"
                              +:+ Rest.CommunityDoc._id c0 |})
                    (drop (n - 2) l)]))
      as (rows & Heq & Hcat & Hlen & Hrow).
    { rewrite length_take. lia. }
    eexists (_ :: rows).
    split.
    { rewrite Heq, <- app_assoc. reflexivity. }
    split.
    { rewrite reverse_cons, concat_app, Hcat. cbn [concat].
      rewrite app_nil_r, <- map_app, take_drop. reflexivity. }
    split.
    { cbn [length]. rewrite Hlen.
      destruct n as [|[|n']]; [lia | reflexivity |].
      replace (S (S n') - 2)%nat with n' by lia. reflexivity. }
    intros [|i] r H.
    + injection H as <-. rewrite length_map, length_drop. lia.
    + cbn in H. rewrite (Hrow i r H). lia.
Qed.

(** X10. The keyboard of the communities of a user: the loop takes the
    communities two by two from the end of the array, so the rows read
    backwards give every community once, in the order of the array; there
    are [ceil(n / 2)] rows of two buttons, but for the last one, which
    holds the first community alone when their number is odd; the array
    of the caller is left empty; and the keyboard is sent in one reply,
    whatever the calls do. *)
Theorem communities_keyboard (env : Rest.Env) (ctx : Ctx)
    (communities : list Rest.CommunityDoc.t) (w : Rest.World) :
  let rows := snd (Rest.button_rows communities []) in
  let w' := Rest.run (Rest.showUserCommunitiesMessage env ctx communities) w in
  fst (Rest.button_rows communities []) = []
  /\ concat (reverse rows)
     = map (fun c =>
              {| Rest.text := Rest.CommunityDoc.name c;
                 Rest.callback_data :=
                   "updateCommunity_" +:+ Rest.CommunityDoc._id c |})
         communities
  /\ length rows = Nat.div2 (S (length communities))
  /\ (forall (i : nat) r,
        rows !! i = Some r ->
        length r = (2 `min` (length communities - 2 * i))%nat)
  /\ Rest.replies (Rest.since w w')
     = [(Rest.i18n_t env "select_community" [], Some rows)]
  /\ Rest.db w' = Rest.db w.
Proof.
  cbn zeta.
  destruct (button_rows_spec communities [])
    as (rows & Heq & Hcat & Hlen & Hrow).
  rewrite Heq. cbn [fst snd app].
  repeat (split; [assumption || reflexivity|]).
  split; exec2 Rest.showUserCommunitiesMessage; unfold Rest.t;
    rewrite Heq; case_throws2; same_world2.
Qed.

(** Three communities: the last two share the first row, the first one
    is alone in the second. *)
Example communities_keyboard_of_three :
  map (map Rest.text)
    (snd (Rest.button_rows
            [ Rest.CommunityDoc.mk "c1" "Satoshis" true;
              Rest.CommunityDoc.mk "c2" "Plebs" true;
              Rest.CommunityDoc.mk "c3" "Hodlers" false ] []))
  = [["Plebs"; "Hodlers"]; ["Satoshis"]].
Proof. reflexivity. Qed.

(** ** [wizardCommunityWrongPermission] *)

(** X11. Whatever the response of Telegram and whatever the reply does,
    the wizard answers once, without a keyboard: with the message of the
    first of the five phrases, in the order of the tests, that occurs in
    the response, and with the generic error when none does. *)
Theorem wrong_permission_answers_once (env : Rest.Env) (ctx : Ctx)
    (channel response : string) (w : Rest.World) :
  let w' :=
    Rest.run (Rest.wizardCommunityWrongPermission env ctx channel response) w
  in
  let table :=
    [ ("bot was kicked from the supergroup chat",
       Rest.i18n_t env "bot_kicked" []);
      ("chat not found", Rest.i18n_t env "chat_not_found" []);
      ("not a member of this chat", Rest.i18n_t env "not_member" []);
      ("group chat was upgraded to a supergroup",
       Rest.i18n_t env "upgraded_to_supergroup" []);
      ("is not an admin",
       Rest.i18n_t env "wizard_community_you_are_not_admin"
         [("channel", channel)]) ] in
  Rest.replies (Rest.since w w')
  = [ (default (Rest.i18n_t env "generic_error" [])
         (snd <$> List.find (fun row => Rest.includes (fst row) response)
                    table),
       None) ]
  /\ Rest.db w' = Rest.db w.
Proof.
  cbn zeta. cbn [List.find fst snd].
  split; exec2 Rest.wizardCommunityWrongPermission; unfold Rest.t;
    repeat
      (match goal with
       | |- context [Rest.includes ?p response] =>
           let E := fresh "E" in
           destruct (Rest.includes p response) eqn:E; cbn
       end);
    exec2 Rest.wizardCommunityWrongPermission;
    case_throws2; same_world2.
Qed.

(** ** The menus of a community *)

(** X12. [updateCommunityMessage] deletes the message of the menu before
    it looks the community up: for a community that is not found, the
    menu is deleted and nothing is sent in its place; the read of the
    name throws, and the error goes to the logger. *)
Theorem community_menu_lost_when_missing (env : Rest.Env) (ctx : Ctx)
    (w : Rest.World) :
  Rest.docs w !! match_1 ctx = None ->
  let w' := Rest.run (Rest.updateCommunityMessage env ctx) w in
  let calls :=
    [ Rest.Call.ctx_deleteMessage;
      Rest.Call.core (Call.Community_findById (match_1 ctx)) ] in
  Rest.trace w' =
    Rest.trace w
    ++ map Rest.Called (Rest.attempted env (Rest.trace w) calls)
    ++ [Rest.Logged
          match Rest.rejection env (Rest.trace w) calls with
          | Some c => Rest.Rejected c
          | None => Rest.TypeError "name"
          end]
  /\ Rest.replies (Rest.since w w') = [].
Proof.
  intros Hnone. cbn zeta.
  split; exec2 Rest.updateCommunityMessage; case_throws2; same_world2.
Qed.

Lemma community_menu_lost_when_missing_witness :
  Rest.trace (Rest.run (Rest.updateCommunityMessage RestExample.reliable
                          (RestExample.callback "c9"))
                (RestExample.world Example.active))
  = [ Rest.Called Rest.Call.ctx_deleteMessage;
      Rest.Called (Rest.Call.core (Call.Community_findById "c9"));
      Rest.Logged (Rest.TypeError "name") ].
Proof.
  apply (community_menu_lost_when_missing RestExample.reliable
           (RestExample.callback "c9") (RestExample.world Example.active)).
  reflexivity.
Defined.

(** X13. Both menus delete the message they replace first: when the
    deletion rejects (the message is gone already, or too old), neither
    [updateCommunityMessage] nor [sureMessage] sends its keyboard. *)
Theorem menus_need_the_deletion (env : Rest.Env) (ctx : Ctx)
    (w : Rest.World) :
  Rest.throws env (Rest.trace w) Rest.Call.ctx_deleteMessage = true ->
  let failed :=
    [ Rest.Called Rest.Call.ctx_deleteMessage;
      Rest.Logged (Rest.Rejected Rest.Call.ctx_deleteMessage) ] in
  Rest.since w (Rest.run (Rest.updateCommunityMessage env ctx) w) = failed
  /\ Rest.since w (Rest.run (Rest.sureMessage env ctx) w) = failed.
Proof.
  intros Hthrows. cbn zeta.
  split;
    [exec2 Rest.updateCommunityMessage | exec2 Rest.sureMessage];
    same_world2.
Qed.

Lemma menus_need_the_deletion_witness :
  Rest.replies
    (Rest.since (RestExample.world Example.active)
       (Rest.run (Rest.sureMessage RestExample.menu_gone
                    (RestExample.callback "c1"))
          (RestExample.world Example.active)))
  = [].
Proof.
  destruct (menus_need_the_deletion RestExample.menu_gone
              (RestExample.callback "c1") (RestExample.world Example.active)
              eq_refl)
    as [_ H].
  rewrite H. reflexivity.
Defined.

(** X14. The callback data of the buttons the two menus send are
    pairwise distinct, whatever the identifiers of the two communities:
    no button of the menu of one community can be taken for another
    button of a menu, nor for the confirmation of a deletion. *)
Theorem menu_buttons_are_distinct (env : Rest.Env) (ctx1 ctx2 : Ctx)
    (w1 w2 : Rest.World) text1 text2 keyboard1 keyboard2 :
  Rest.replies
    (Rest.since w1 (Rest.run (Rest.updateCommunityMessage env ctx1) w1))
  = [(text1, Some keyboard1)] ->
  Rest.replies (Rest.since w2 (Rest.run (Rest.sureMessage env ctx2) w2))
  = [(text2, Some keyboard2)] ->
  NoDup (map Rest.callback_data (concat keyboard1 ++ concat keyboard2))
  /\ length (concat keyboard1) = 10%nat
  /\ length (concat keyboard2) = 2%nat.
Proof.
  intros H1 H2.
  assert (Hk1 : keyboard1 =
    [ [ {| Rest.text := "✏️ " +:+ Rest.t env "name";
           Rest.callback_data := "editNameBtn_" +:+ match_1 ctx1 |};
        {| Rest.text := "✏️ " +:+ Rest.t env "currencies";
           Rest.callback_data := "editCurrenciesBtn_" +:+ match_1 ctx1 |} ];
      [ {| Rest.text := "✏️ " +:+ Rest.t env "group";
           Rest.callback_data := "editGroupBtn_" +:+ match_1 ctx1 |};
        {| Rest.text := "✏️ " +:+ Rest.t env "channels";
           Rest.callback_data := "editChannelsBtn_" +:+ match_1 ctx1 |} ];
      [ {| Rest.text := "✏️ " +:+ Rest.t env "fee";
           Rest.callback_data := "editFeeBtn_" +:+ match_1 ctx1 |};
        {| Rest.text := "✏️ " +:+ Rest.t env "dispute_solvers";
           Rest.callback_data := "editSolversBtn_" +:+ match_1 ctx1 |} ];
      [ {| Rest.text := "✏️ " +:+ Rest.t env "dispute_channel";
           Rest.callback_data :=
             "editDisputeChannelBtn_" +:+ match_1 ctx1 |};
        {| Rest.text := "💰 " +:+ Rest.t env "earnings";
           Rest.callback_data := "earningsBtn_" +:+ match_1 ctx1 |} ];
      [ {| Rest.text :=
             match Rest.docs w1 !! match_1 ctx1 with
             | Some c =>
                 if Rest.CommunityDoc.public c
                 then "🕵️ " +:+ Rest.t env "make_private"
                 else "📢 " +:+ Rest.t env "make_public"
             | None => ""
             end;
           Rest.callback_data :=
             "changeVisibilityBtn_" +:+ match_1 ctx1 |};
        {| Rest.text := "☠️ " +:+ Rest.t env "delete_community";
           Rest.callback_data :=
             "deleteCommunityAskBtn_" +:+ match_1 ctx1 |} ] ]).
  { revert H1. clear H2.
    exec2 Rest.updateCommunityMessage.
    destruct (Rest.throws env (Rest.trace w1) Rest.Call.ctx_deleteMessage);
      cbn; [same_world2; discriminate|].
    destruct (Rest.throws env _ (Rest.Call.core _));
      cbn; [same_world2; discriminate|].
    destruct (Rest.docs w1 !! match_1 ctx1) as [c|];
      cbn; [|same_world2; discriminate].
    case_throws2; same_world2; intros [= _ <-]; reflexivity. }
  assert (Hk2 : keyboard2 =
    [ [ {| Rest.text := "🔴 " +:+ Rest.t env "no";
           Rest.callback_data := "doNothingBtn" |};
        {| Rest.text := "🟢 " +:+ Rest.t env "yes";
           Rest.callback_data :=
             "deleteCommunityBtn_" +:+ match_1 ctx2 |} ] ]).
  { revert H2. clear H1 Hk1.
    exec2 Rest.sureMessage.
    destruct (Rest.throws env (Rest.trace w2) Rest.Call.ctx_deleteMessage);
      cbn; [same_world2; discriminate|].
    case_throws2; same_world2; intros [= _ <-]; reflexivity. }
  subst keyboard1 keyboard2. clear H1 H2.
  split; [|split; reflexivity].
  cbn.
  repeat (apply NoDup_cons; split;
          [ rewrite ?elem_of_cons, elem_of_nil;
            intros H; decompose [or] H;
            solve [contradiction | discriminate] |]).
  apply NoDup_nil_2.
Qed.

Lemma menu_buttons_are_distinct_witness :
  exists keyboard1 keyboard2,
    Rest.replies
      (Rest.trace (Rest.run (Rest.updateCommunityMessage RestExample.reliable
                               (RestExample.callback "c1"))
                     (RestExample.world Example.active)))
    = [("community: Satoshis" +:+ Rest.newline +:+ "what_to_do",
        Some keyboard1)]
    /\ NoDup (map Rest.callback_data (concat keyboard1 ++ concat keyboard2)).
Proof.
  eexists _, _. split; [reflexivity|].
  eapply (menu_buttons_are_distinct RestExample.reliable
            (RestExample.callback "c1") (RestExample.callback "c1")
            (RestExample.world Example.active)
            (RestExample.world Example.active));
    reflexivity.
Defined.

(** ** [/dispute] on an order whose party has no user document *)

Section DisputeOrphan.
Variable env : Env.
Variables (w : World) (ctx : Ctx) (user : User.t) (orderId : string)
  (order : Order.t).
Hypothesis Huser : validateUser_result env (db w) ctx false = Some user.
Hypothesis Hparams : params_ok env ctx user orderId.
Hypothesis Horder :
  validateDisputeOrder_result env (db w) user orderId = Some order.
Hypothesis Hmissing :
  find_user (db w) (Order.buyer_id order) = None
  \/ find_user (db w) (Order.seller_id order) = None.

Let disputed : Order.t :=
  Order.set_status "DISPUTE"
    (Order.set_dispute (role_of user order) true order).
Let upto_order : list Call.t :=
  front (Call.validateUser ctx false) ctx user orderId
    (Call.validateDisputeOrder user orderId)
  ++ [ Call.User_findOne (Order.buyer_id order);
       Call.User_findOne (Order.seller_id order);
       Call.Order_save disputed ].

(** X15. The order is saved before the counters of the two users are
    read: when the buyer or the seller has no user document, the order is
    stored in DISPUTE all the same, the read of [disputes] throws, no user
    is saved and no message about the dispute is sent. *)
Theorem dispute_without_party_record :
  let w' := run (dispute env ctx) w in
  db w' =
    (if resolves env (trace w) upto_order
     then store_order disputed (db w) else db w)
  /\ trace w' =
     trace w
     ++ map Called (attempted env (trace w) upto_order)
     ++ [Printed
           match rejection env (trace w) upto_order with
           | Some c => Rejected c
           | None => TypeError "disputes"
           end]
  /\ saved_users (since w w') = []
  /\ Order.status disputed = "DISPUTE".
Proof.
  cbn zeta.
  destruct Hparams as (Hp & Hne%eqb_ne & Hv).
  subst upto_order disputed. unfold front, role_of.
  assert (Hs : Order.status
                 (Order.set_status "DISPUTE"
                    (Order.set_dispute (role_of user order) true order))
               = "DISPUTE")
    by (destruct (role_of user order), order; reflexivity).
  destruct (find_user (db w) (Order.seller_id order)) as [s|] eqn:Hse;
    destruct (find_user (db w) (Order.buyer_id order)) as [b|] eqn:Hbu;
    [destruct Hmissing; discriminate| | |];
    clear Hmissing;
    (repeat split; [| | |exact Hs]); clear Hs;
    destruct order as [? ? ? ? ? buyer_id seller_id]; cbn in *;
    destruct (loose_eq (User._id user) buyer_id) eqn:E1;
    exec dispute; case_throws; same_world.
Qed.
End DisputeOrphan.

(** Alice opens a dispute on an order whose buyer has no user document:
    the order is stored in DISPUTE and her counter stays at 0. *)
Lemma dispute_without_party_record_witness :
  find_user (db (Example.world RestExample.orphan))
    (Order.buyer_id RestExample.orphan) = None
  /\ db (run (dispute Example.reliable (Example.command "u_seller"))
           (Example.world RestExample.orphan))
     = store_order
         (Order.set_status "DISPUTE"
            (Order.set_seller_dispute true RestExample.orphan))
         (db (Example.world RestExample.orphan))
  /\ saved_users
       (since (Example.world RestExample.orphan)
          (run (dispute Example.reliable (Example.command "u_seller"))
             (Example.world RestExample.orphan)))
     = [].
Proof.
  assert (Hp : params_ok Example.reliable (Example.command "u_seller")
                 Example.alice "o1")
    by (repeat split; discriminate).
  destruct (dispute_without_party_record Example.reliable
              (Example.world RestExample.orphan)
              (Example.command "u_seller") Example.alice "o1"
              RestExample.orphan eq_refl Hp eq_refl (or_introl eq_refl))
    as (Hdb & _ & Hsaved & _).
  split; [reflexivity|].
  split; [exact Hdb | exact Hsaved].
Defined.

(** ** [/takesell] *)

Section TakeSellMissing.
Variable env : Env.
Variables (w : World) (ctx : Ctx) (user : User.t) (orderId lnInvoice : string).
Hypothesis Huser : validateUser_result env (db w) ctx false = Some user.
Hypothesis Htake :
  validateTakeSell_result env (db w) ctx user = Some (Some orderId, lnInvoice).
Hypothesis Hne : orderId <> "".
Hypothesis Hfound : orders (db w) !! orderId = None.

Let calls : list Call.t :=
  [ Call.validateUser ctx false;
    Call.validateTakeSell ctx user;
    Call.Order_findOne orderId;
    Call.validateTakeSellOrder user lnInvoice None ].

(** X16. For an identifier no order is stored under, [/takesell] writes
    nothing and calls no function of the escrow.  The validator of the
    order is given [null]; when it lets it through, the assignment of the
    status throws, and the taker is sent the message of invalid data. *)
Theorem takesell_missing_order :
  let w' := run (takesell env ctx) w in
  db w' = db w
  /\ ln_calls (since w w') = []
  /\ (resolves env (trace w) calls = true ->
      let h := trace w ++ map Called calls in
      trace w' =
        h ++ (if validateTakeSellOrder_result env (db w) user lnInvoice None
              then Printed (TypeError "status")
                   :: outcome env (h ++ [Printed (TypeError "status")])
                        [Call.invalidDataMessage user]
              else [])).
Proof.
  cbn zeta. apply eqb_ne in Hne. subst calls. unfold outcome.
  repeat split.
  - exec takesell; case_throws;
      try destruct
        (validateTakeSellOrder_result env (db w) user lnInvoice None);
      cbn; case_throws; same_world.
  - exec takesell; case_throws;
      try destruct
        (validateTakeSellOrder_result env (db w) user lnInvoice None);
      cbn; case_throws; same_world.
  - intros Hres. split_resolves Hres.
    exec takesell;
      destruct (validateTakeSellOrder_result env (db w) user lnInvoice None);
      cbn;
      repeat
        (unfold log; cbn; rewrite <- ?app_assoc; cbn;
         match goal with
         | |- context [throws ?e ?h ?c] =>
             let E := fresh "E" in
             destruct (throws e h c) eqn:E; cbn; use_facts
         end);
      same_world.
Qed.
End TakeSellMissing.

(** Bob takes an order that does not exist: nothing is written and the
    escrow is not called. *)
Lemma takesell_missing_order_witness :
  let ctx :=
    {| message_text := "o9"; message_from := "u_buyer";
       botInfo_username := "p2pbot"; match_1 := "" |} in
  db (run (takesell Example.reliable ctx) (Example.world Example.pending))
  = db (Example.world Example.pending)
  /\ ln_calls
       (since (Example.world Example.pending)
          (run (takesell Example.reliable ctx)
             (Example.world Example.pending)))
     = [].
Proof.
  cbn zeta.
  assert (Hne : "o9" <> "") by discriminate.
  destruct (takesell_missing_order Example.reliable
              (Example.world Example.pending)
              {| message_text := "o9"; message_from := "u_buyer";
                 botInfo_username := "p2pbot"; match_1 := "" |}
              Example.bob "o9" "lnbc1buyer" eq_refl eq_refl Hne eq_refl)
    as (Hdb & Hln & _).
  split; [exact Hdb | exact Hln].
Defined.

Section TakeSellFailure.
Variable env : Env.
Variables (w : World) (ctx : Ctx) (user : User.t) (orderId lnInvoice : string)
  (order : Order.t).
Hypothesis Huser : validateUser_result env (db w) ctx false = Some user.
Hypothesis Htake :
  validateTakeSell_result env (db w) ctx user = Some (Some orderId, lnInvoice).
Hypothesis Hne : orderId <> "".
Hypothesis Hfound : orders (db w) !! orderId = Some order.
Hypothesis Hvalid :
  validateTakeSellOrder_result env (db w) user lnInvoice (Some order) = true.

Let amount : Z := Qfloor (Order.amount order + Order.fee order).
Let description : string := "Venta por @" +:+ botInfo_username ctx.
Let invoice : HoldInvoice := createHoldInvoice_result env amount description.
Let seller : option User.t := find_user (db w) (Order.creator_id order).

(** The calls before the inner [try]. *)
Let outer : list Call.t :=
  [ Call.validateUser ctx false; Call.validateTakeSell ctx user ].
Hypothesis Houter : resolves env (trace w) outer = true.

Let upto_create : list Call.t :=
  [ Call.Order_findOne orderId;
    Call.validateTakeSellOrder user lnInvoice (Some order);
    Call.User_findOne (Order.creator_id order);
    Call.createHoldInvoice amount description ].
Let taken : Order.t :=
  Order.set_taken_at
    (Some (clock env (extend (trace w) (outer ++ upto_create))))
    (Order.set_secret (Some (hi_secret invoice))
       (Order.set_hash (Some (hi_hash invoice))
          (Order.set_buyer_invoice (Some lnInvoice)
             (Order.set_buyer_id (Some (User._id user))
                (Order.set_status "WAITING_PAYMENT" order))))).

(** The calls of the inner [try]. *)
Let inner : list Call.t :=
  upto_create
  ++ [ Call.Order_save taken;
       Call.subscribeInvoice (hi_hash invoice);
       Call.invoicePaymentRequestMessage seller (hi_request invoice);
       Call.takeSellWaitingSellerToPayMessage user taken ].

(** X17. Whichever call of the inner [try] rejects (the query of the
    order, the creation of the hold invoice, the save, the subscription,
    one of the two messages), the error is printed and the taker is sent
    the message of invalid data: also when the order is saved already. *)
Theorem takesell_failure_is_reported :
  let w' := run (takesell env ctx) w in
  let h := extend (trace w) outer in
  let made := h ++ map Called (attempted env h inner) in
  trace w' =
    made
    ++ match rejection env h inner with
       | Some c =>
           Printed (Rejected c)
           :: outcome env (made ++ [Printed (Rejected c)])
                [Call.invalidDataMessage user]
       | None => []
       end.
Proof.
  cbn zeta.
  apply eqb_ne in Hne. split_resolves Houter.
  subst inner taken upto_create outer seller invoice description amount.
  unfold outcome, extend.
  destruct order; cbn in *.
  exec takesell;
    repeat
      (unfold log; cbn; rewrite <- ?app_assoc; cbn;
       match goal with
       | |- context [throws ?e ?h ?c] =>
           let E := fresh "E" in
           destruct (throws e h c) eqn:E; cbn; use_facts
       end);
    same_world.
Qed.
End TakeSellFailure.

(** Bob takes alice's order while the node is down: he is told that the
    data are invalid, and alice is told nothing. *)
Lemma takesell_failure_is_reported_witness :
  trace (run (takesell Example.node_down (Example.command "u_buyer"))
           (Example.world Example.pending))
  = [ Called (Call.validateUser (Example.command "u_buyer") false);
      Called (Call.validateTakeSell (Example.command "u_buyer") Example.bob);
      Called (Call.Order_findOne "o1");
      Called (Call.validateTakeSellOrder Example.bob "lnbc1buyer"
                (Some Example.pending));
      Called (Call.User_findOne (Some "u_seller"));
      Called (Call.createHoldInvoice 100100 "Venta por @p2pbot");
      Printed (Rejected (Call.createHoldInvoice 100100 "Venta por @p2pbot"));
      Called (Call.invalidDataMessage Example.bob) ].
Proof.
  assert (Hne : "o1" <> "") by discriminate.
  exact (takesell_failure_is_reported Example.node_down
              (Example.world Example.pending) (Example.command "u_buyer")
              Example.bob "o1" "lnbc1buyer" Example.pending
              eq_refl eq_refl Hne eq_refl eq_refl eq_refl).
Defined.

(** ** A cooperative cancellation asked twice by the same party *)

Section Repeated.
Variable env : Env.
Variables (w : World) (ctx1 ctx2 : Ctx) (user : User.t) (orderId : string)
  (order : Order.t).
Hypothesis Hid : Order._id order = orderId.
Hypothesis Hactive : Order.status order = "ACTIVE".
Hypothesis Hbuyer : Order.buyer_cooperativecancel order = false.
Hypothesis Hseller : Order.seller_cooperativecancel order = false.
Hypothesis Huser1 : validateUser_result env (db w) ctx1 false = Some user.
Hypothesis Hparams1 : params_ok env ctx1 user orderId.
Hypothesis Hget1 : getOrder_result env (db w) user orderId = Some order.

Let first : Role.t := role_of user order.
Let requested : Order.t := Order.set_cooperativecancel first true order.
Let calls1 : list Call.t :=
  front (Call.validateUser ctx1 false) ctx1 user orderId
    (Call.getOrder user orderId)
  ++ [ Call.User_findOne (party_id (other first) order);
       Call.customMessage (Some user) (Text.cancel_initiated orderId);
       Call.customMessage (find_user (db w) (party_id (other first) order))
         (Text.counterparty_wants_cancel orderId);
       Call.customMessage (find_user (db w) (party_id (other first) order))
         (Text.cooperativecancel_command orderId);
       Call.Order_save requested ].
Hypothesis Hcalls1 : resolves env (trace w) calls1 = true.

Let w1 : World := run (cooperativecancel env ctx1) w.

(** The same user asks again. *)
Hypothesis Huser2 : validateUser_result env (db w1) ctx2 false = Some user.
Hypothesis Hparams2 : params_ok env ctx2 user orderId.
Hypothesis Hget2 :
  getOrder_result env (db w1) user orderId = orders (db w1) !! orderId.

Let w2 : World := run (cooperativecancel env ctx2) w1.

(** X18. A party that asks twice for the cooperative cancellation does
    not cancel the order alone: the second request changes no document,
    cancels no hold invoice, and is answered that the cancellation has
    been requested already; the order stays ACTIVE with the one flag. *)
Theorem cooperative_cancel_repeated :
  db w2 = db w1
  /\ orders (db w2) !! orderId = Some requested
  /\ Order.status requested = "ACTIVE"
  /\ Order.cooperativecancel (other first) requested = false
  /\ cancel_calls (since w w2) = []
  /\ trace w2 =
     trace w1
     ++ outcome env (trace w1)
          (front (Call.validateUser ctx2 false) ctx2 user orderId
             (Call.getOrder user orderId)
           ++ [ Call.User_findOne (party_id (other first) order);
                Call.customMessage (Some user) Text.already_requested ]).
Proof.
  pose proof (first_request_run env w ctx1 user orderId order Hid Hactive
                Hbuyer Hseller Huser1 Hparams1 Hget1 Hcalls1) as H1.
  fold first requested calls1 w1 in H1.
  assert (Hk : Order._id requested = orderId)
    by (subst requested; destruct order, first; exact Hid).
  assert (Hstored : orders (db w1) !! orderId = Some requested).
  { rewrite H1. cbn. rewrite Hk. apply lookup_insert_eq. }
  assert (Hget : getOrder_result env (db w1) user orderId = Some requested)
    by (rewrite Hget2; exact Hstored).
  assert (Hst : Order.status requested = "ACTIVE")
    by (subst requested; destruct order, first; exact Hactive).
  assert (Hrole : role_of user requested = first).
  { subst requested first. unfold role_of.
    destruct order; cbn.
    destruct (loose_eq (User._id user) buyer_id) eqn:E; cbn; rewrite E;
      reflexivity. }
  assert (Hflag : Order.cooperativecancel first requested = true)
    by (subst requested; destruct order, first; reflexivity).
  assert (Hparty : party_id (other first) requested
                   = party_id (other first) order)
    by (subst requested; destruct order, first; reflexivity).
  pose proof (cooperativecancel_db env w1 ctx2 user orderId requested
                Huser2 Hparams2 Hget) as Hdb.
  pose proof (cooperativecancel_log env w1 ctx2 user orderId requested
                Huser2 Hparams2 Hget) as Hlog.
  pose proof (cooperativecancel_escrow env w1 ctx2 user orderId requested
                Huser2 Hparams2 Hget) as [Hesc _].
  fold w2 in Hdb, Hlog, Hesc.
  rewrite Hrole, Hst, Hflag in Hdb, Hlog, Hesc.
  rewrite Hparty in Hlog.
  change (db w2 = db w1) in Hdb.
  change (cancel_calls (since w1 w2) = []) in Hesc.
  change (trace w2 =
          trace w1
          ++ outcome env (trace w1)
               (front (Call.validateUser ctx2 false) ctx2 user orderId
                  (Call.getOrder user orderId)
                ++ [ Call.User_findOne (party_id (other first) order);
                     Call.customMessage (Some user) Text.already_requested ]))
    in Hlog.
  split; [exact Hdb|].
  split; [rewrite Hdb; exact Hstored|].
  split; [exact Hst|].
  split.
  { subst requested. destruct order, first; cbn in *; assumption. }
  split; [|exact Hlog].
  rewrite (since_trace w w2
             (map Called calls1 ++ since w1 w2)).
  - rewrite cancel_calls_app, Hesc, app_nil_r.
    clear. subst calls1. unfold front.
    destruct (find_user (db w) (party_id (other first) order)); reflexivity.
  - rewrite (since_trace w1 w2 _ Hlog), Hlog, H1. cbn [trace].
    rewrite <- app_assoc. reflexivity.
Qed.
End Repeated.

(** Bob asks twice: the order is still ACTIVE, and the escrow is not
    touched. *)
Lemma cooperative_cancel_repeated_witness :
  Order.status <$>
    orders
      (db (run (cooperativecancel Example.reliable
                  (Example.command "u_buyer"))
             (run (cooperativecancel Example.reliable
                     (Example.command "u_buyer"))
                (Example.world Example.active)))) !! "o1"
  = Some "ACTIVE"
  /\ cancel_calls
       (since (Example.world Example.active)
          (run (cooperativecancel Example.reliable
                  (Example.command "u_buyer"))
             (run (cooperativecancel Example.reliable
                     (Example.command "u_buyer"))
                (Example.world Example.active))))
     = [].
Proof.
  assert (Hp : params_ok Example.reliable (Example.command "u_buyer")
                 Example.bob "o1")
    by (repeat split; discriminate).
  destruct (cooperative_cancel_repeated Example.reliable
              (Example.world Example.active)
              (Example.command "u_buyer") (Example.command "u_buyer")
              Example.bob "o1" Example.active
              eq_refl eq_refl eq_refl eq_refl
              eq_refl Hp eq_refl eq_refl
              eq_refl Hp eq_refl)
    as (_ & Hstored & _ & _ & Hcancel & _).
  split; [rewrite Hstored; reflexivity | exact Hcancel].
Defined.

(** ** Which command calls which function of the escrow *)

(** X19. Each command calls the escrow at most once and for one thing
    only, whoever sends it and whatever the validators and the calls do:
    [/release] and [/settleorder] can settle a hold invoice and never
    cancel one; [/cancel], [/cancelorder] and [/cooperativecancel] can
    cancel one and never settle one; [/takesell] alone creates a hold
    invoice, and subscribes to it at most once, after the creation;
    [/dispute], [/ban], [/fiatsent], [/addinvoice], [/checkorder] and the
    message of the earnings never call the escrow. *)
Theorem escrow_calls_by_command (env : Rest.Env) (ctx : Ctx) (w : World)
    (v : Rest.World) :
  let core := Rest.base env in
  let by_ handler := ln_calls (since w (run handler w)) in
  let only (kind : Call.t -> bool) (l : list Call.t) :=
    (length l <= 1)%nat /\ forallb kind l = true in
  only (fun c => match c with Call.settleHoldInvoice _ => true | _ => false end)
    (by_ (release core ctx))
  /\ only (fun c =>
             match c with Call.settleHoldInvoice _ => true | _ => false end)
       (by_ (settleorder core ctx))
  /\ only (fun c =>
             match c with Call.cancelHoldInvoice _ => true | _ => false end)
       (by_ (cancel core ctx))
  /\ only (fun c =>
             match c with Call.cancelHoldInvoice _ => true | _ => false end)
       (by_ (cancelorder core ctx))
  /\ only (fun c =>
             match c with Call.cancelHoldInvoice _ => true | _ => false end)
       (by_ (cooperativecancel core ctx))
  /\ (by_ (takesell core ctx) = []
      \/ (exists a d, by_ (takesell core ctx) = [Call.createHoldInvoice a d])
      \/ (exists a d,
            by_ (takesell core ctx)
            = [ Call.createHoldInvoice a d;
                Call.subscribeInvoice
                  (hi_hash (createHoldInvoice_result core a d)) ]))
  /\ by_ (dispute core ctx) = []
  /\ by_ (ban core ctx) = []
  /\ by_ (earningsMessage core ctx) = []
  /\ Rest.escrow_calls (Rest.since v (Rest.run (Rest.fiatsent env ctx) v)) = []
  /\ Rest.escrow_calls (Rest.since v (Rest.run (Rest.addinvoice env ctx) v))
     = []
  /\ Rest.escrow_calls (Rest.since v (Rest.run (Rest.checkorder env ctx) v))
     = [].
Proof.
  cbn zeta.
  split; [exec release; crunch; same_world; split; cbn; auto|].
  split; [exec settleorder; crunch; same_world; split; cbn; auto|].
  split; [exec cancel; crunch; same_world; split; cbn; auto|].
  split; [exec cancelorder; crunch; same_world; split; cbn; auto|].
  split; [exec cooperativecancel; crunch; same_world; split; cbn; auto|].
  split.
  { exec takesell; crunch; same_world; eauto. }
  split; [exec dispute; crunch; same_world|].
  split.
  { exec ban. crunch; same_world.
    all: repeat (match goal with
                 | |- context [match ?x with Some _ => _ | None => _ end] =>
                     destruct x eqn:?
                 end; cbn; use_facts); crunch; same_world. }
  split; [exec earningsMessage; crunch; same_world|].
  split; [exec2 Rest.fiatsent; crunch2; same_world2|].
  split; [exec2 Rest.addinvoice; crunch2; same_world2|].
  exec2 Rest.checkorder; crunch2; same_world2.
Qed.

(** ** From [/takesell] to [/cancel] *)

Section TakeThenCancel.
Variable env : Env.
Variables (w : World) (ctx1 ctx2 : Ctx) (taker owner : User.t)
  (orderId lnInvoice : string) (order : Order.t).
Hypothesis Hid : Order._id order = orderId.
Hypothesis Huser1 : validateUser_result env (db w) ctx1 false = Some taker.
Hypothesis Htake :
  validateTakeSell_result env (db w) ctx1 taker
  = Some (Some orderId, lnInvoice).
Hypothesis Hne : orderId <> "".
Hypothesis Hfound : orders (db w) !! orderId = Some order.
Hypothesis Hvalid :
  validateTakeSellOrder_result env (db w) taker lnInvoice (Some order) = true.

Let amount : Z := Qfloor (Order.amount order + Order.fee order).
Let description : string := "Venta por @" +:+ botInfo_username ctx1.
Let invoice : HoldInvoice := createHoldInvoice_result env amount description.
Let upto_create : list Call.t :=
  [ Call.validateUser ctx1 false;
    Call.validateTakeSell ctx1 taker;
    Call.Order_findOne orderId;
    Call.validateTakeSellOrder taker lnInvoice (Some order);
    Call.User_findOne (Order.creator_id order);
    Call.createHoldInvoice amount description ].
Let taken : Order.t :=
  Order.set_taken_at (Some (clock env (extend (trace w) upto_create)))
    (Order.set_secret (Some (hi_secret invoice))
       (Order.set_hash (Some (hi_hash invoice))
          (Order.set_buyer_invoice (Some lnInvoice)
             (Order.set_buyer_id (Some (User._id taker))
                (Order.set_status "WAITING_PAYMENT" order))))).

(** The order has been taken and saved; the node returned a hash. *)
Hypothesis Hsaved :
  resolves env (trace w) (upto_create ++ [Call.Order_save taken]) = true.
Hypothesis Hhash : hi_hash invoice <> "".

Let w1 : World := run (takesell env ctx1) w.

(** The owner cancels the order before the hold invoice is paid. *)
Hypothesis Huser2 : validateUser_result env (db w1) ctx2 false = Some owner.
Hypothesis Hparams2 : params_ok env ctx2 owner orderId.
Hypothesis Hget2 :
  getOrder_result env (db w1) owner orderId = orders (db w1) !! orderId.

Let w2 : World := run (cancel env ctx2) w1.
Let fr : list Call.t :=
  front (Call.validateUser ctx2 false) ctx2 owner orderId
    (Call.getOrder owner orderId).
Let canceled : Order.t :=
  Order.set_canceled_by (Some (User._id owner))
    (Order.set_status "CANCELED" taken).

(** X20. What [/takesell] locks, [/cancel] unlocks: when the owner
    cancels the order that has just been taken, the hold invoice that is
    cancelled is the one [/takesell] created for it, nothing is settled,
    and the order is stored CANCELED with its taker, its hash and its
    secret still on it. *)
Theorem takesell_then_cancel_refunds :
  orders (db w1) !! orderId = Some taken
  /\ cancel_calls (since w1 w2) =
     (if resolves env (trace w1) fr then [Some (hi_hash invoice)] else [])
  /\ settle_calls (since w1 w2) = []
  /\ db w2 =
     (if resolves env (trace w1)
           (fr ++ [ Call.cancelHoldInvoice (Some (hi_hash invoice));
                    Call.Order_save canceled ])
      then store_order canceled (db w1) else db w1)
  /\ Order.status canceled = "CANCELED"
  /\ Order.buyer_id canceled = Some (User._id taker)
  /\ Order.hash canceled = Some (hi_hash invoice)
  /\ Order.secret canceled = Some (hi_secret invoice).
Proof.
  pose proof (takesell_db env w ctx1 taker orderId lnInvoice order
                Huser1 Htake Hne Hfound Hvalid) as H1.
  fold amount description invoice upto_create taken w1 in H1.
  rewrite Hsaved in H1.
  assert (Hk : Order._id taken = orderId)
    by (subst taken; destruct order; exact Hid).
  assert (Hstored : orders (db w1) !! orderId = Some taken).
  { rewrite H1. cbn. rewrite Hk. apply lookup_insert_eq. }
  assert (Hget : getOrder_result env (db w1) owner orderId = Some taken)
    by (rewrite Hget2; exact Hstored).
  assert (Hst : Order.status taken = "WAITING_PAYMENT")
    by (subst taken; destruct order; reflexivity).
  assert (Hh : Order.hash taken = Some (hi_hash invoice))
    by (subst taken; destruct order; reflexivity).
  assert (Htr : truthy (Some (hi_hash invoice)) = true).
  { cbn. apply eqb_ne in Hhash. rewrite Hhash. reflexivity. }
  pose proof (cancel_db env w1 ctx2 owner orderId taken Huser2 Hparams2 Hget)
    as Hdb.
  pose proof (cancel_escrow env w1 ctx2 owner orderId taken
                Huser2 Hparams2 Hget) as [Hesc Hset].
  fold w2 fr canceled in Hdb, Hesc, Hset.
  rewrite Hst, Hh, Htr in Hdb, Hesc.
  split; [exact Hstored|].
  split; [exact Hesc|].
  split; [exact Hset|].
  split; [exact Hdb|].
  subst canceled taken. destruct order.
  repeat (split; [reflexivity|]). reflexivity.
Qed.
End TakeThenCancel.

(** Bob takes alice's order and alice cancels it: the hold invoice [h1]
    that was created for bob is the one cancelled. *)
Lemma takesell_then_cancel_refunds_witness :
  cancel_calls
    (since (run (takesell Example.reliable (Example.command "u_buyer"))
              (Example.world Example.pending))
       (run (cancel Example.reliable (Example.command "u_seller"))
          (run (takesell Example.reliable (Example.command "u_buyer"))
             (Example.world Example.pending))))
  = [Some "h1"]
  /\ ln_calls
       (trace
          (run (cancel Example.reliable (Example.command "u_seller"))
             (run (takesell Example.reliable (Example.command "u_buyer"))
                (Example.world Example.pending))))
     = [ Call.createHoldInvoice 100100 "Venta por @p2pbot";
         Call.subscribeInvoice "h1";
         Call.cancelHoldInvoice (Some "h1") ].
Proof.
  assert (Hne : "o1" <> "") by discriminate.
  assert (Hh : "h1" <> "") by discriminate.
  assert (Hp : params_ok Example.reliable (Example.command "u_seller")
                 Example.alice "o1")
    by (repeat split; discriminate).
  destruct (takesell_then_cancel_refunds Example.reliable
              (Example.world Example.pending)
              (Example.command "u_buyer") (Example.command "u_seller")
              Example.bob Example.alice "o1" "lnbc1buyer" Example.pending
              eq_refl eq_refl eq_refl Hne eq_refl eq_refl eq_refl Hh
              eq_refl Hp eq_refl)
    as (_ & Hcancel & _).
  split; [exact Hcancel | reflexivity].
Defined.
